(** * Mystical Campaign Engine: health score, whispers, feedback, publishing

    A shallow embedding of the scoring and bookkeeping services of the
    campaign console, and the properties of them stated by its
    specification.

    Conventions of the embedding:
    - a JavaScript [number] that only ever holds an integer (a count, a
      score, a time stamp) is a [Z]; a number that can hold a fraction is
      the rational it denotes, a [Q]. In the health score every operation
      on such numbers rounds its exact result to the nearest IEEE 754
      double ([double]), as the code's arithmetic does; the rates and
      averages of the feedback service and the shares of the whispers are
      kept exact, so that a comparison or a printed digit of theirs can
      differ from the code's where the exact value is a tie.
      [Math.round] is [Math_round], rounding halves upwards;
    - a JavaScript string is the [string] of the bytes of its UTF-8
      encoding, and [strlen] counts its UTF-16 code units, as [.length]
      does; [toLowerCase], whose result depends on the Unicode tables of
      the host, is a parameter ([Host]) of the functions that call it;
    - a field the code reads through [?.] or [|| default] is an [option];
    - the module-level [Map] of credentials is a [gmap] passed explicitly;
    - the clock and the IndexedDB stores are fields of an explicit [World]. *)

From Stdlib Require Import ZArith QArith Qround Qpower Qminmax Qabs Lqa String Ascii List Lia Bool DecimalString Sorted.
From stdpp Require Import gmap strings.

Open Scope string_scope.
Open Scope Z_scope.

(** ** JavaScript primitives used by the services *)

Module JS.

(** [Math.round]: the nearest integer, halves going up. *)
Definition Math_round (x : Q) : Z := Qfloor (x + (1 # 2)).

(** *** Doubles

    The doubles are the rationals [m * 2^e] with [|m| < 2^53] and
    [-1074 <= e]; an arithmetic operation returns the double nearest to its
    exact result, a tie going to the even significand. No number of the
    health score comes near [2^1024], where the doubles end. *)

(** [2^e] *)
Definition pow2 (e : Z) : Q := (2 ^ e)%Q.

(** The largest [e] with [2^e <= x], for a positive [x]. *)
Definition Qlog2 (x : Q) : Z :=
  let e := Z.log2 (Qnum x) - Z.log2 (Z.pos (Qden x)) in
  if Qle_bool (pow2 e) x then e else e - 1.

(** The nearest integer, a tie going to the even one. *)
Definition nearestEven (x : Q) : Z :=
  let f := Qfloor x in
  match (x - inject_Z f ?= 1 # 2)%Q with
  | Lt => f
  | Gt => f + 1
  | Eq => if Z.even f then f else f + 1
  end.

(** The exponent of the last place of the doubles around a positive [x]:
    53 significant bits, and no exponent under that of the subnormal
    numbers. *)
Definition lastPlace (x : Q) : Z := Z.max (Qlog2 x - 52) (-1074).

Definition nearestDouble (x : Q) : Q :=
  let u := pow2 (lastPlace x) in
  Qred (inject_Z (nearestEven (x / u)) * u).

(** The double nearest to [x]. *)
Definition double (x : Q) : Q :=
  match (Qred x ?= 0)%Q with
  | Eq => 0%Q
  | Gt => nearestDouble (Qred x)
  | Lt => (- nearestDouble (Qred (- x)))%Q
  end.

(** [x + y], [x * y] and [x / y] on numbers. *)
Definition num_add (x y : Q) : Q := double (x + y).
Definition num_mul (x y : Q) : Q := double (x * y).
Definition num_div (x y : Q) : Q := double (x / y).

(** [xs.length] of an array, as a number. *)
Definition lengthZ {A : Type} (xs : list A) : Z := Z.of_nat (List.length xs).

(** The UTF-16 code units that a byte of UTF-8 stands for: one for a
    one-byte character and for the first byte of a character of two or
    three bytes, two (a surrogate pair) for the first byte of a character of
    four bytes, none for a continuation byte. *)
Definition codeUnits (c : ascii) : Z :=
  let n := nat_of_ascii c in
  if (n <? 128)%nat then 1
  else if (n <? 192)%nat then 0
  else if (n <? 240)%nat then 1
  else 2.

(** [s.length] of a string: the number of its UTF-16 code units. *)
Fixpoint strlen (s : string) : Z :=
  match s with
  | EmptyString => 0
  | String c s' => codeUnits c + strlen s'
  end.

(** [xs || []] *)
Definition orEmpty {A : Type} (o : option (list A)) : list A :=
  match o with Some xs => xs | None => nil end.

(** [xs.push(x)], as the array after the call. *)
Definition push {A : Type} (xs : list A) (x : A) : list A := (xs ++ [x])%list.

(** [n || 0] for an optional number: [undefined] and [0] both give [0]. *)
Definition orZero (o : option Z) : Z :=
  match o with Some n => n | None => 0 end.

Definition is_upper (c : ascii) : bool :=
  let n := nat_of_ascii c in (65 <=? n)%nat && (n <=? 90)%nat.

Definition is_lower (c : ascii) : bool :=
  let n := nat_of_ascii c in (97 <=? n)%nat && (n <=? 122)%nat.

Definition is_digit (c : ascii) : bool :=
  let n := nat_of_ascii c in (48 <=? n)%nat && (n <=? 57)%nat.

(** The class [\w] of regular expressions. *)
Definition is_word_char (c : ascii) : bool :=
  is_upper c || is_lower c || is_digit c || Ascii.eqb c "_"%char.

Definition lower_char (c : ascii) : ascii :=
  if is_upper c then ascii_of_nat (nat_of_ascii c + 32) else c.

(** The letters A-Z lowered, every other byte kept: how a regular
    expression with the flag [i] (and without the flag [u]) compares the
    ASCII letters of its pattern with a text. *)
Fixpoint lowerASCII (s : string) : string :=
  match s with
  | EmptyString => EmptyString
  | String c s' => String (lower_char c) (lowerASCII s')
  end.

(** [s.toLowerCase()] is a primitive of the host: it lowers the capitals of
    every script by the Unicode tables the host ships. The services that
    call it take it as a parameter, and what is proved of them holds
    whatever it returns. *)
Class Host := Build_Host { toLowerCase : string -> string }.

(** The host on ASCII text, where [toLowerCase] lowers the letters A-Z. *)
Definition asciiHost : Host := Build_Host lowerASCII.

(** [s.startsWith(p)] *)
Fixpoint startsWith (s p : string) {struct p} : bool :=
  match p with
  | EmptyString => true
  | String a p' =>
      match s with
      | EmptyString => false
      | String b s' => Ascii.eqb a b && startsWith s' p'
      end
  end.

(** [s.includes(p)] *)
Fixpoint includes (s p : string) : bool :=
  startsWith s p ||
  match s with
  | EmptyString => false
  | String _ s' => includes s' p
  end.

Fixpoint existsb_char (f : ascii -> bool) (s : string) : bool :=
  match s with
  | EmptyString => false
  | String c s' => f c || existsb_char f s'
  end.

Fixpoint drop (n : nat) (s : string) : string :=
  match n, s with
  | O, _ => s
  | S _, EmptyString => EmptyString
  | S n', String _ s' => drop n' s'
  end.

(** [/\bword\b/i.test(s)] for a lower-case [word] made of word characters:
    [prev] tells whether the character before the current position is a
    word character. *)
Fixpoint test_word_from (word : string) (prev : bool) (s : string) : bool :=
  match s with
  | EmptyString => false
  | String c s' =>
      (negb prev
       && startsWith (lowerASCII s) word
       && match drop (String.length word) s with
          | EmptyString => true
          | String d _ => negb (is_word_char d)
          end)
      || test_word_from word (is_word_char c) s'
  end.

Definition test_word (word s : string) : bool := test_word_from word false s.

(** [`${n}`] for an integer. *)
Definition string_of_Z (n : Z) : string := NilZero.string_of_int (Z.to_int n).

(** [s.charAt(0).toUpperCase() + s.slice(1)] *)
Definition upper_char (c : ascii) : ascii :=
  if is_lower c then ascii_of_nat (nat_of_ascii c - 32) else c.

Definition capitalize (s : string) : string :=
  match s with
  | EmptyString => EmptyString
  | String c s' => String (upper_char c) s'
  end.

(** The one-character string holding a double quote. *)
Definition dquote : string := String (ascii_of_nat 34) EmptyString.

(** [xs.slice(0, n)] *)
Definition slice0 {A : Type} (n : nat) (xs : list A) : list A := List.firstn n xs.

(** One insertion of a stable sort: [x] goes before the first element whose
    rank is not smaller than its own. *)
Fixpoint insertBy {A : Type} (rank : A -> Z) (x : A) (xs : list A) : list A :=
  match xs with
  | [] => [x]
  | y :: ys => if rank x <=? rank y then x :: y :: ys else y :: insertBy rank x ys
  end.

(** [xs.sort((a, b) => rank(a) - rank(b))]: the sort of arrays is stable, so
    its result is the one of the stable insertion sort. *)
Definition sortBy {A : Type} (rank : A -> Z) (xs : list A) : list A :=
  fold_right (insertBy rank) [] xs.

(** The order that [sortBy] establishes. *)
Definition byRank {A : Type} (rank : A -> Z) (a b : A) : Prop := rank a <= rank b.

(** [a < b] on rationals. *)
Definition Qltb (a b : Q) : bool := negb (Qle_bool b a).

(** [counts[key] = (counts[key] || 0) + 1] on an object used as a map; the
    keys keep the order in which they were first written. *)
Fixpoint bump (key : string) (counts : list (string * Z)) : list (string * Z) :=
  match counts with
  | [] => [(key, 1)]
  | (k, n) :: rest =>
      if String.eqb k key then (k, n + 1) :: rest else (k, n) :: bump key rest
  end.

(** [counts[key]] *)
Fixpoint get (key : string) (counts : list (string * Z)) : option Z :=
  match counts with
  | [] => None
  | (k, n) :: rest => if String.eqb k key then Some n else get key rest
  end.

(** [s.replace(/_/g, ' ')] *)
Fixpoint underscores_to_spaces (s : string) : string :=
  match s with
  | EmptyString => EmptyString
  | String c s' =>
      String (if Ascii.eqb c "_"%char then " "%char else c) (underscores_to_spaces s')
  end.

End JS.

(** ** The brief and the blueprint (types.ts) *)

Module Types.

Record CampaignMeta := {
  campaign_name : string;
  purpose : string;
  pillars : option (list string);
  primary_theme : string }.

Record Audience := {
  archetypes : list string;
  hidden_truth : string;
  fears : list string;
  secret_desires : list string }.

Inductive CtaFlavor := soft_cosmic | direct_push | challenge_based | curiosity_based.

Record EmotionalFrequency := {
  humor : Z;
  relatability : Z;
  shock : Z;
  inspiration : Z;
  identity_shift : Z }.

Record CreativeInputs := {
  raw_brain_dump : string;
  must_include_phrases : list string;
  must_avoid_phrases : list string;
  voice_reference : string;
  cta_flavor : CtaFlavor;
  emotional_frequency : EmotionalFrequency }.

Record VisualInputs := {
  style_tags : list string;
  palette : string;
  instructor_image_url : string;
  logo_image_url : string }.

Record Formats := {
  f_memes : bool;
  f_static_banners : bool;
  f_short_vertical_videos : bool;
  f_ugc_scripts : bool;
  f_carousels : bool }.

Record Quantities := {
  q_memes : Z;
  q_static_banners : Z;
  q_short_vertical_videos : Z;
  q_ugc_scripts : Z;
  q_carousels : Z }.

Record OutputsConfig := {
  formats : Formats;
  quantities : Quantities;
  platforms : list string;
  aspect_ratios : list string;
  video_max_duration_seconds : Z }.

Inductive HumorEdge := safe | medium_spicy | spicy_but_kind.
Inductive BodySensitivity := no_body_shaming | neutral | soft_body_language.
Inductive LanguageFilter := clean | pg13 | mild_swear.
Inductive SpiritualityFlavor := grounded | grounded_cosmic | very_cosmic.

Record Constraints := {
  humor_edge_level : HumorEdge;
  body_sensitivity : BodySensitivity;
  language_filter : LanguageFilter;
  spirituality_flavor : SpiritualityFlavor }.

Record CampaignBrief := {
  meta : CampaignMeta;
  audience : Audience;
  creative : CreativeInputs;
  visual : VisualInputs;
  outputs : OutputsConfig;
  constraints : Constraints;
  special_notes : string }.

Record Meme := {
  meme_id : string;
  angle : string;
  top_text : string;
  bottom_text : string;
  alt_text : string;
  caption_options : list string;
  meme_hashtags : list string;
  meme_image_prompt : string;
  meme_aspect_ratios : list string }.

Record StaticBanner := {
  banner_id : string;
  headline : string;
  subheadline : string;
  bullets : list string;
  cta_text : string;
  layout_description : string;
  banner_image_prompt : string;
  banner_aspect_ratios : list string }.

Record ScriptBeat := {
  beat_index : Z;
  beat_seconds : Z;
  voiceover_text : string;
  on_screen_text : string;
  visual_direction : string }.

Record ShortVideo := {
  video_id : string;
  video_title : string;
  platform_targets : list string;
  max_duration_seconds : Z;
  script_beats : list ScriptBeat;
  storyboard_prompt : string;
  subtitles_block : string }.

Record ScriptBlock := {
  block_index : Z;
  block_seconds : Z;
  spoken_text : string;
  emotion_note : string;
  framing_note : string }.

Record UGCScript := {
  ugc_id : string;
  hook_line : string;
  persona : string;
  script_blocks : list ScriptBlock;
  wardrobe_note : string;
  lighting_note : string;
  overlay_text_cues : list string;
  cta_line : string }.

Record CarouselSlide := {
  slide_number : Z;
  visual_description : string;
  slide_image_prompt : string;
  slide_headline : string;
  body_copy : string }.

Record Carousel := {
  carousel_id : string;
  carousel_title : string;
  slides : list CarouselSlide }.

Record MomentsMapping := {
  moment_type : string;
  use_case : string;
  suggested_line : string;
  where_to_use : string }.

Record CampaignSummary := {
  one_liner : option string;
  summary_pillars : option (list string);
  core_promise : option string;
  primary_emotions : option (list string);
  tone_description : option string }.

Record NarrativePack := {
  hooks : option (list string);
  pain_points : option (list string);
  micro_transformations : option (list string);
  cta_variants : option (list string);
  taglines : option (list string) }.

Record CampaignBlueprint := {
  campaign_summary : CampaignSummary;
  narrative_pack : NarrativePack;
  memes : option (list Meme);
  static_banners : option (list StaticBanner);
  short_videos : option (list ShortVideo);
  ugc_scripts : option (list UGCScript);
  carousels : option (list Carousel);
  moments_mapping : list MomentsMapping }.

End Types.

(** ** The Oracle health score (services/healthScore.ts) *)

Module HealthScore.
Import JS Types.

Inductive InsightType := strength | warning | opportunity.
Inductive Impact := low | medium | high.

Record HealthInsight := {
  type : InsightType;
  category : string;
  message : string;
  impact : Impact }.

Record Breakdown := {
  narrativeStrength : Z;
  emotionalBalance : Z;
  assetCoverage : Z;
  hookQuality : Z;
  ctaClarity : Z;
  pillarAlignment : Z }.

Record HealthScoreResult := {
  overall : Z;
  breakdown : Breakdown;
  insights : list HealthInsight;
  recommendations : list string }.

(** [xs?.length || 0] *)
Definition lengthOrZero {A : Type} (o : option (list A)) : Z :=
  match o with Some xs => lengthZ xs | None => 0 end.

(** [s && s.length > n] *)
Definition longerThan (o : option string) (n : Z) : bool :=
  match o with Some s => n <? strlen s | None => false end.

Definition analyzeNarrativeStrength (blueprint : CampaignBlueprint) : Z :=
  let score := 0 in
  let narrative := narrative_pack blueprint in
  let hookCount := lengthOrZero (hooks narrative) in
  let score := score + Z.min (hookCount * 5) 25 in
  let painCount := lengthOrZero (pain_points narrative) in
  let score := score + Z.min (painCount * 5) 20 in
  let transCount := lengthOrZero (micro_transformations narrative) in
  let score := score + Z.min (transCount * 5) 20 in
  let taglineCount := lengthOrZero (taglines narrative) in
  let score := score + Z.min (taglineCount * 4) 20 in
  let summary := campaign_summary blueprint in
  let score := if longerThan (one_liner summary) 10 then score + 5 else score in
  let score := if longerThan (core_promise summary) 10 then score + 5 else score in
  let score := if longerThan (tone_description summary) 10 then score + 5 else score in
  Z.min score 100.

(** [Object.entries(freq)], in the order in which the keys are declared. *)
Definition freqEntries (freq : EmotionalFrequency) : list (string * Z) :=
  [ ("humor", humor freq); ("relatability", relatability freq);
    ("shock", shock freq); ("inspiration", inspiration freq);
    ("identity_shift", identity_shift freq) ].

(** [Math.max(...xs)] and [Math.min(...xs)] of a non-empty array. *)
Definition maxOf (xs : list Z) : Z :=
  match xs with [] => 0 | x :: rest => fold_left Z.max rest x end.
Definition minOf (xs : list Z) : Z :=
  match xs with [] => 0 | x :: rest => fold_left Z.min rest x end.

Definition positiveWords : list string :=
  ["joy"; "inspiration"; "hope"; "excitement"; "empowerment"].
Definition tensionWords : list string :=
  ["urgency"; "fomo"; "frustration"; "challenge"].

Section WithHost.
Context {host : Host}.

(** [xs.some(e => words.some(w => e.toLowerCase().includes(w)))] *)
Definition someIncludes (xs words : list string) : bool :=
  existsb (fun e => existsb (fun w => includes (toLowerCase e) w) words) xs.

Definition analyzeEmotionalBalance
    (brief : CampaignBrief) (blueprint : CampaignBlueprint) : Z :=
  let freq := emotional_frequency (creative brief) in
  let emotions := orEmpty (primary_emotions (campaign_summary blueprint)) in
  let score := 50 in
  let highFreqEmotions :=
    map fst (List.filter (fun kv => 7 <=? snd kv) (freqEntries freq)) in
  let score :=
    if (2 <=? lengthZ emotions) && (lengthZ emotions <=? 5)
    then score + 20 else score in
  let hasPositive := someIncludes emotions positiveWords in
  let hasTension := someIncludes emotions tensionWords in
  let score := if hasPositive then score + 15 else score in
  let score := if hasTension then score + 15 else score in
  let maxFreq := maxOf (map snd (freqEntries freq)) in
  let minFreq := minOf (map snd (freqEntries freq)) in
  let score := if 7 <? maxFreq - minFreq then score - 15 else score in
  Z.max 0 (Z.min score 100).

(** The two counters of [analyzeAssetCoverage]. *)
Record Coverage := {
  totalRequested : Z;
  totalGenerated : Q }.

(** One round of the [forEach] over the requested asset types: [req] is the
    requested quantity and [gen] the generated one. *)
Definition coverageStep (acc : Coverage) (rg : Z * Z) : Coverage :=
  let (req, gen) := rg in
  if 0 <? req then
    let requested' := totalRequested acc + 1 in
    if req <=? gen then
      {| totalRequested := requested';
         totalGenerated := num_add (totalGenerated acc) 1 |}
    else if 0 <? gen then
      {| totalRequested := requested';
         totalGenerated :=
           num_add (totalGenerated acc) (num_div (inject_Z gen) (inject_Z req)) |}
    else
      {| totalRequested := requested'; totalGenerated := totalGenerated acc |}
  else acc.

(** The requested and the generated quantity of every asset type, in the
    order of the keys of [brief.outputs.quantities]. *)
Definition requestedGenerated
    (brief : CampaignBrief) (blueprint : CampaignBlueprint) : list (Z * Z) :=
  let requested := quantities (outputs brief) in
  [ (q_memes requested, lengthOrZero (memes blueprint));
    (q_static_banners requested, lengthOrZero (static_banners blueprint));
    (q_short_vertical_videos requested, lengthOrZero (short_videos blueprint));
    (q_ugc_scripts requested, lengthOrZero (ugc_scripts blueprint));
    (q_carousels requested, lengthOrZero (carousels blueprint)) ].

Definition coverageOf (rgs : list (Z * Z)) : Coverage :=
  fold_left coverageStep rgs {| totalRequested := 0; totalGenerated := 0%Q |}.

Definition analyzeAssetCoverage
    (brief : CampaignBrief) (blueprint : CampaignBlueprint) : Z :=
  let totals := coverageOf (requestedGenerated brief blueprint) in
  if 0 <? totalRequested totals then
    Math_round (num_mul (num_div (totalGenerated totals)
                                 (inject_Z (totalRequested totals))) 100)
  else 100.

Definition emotionWords : list string :=
  ["stop"; "never"; "secret"; "truth"; "why"; "how"; "what if"; "imagine"; "finally"].

(** The points one hook adds to the running score; the two regular
    expressions carry the flag [i]. *)
Definition hookPoints (hook : string) : Z :=
  let len := strlen hook in
  let score :=
    if (20 <=? len) && (len <=? 100) then 10
    else if len <? 20 then 5 else 0 in
  let hasQuestion := includes hook "?" in
  let hasNumber := existsb_char is_digit hook in
  let hasEmotionWord := existsb (fun w => includes (lowerASCII hook) w) emotionWords in
  let hasYou := test_word "you" hook in
  let score := if hasQuestion then score + 5 else score in
  let score := if hasNumber then score + 3 else score in
  let score := if hasEmotionWord then score + 5 else score in
  let score := if hasYou then score + 2 else score in
  score.

Definition analyzeHookQuality (blueprint : CampaignBlueprint) : Z :=
  let hooks := orEmpty (hooks (narrative_pack blueprint)) in
  if lengthZ hooks =? 0 then 0
  else
    let score := fold_left (fun score hook => score + hookPoints hook) hooks 0 in
    Z.min (Math_round (num_mul (num_div (inject_Z score) (inject_Z (lengthZ hooks))) 4)) 100.

Definition actionWords : list string :=
  ["start"; "join"; "get"; "try"; "discover"; "unlock"; "claim"; "begin"; "transform"].
Definition urgencyWords : list string :=
  ["now"; "today"; "free"; "limited"; "exclusive"].

Definition analyzeCtaClarity (blueprint : CampaignBlueprint) : Z :=
  let ctas := orEmpty (cta_variants (narrative_pack blueprint)) in
  if lengthZ ctas =? 0 then 30
  else
    let score := 50 in
    let score :=
      if 3 <=? lengthZ ctas then score + 20
      else if 2 <=? lengthZ ctas then score + 10 else score in
    let hasActionWords := someIncludes ctas actionWords in
    let score := if hasActionWords then score + 15 else score in
    let hasUrgency := someIncludes ctas urgencyWords in
    let score := if hasUrgency then score + 15 else score in
    Z.min score 100.

(** [generatedPillars.some(gp => gp.toLowerCase().includes(p.toLowerCase()))] *)
Definition pillarMatched (generatedPillars : list string) (p : string) : bool :=
  existsb (fun gp => includes (toLowerCase gp) (toLowerCase p)) generatedPillars.

Definition analyzePillarAlignment
    (brief : CampaignBrief) (blueprint : CampaignBlueprint) : Z :=
  let requestedPillars := orEmpty (pillars (meta brief)) in
  let generatedPillars := orEmpty (summary_pillars (campaign_summary blueprint)) in
  if lengthZ requestedPillars =? 0 then 100
  else
    let matchCount :=
      lengthZ (List.filter (pillarMatched generatedPillars) requestedPillars) in
    Math_round (num_mul (num_div (inject_Z matchCount)
                                 (inject_Z (lengthZ requestedPillars))) 100).

Definition insight (t : InsightType) (c m : string) (i : Impact) : HealthInsight :=
  {| type := t; category := c; message := m; impact := i |}.

Definition generateInsights
    (brief : CampaignBrief) (blueprint : CampaignBlueprint)
    (breakdown : Breakdown) : list HealthInsight :=
  let insights : list HealthInsight := [] in
  let insights :=
    if 80 <=? narrativeStrength breakdown then
      push insights (insight strength "Narrative"
        "Strong narrative foundation with compelling hooks and transformations." high)
    else if narrativeStrength breakdown <? 50 then
      push insights (insight warning "Narrative"
        "Narrative needs more hooks and pain point articulation." high)
    else insights in
  let insights :=
    if 75 <=? emotionalBalance breakdown then
      push insights (insight strength "Emotion"
        "Well-balanced emotional mix creates compelling tension." medium)
    else if emotionalBalance breakdown <? 50 then
      push insights (insight warning "Emotion"
        "Emotional frequencies are imbalanced. Consider adjusting." medium)
    else insights in
  let insights :=
    if assetCoverage breakdown <? 80 then
      push insights (insight warning "Assets"
        "Some requested asset types are under-delivered." medium)
    else insights in
  let insights :=
    if 80 <=? hookQuality breakdown then
      push insights (insight strength "Hooks"
        "Scroll-stopping hooks with strong pattern interrupts." high)
    else if hookQuality breakdown <? 50 then
      push insights (insight opportunity "Hooks"
        "Hooks could be punchier. Add questions or numbers." high)
    else insights in
  let insights :=
    if 80 <=? ctaClarity breakdown then
      push insights (insight strength "CTAs"
        "Clear, action-oriented calls to action." medium)
    else insights in
  let insights :=
    if (pillarAlignment breakdown <? 100) && (0 <? pillarAlignment breakdown) then
      push insights (insight warning "Strategy"
        "Not all strategic pillars are reflected in the blueprint." low)
    else insights in
  insights.

Definition generateRecommendations
    (breakdown : Breakdown) (insights : list HealthInsight) : list string :=
  let recommendations : list string := [] in
  let recommendations :=
    if hookQuality breakdown <? 70 then
      push recommendations
        "Add more questions and numbers to your hooks for higher engagement."
    else recommendations in
  let recommendations :=
    if emotionalBalance breakdown <? 60 then
      push recommendations
        "Balance positive emotions (inspiration, hope) with tension (urgency, FOMO)."
    else recommendations in
  let recommendations :=
    if narrativeStrength breakdown <? 60 then
      push recommendations
        "Develop more micro-transformations to show the journey."
    else recommendations in
  let recommendations :=
    if ctaClarity breakdown <? 60 then
      push recommendations
        ("Use stronger action verbs in CTAs: " ++ dquote ++ "Unlock" ++ dquote
         ++ ", " ++ dquote ++ "Claim" ++ dquote
         ++ ", " ++ dquote ++ "Transform" ++ dquote ++ ".")%string
    else recommendations in
  let recommendations :=
    if assetCoverage breakdown <? 80 then
      push recommendations
        "Consider regenerating the blueprint to meet all asset requirements."
    else recommendations in
  let recommendations :=
    if lengthZ recommendations =? 0 then
      push recommendations
        "Campaign is strong. Consider A/B testing hooks for optimization."
    else recommendations in
  recommendations.

(** The weights of the rubric: the doubles that the six literals denote. *)
Record Weights := {
  w_narrativeStrength : Q;
  w_emotionalBalance : Q;
  w_assetCoverage : Q;
  w_hookQuality : Q;
  w_ctaClarity : Q;
  w_pillarAlignment : Q }.

Definition weights : Weights :=
  {| w_narrativeStrength := double 0.20;
     w_emotionalBalance := double 0.15;
     w_assetCoverage := double 0.20;
     w_hookQuality := double 0.20;
     w_ctaClarity := double 0.15;
     w_pillarAlignment := double 0.10 |}.

Definition breakdownOf
    (brief : CampaignBrief) (blueprint : CampaignBlueprint) : Breakdown :=
  {| narrativeStrength := analyzeNarrativeStrength blueprint;
     emotionalBalance := analyzeEmotionalBalance brief blueprint;
     assetCoverage := analyzeAssetCoverage brief blueprint;
     hookQuality := analyzeHookQuality blueprint;
     ctaClarity := analyzeCtaClarity blueprint;
     pillarAlignment := analyzePillarAlignment brief blueprint |}.

(** The sum of the six products, added from left to right. *)
Definition weightedSum (b : Breakdown) (w : Weights) : Q :=
  num_add
    (num_add
       (num_add
          (num_add
             (num_add
                (num_mul (inject_Z (narrativeStrength b)) (w_narrativeStrength w))
                (num_mul (inject_Z (emotionalBalance b)) (w_emotionalBalance w)))
             (num_mul (inject_Z (assetCoverage b)) (w_assetCoverage w)))
          (num_mul (inject_Z (hookQuality b)) (w_hookQuality w)))
       (num_mul (inject_Z (ctaClarity b)) (w_ctaClarity w)))
    (num_mul (inject_Z (pillarAlignment b)) (w_pillarAlignment w)).

Definition analyzeHealthScore
    (brief : CampaignBrief) (blueprint : CampaignBlueprint) : HealthScoreResult :=
  let breakdown := breakdownOf brief blueprint in
  let overall := Math_round (weightedSum breakdown weights) in
  let insights := generateInsights brief blueprint breakdown in
  let recommendations := generateRecommendations breakdown insights in
  {| overall := overall;
     breakdown := breakdown;
     insights := insights;
     recommendations := recommendations |}.

End WithHost.

End HealthScore.

(** ** The browser environment: clock and IndexedDB stores
    (services/storageService.ts) *)

Module Storage.
Import JS Types.

Record StoredCampaign := {
  id : string;
  name : string;
  brief : option CampaignBrief;
  blueprint : option CampaignBlueprint;
  createdAt : Z;
  updatedAt : Z;
  healthScore : option Z;
  tags : option (list string) }.

Record StoredAsset := {
  asset_id : string;
  campaignId : string;
  type : string;
  dataUrl : string;
  prompt : string;
  asset_createdAt : Z;
  asset_tags : option (list string) }.

(** The two object stores the whispers read, each as the records of the
    index that the service reads ([updatedAt] for campaigns, [createdAt]
    for assets), in index order. *)
Record Database := {
  campaigns : list StoredCampaign;
  assets : list StoredAsset }.

(** What a call can observe outside its arguments: the clock ([Date.now()]
    in milliseconds, and the month and the day of the week of [new Date()]
    in local time, one reading for the whole call) and the database, which
    is [None] when it cannot be opened or a request fails. *)
Record World := {
  now : Z;
  month : Z;
  dayOfWeek : Z;
  database : option Database }.

(** [oracleStorage.getAllCampaigns()]: [None] stands for a rejected promise. *)
Definition getAllCampaigns (w : World) : option (list StoredCampaign) :=
  match database w with
  | Some db => Some (List.rev (campaigns db))
  | None => None
  end.

Definition getAllAssets (w : World) : option (list StoredAsset) :=
  match database w with
  | Some db => Some (List.rev (assets db))
  | None => None
  end.

End Storage.

(** ** Proactive whispers (services/whisperService.ts) *)

Module WhisperService.
Import JS Types Storage.

Inductive WhisperType := insight | suggestion | warning | opportunity.
Inductive Category := cat_assets | engagement | trends | optimization | timing.
Inductive Priority := low | medium | high.

Record Whisper := {
  id : string;
  type : WhisperType;
  category : Category;
  title : string;
  message : string;
  action : option string;
  actionLabel : option string;
  priority : Priority;
  icon : string;
  createdAt : Z }.

Definition getAssetSuggestion (type : string) : string :=
  if String.eqb type "meme" then "Memes drive high shareability and relatability."
  else if String.eqb type "banner" then "Banners are great for professional platforms and ads."
  else if String.eqb type "storyboard" then
    "Storyboards help visualize video concepts before production."
  else if String.eqb type "carousel" then
    "Carousels drive deep engagement, especially on LinkedIn."
  else "".

Definition getAssetIcon (type : string) : string :=
  if String.eqb type "meme" then "🖼️"
  else if String.eqb type "banner" then "🎨"
  else if String.eqb type "storyboard" then "🎬"
  else if String.eqb type "carousel" then "🎠"
  else "📦".

Definition assetTypes : list string := ["meme"; "banner"; "storyboard"; "carousel"].

(** [!counts[key] || counts[key] < total * share] *)
Definition underShare (counts : list (string * Z)) (key : string) (total : Z) (share : Q)
  : bool :=
  match get key counts with
  | None => true
  | Some n => (n =? 0) || Qltb (inject_Z n) (inject_Z total * share)
  end.

Definition analyzeAssetDistribution (w : World) (assets : list StoredAsset) : list Whisper :=
  let whispers : list Whisper := [] in
  if lengthZ assets =? 0 then whispers
  else
    let byType := fold_left (fun counts a => bump (Storage.type a) counts) assets [] in
    let total := lengthZ assets in
    let types := byType in
    let whispers :=
      fold_left (fun whispers type =>
        if underShare byType type total 0.1 then
          push whispers
            {| id := "whisper_asset_" ++ type ++ "_" ++ string_of_Z (now w);
               type := suggestion;
               category := cat_assets;
               title := capitalize type ++ "s Underused";
               message := "You've created few " ++ type ++ "s. " ++ getAssetSuggestion type;
               action := None;
               actionLabel := None;
               priority := medium;
               icon := getAssetIcon type;
               createdAt := now w |}
        else whispers) assetTypes whispers in
    let whispers :=
      fold_left (fun whispers (entry : string * Z) =>
        let (type, count) := entry in
        if Qltb (inject_Z total * 0.6) (inject_Z count) then
          push whispers
            {| id := "whisper_overuse_" ++ type ++ "_" ++ string_of_Z (now w);
               type := insight;
               category := cat_assets;
               title := "Asset Mix Imbalance";
               message :=
                 string_of_Z (Math_round (inject_Z count / inject_Z total * 100)%Q)
                 ++ "% of your assets are " ++ type
                 ++ "s. Diversifying could reach different audience segments.";
               action := None;
               actionLabel := None;
               priority := low;
               icon := "⚖️";
               createdAt := now w |}
        else whispers) types whispers in
    whispers.

(** [c.healthScore || 0] *)
Definition healthOf (c : StoredCampaign) : Z := orZero (healthScore c).

Definition analyzeCampaignPatterns (w : World) (campaigns : list StoredCampaign)
  : list Whisper :=
  let whispers : list Whisper := [] in
  if lengthZ campaigns <? 2 then whispers
  else
    let recentCampaigns := slice0 5 campaigns in
    let total := fold_left (fun sum c => sum + healthOf c) recentCampaigns 0 in
    let avgHealth := (inject_Z total / inject_Z (lengthZ recentCampaigns))%Q in
    let whispers :=
      if Qltb avgHealth 60 then
        push whispers
          {| id := "whisper_health_" ++ string_of_Z (now w);
             type := warning;
             category := optimization;
             title := "Health Scores Trending Low";
             message := "Your recent campaigns average "
               ++ string_of_Z (Math_round avgHealth)
               ++ " health. Focus on stronger hooks and clearer CTAs.";
             action := None;
             actionLabel := None;
             priority := high;
             icon := "💊";
             createdAt := now w |}
      else if Qle_bool 80 avgHealth then
        push whispers
          {| id := "whisper_health_good_" ++ string_of_Z (now w);
             type := insight;
             category := optimization;
             title := "Strong Campaign Performance";
             message := "Your campaigns are averaging "
               ++ string_of_Z (Math_round avgHealth)
               ++ " health. Keep up the momentum!";
             action := None;
             actionLabel := None;
             priority := low;
             icon := "🌟";
             createdAt := now w |}
      else whispers in
    let whispers :=
      if 3 <=? lengthZ recentCampaigns then
        let scores := map healthOf recentCampaigns in
        match scores with
        | s0 :: s1 :: s2 :: _ =>
            if (s0 <? s1) && (s1 <? s2) then
              push whispers
                {| id := "whisper_declining_" ++ string_of_Z (now w);
                   type := warning;
                   category := optimization;
                   title := "Declining Campaign Quality";
                   message := "Health scores have dropped for 3 consecutive campaigns. Review what changed in your approach.";
                   action := None;
                   actionLabel := None;
                   priority := high;
                   icon := "📉";
                   createdAt := now w |}
            else whispers
        | _ => whispers
        end
      else whispers in
    whispers.

Definition msPerDay : Z := 1000 * 60 * 60 * 24.

Definition analyzeTimingPatterns (w : World) (campaigns : list StoredCampaign)
  : list Whisper :=
  let whispers : list Whisper := [] in
  match campaigns with
  | [] => whispers
  | lastCampaign :: _ =>
      let daysSinceLast := (now w - updatedAt lastCampaign) / msPerDay in
      let whispers :=
        if 14 <? daysSinceLast then
          push whispers
            {| id := "whisper_inactive_" ++ string_of_Z (now w);
               type := suggestion;
               category := timing;
               title := "Time for Fresh Content";
               message := "It's been " ++ string_of_Z daysSinceLast
                 ++ " days since your last campaign. Consistency builds audience trust.";
               action := None;
               actionLabel := Some "Start New Campaign";
               priority := medium;
               icon := "📅";
               createdAt := now w |}
        else whispers in
      let thisWeek :=
        lengthZ (List.filter
                   (fun c => now w - 7 * 24 * 60 * 60 * 1000 <? Storage.createdAt c)
                   campaigns) in
      let whispers :=
        if 5 <=? thisWeek then
          push whispers
            {| id := "whisper_prolific_" ++ string_of_Z (now w);
               type := insight;
               category := timing;
               title := "Prolific Week";
               message := "You've created " ++ string_of_Z thisWeek
                 ++ " campaigns this week. Make sure quality matches quantity.";
               action := None;
               actionLabel := None;
               priority := low;
               icon := "🔥";
               createdAt := now w |}
        else whispers in
      whispers
  end.

Definition generateOpportunities
    (w : World) (campaigns : list StoredCampaign) (assets : list StoredAsset)
  : list Whisper :=
  let whispers : list Whisper := [] in
  let whispers :=
    if (month w =? 11) || (month w =? 0) then
      push whispers
        {| id := "whisper_seasonal_" ++ string_of_Z (now w);
           type := opportunity;
           category := trends;
           title := "New Year Campaign Opportunity";
           message := "New Year resolutions drive high engagement. Consider "
             ++ dquote ++ "fresh start" ++ dquote ++ " and "
             ++ dquote ++ "transformation" ++ dquote ++ " themes.";
           action := None;
           actionLabel := None;
           priority := medium;
           icon := "🎯";
           createdAt := now w |}
    else whispers in
  let whispers :=
    if dayOfWeek w =? 1 then
      push whispers
        {| id := "whisper_monday_" ++ string_of_Z (now w);
           type := opportunity;
           category := timing;
           title := "Monday Motivation";
           message := "Motivation content performs well on Mondays. Perfect time for a new campaign launch.";
           action := None;
           actionLabel := None;
           priority := low;
           icon := "💪";
           createdAt := now w |}
    else whispers in
  let carouselCount :=
    lengthZ (List.filter (fun a => String.eqb (Storage.type a) "carousel") assets) in
  let whispers :=
    if (carouselCount <? 3) && (2 <? lengthZ campaigns) then
      push whispers
        {| id := "whisper_carousel_" ++ string_of_Z (now w);
           type := opportunity;
           category := trends;
           title := "LinkedIn Carousel Opportunity";
           message := "Carousels are driving high engagement on LinkedIn. Consider adding more to your mix.";
           action := None;
           actionLabel := None;
           priority := medium;
           icon := "🎠";
           createdAt := now w |}
    else whispers in
  whispers.

Definition allPillars : list string := ["primal_flow_fusion"; "animator_shift"; "moments"].

(** [c.brief?.meta?.pillars || []] *)
Definition pillarsOf (c : StoredCampaign) : list string :=
  match Storage.brief c with
  | Some b => orEmpty (pillars (meta b))
  | None => []
  end.

Definition analyzePillarUsage (w : World) (campaigns : list StoredCampaign)
  : list Whisper :=
  let whispers : list Whisper := [] in
  if lengthZ campaigns <? 3 then whispers
  else
    let pillarCount :=
      fold_left (fun counts c =>
        fold_left (fun counts p => bump p counts) (pillarsOf c) counts) campaigns [] in
    let total := lengthZ campaigns in
    fold_left (fun whispers pillar =>
      if underShare pillarCount pillar total 0.2 then
        push whispers
          {| id := "whisper_pillar_" ++ pillar ++ "_" ++ string_of_Z (now w);
             type := suggestion;
             category := optimization;
             title := "Underused Pillar: " ++ underscores_to_spaces pillar;
             message := "The " ++ dquote ++ underscores_to_spaces pillar ++ dquote
               ++ " pillar hasn't been featured much. It could open new creative angles.";
             action := None;
             actionLabel := None;
             priority := low;
             icon := "🏛️";
             createdAt := now w |}
      else whispers) allPillars whispers.

Definition priorityOrder (p : Priority) : Z :=
  match p with high => 0 | medium => 1 | low => 2 end.

(** The whispers gathered inside the [try] block; a rejected read of the
    database leaves the list empty. *)
Definition gatherWhispers (w : World) : list Whisper :=
  match getAllCampaigns w, getAllAssets w with
  | Some campaigns, Some assets =>
      (analyzeAssetDistribution w assets
       ++ analyzeCampaignPatterns w campaigns
       ++ analyzeTimingPatterns w campaigns
       ++ generateOpportunities w campaigns assets
       ++ analyzePillarUsage w campaigns)%list
  | _, _ => []
  end.

Definition generateWhispers (w : World) : list Whisper :=
  slice0 5 (sortBy (fun a => priorityOrder (priority a)) (gatherWhispers w)).

End WhisperService.

(** ** Performance feedback (services/feedbackService.ts) *)

Module FeedbackService.
Import JS.

Record PerformanceMetrics := {
  views : option Z;
  impressions : option Z;
  likes : option Z;
  comments : option Z;
  shares : option Z;
  saves : option Z;
  clicks : option Z;
  engagementRate : option Q;
  clickThroughRate : option Q;
  reach : option Z;
  followers : option Z }.

(** [a || b] on optional numbers: [a] when it is present and not zero. *)
Definition orElse (a : option Z) (b : Z) : Z :=
  match a with
  | Some n => if n =? 0 then b else n
  | None => b
  end.

(** [a / b] as JavaScript evaluates it: [None] stands for the results that
    are not finite numbers, which is what a zero divisor gives. *)
Definition divide (a b : Z) : option Q :=
  if b =? 0 then None else Some (inject_Z a / inject_Z b)%Q.

(** The sum of the four engagement counters. *)
Definition engagementsOf (metrics : PerformanceMetrics) : Z :=
  orZero (likes metrics) + orZero (comments metrics)
  + orZero (shares metrics) + orZero (saves metrics).

(** [metrics.reach || metrics.impressions || metrics.views || 1] *)
Definition reachOf (metrics : PerformanceMetrics) : Z :=
  orElse (reach metrics) (orElse (impressions metrics) (orElse (views metrics) 1)).

Definition calculateEngagementRate (metrics : PerformanceMetrics) : option Q :=
  let engagements := engagementsOf metrics in
  let reach := reachOf metrics in
  match divide engagements reach with
  | Some q => Some (q * 100)%Q
  | None => None
  end.

End FeedbackService.

(** ** Direct publishing stubs (services/publishingService.ts) *)

Module PublishingService.
Import JS.

(** A platform is the string the request carries: the type admits four of
    them, and [publish] has a branch for any other. *)
Abbreviation Platform := string (only parsing).

Record PlatformCredentials := {
  cred_platform : Platform;
  accessToken : string;
  refreshToken : option string;
  expiresAt : option Z;
  accountId : option string;
  accountName : option string }.

Record Content := {
  text : option string;
  imageUrl : option string;
  videoUrl : option string;
  link : option string;
  hashtags : option (list string) }.

Record Scheduling := {
  publishAt : option Z;
  timezone : option string }.

Record PublishRequest := {
  platform : Platform;
  content : Content;
  scheduling : option Scheduling }.

Record PublishResult := {
  success : bool;
  result_platform : Platform;
  postId : option string;
  postUrl : option string;
  error : option string;
  publishedAt : option Z }.

Record PlatformConfig := {
  config_platform : Platform;
  name : string;
  icon : string;
  color : string;
  supportsImages : bool;
  supportsVideo : bool;
  supportsScheduling : bool;
  maxTextLength : Z;
  aspectRatios : list string;
  authUrl : option string }.

Definition config_meta : PlatformConfig :=
  {| config_platform := "meta";
     name := "Meta (Instagram/Facebook)";
     icon := "üìò";
     color := "#1877F2";
     supportsImages := true;
     supportsVideo := true;
     supportsScheduling := true;
     maxTextLength := 2200;
     aspectRatios := ["1:1"; "4:5"; "9:16"];
     authUrl := Some "https://www.facebook.com/v18.0/dialog/oauth" |}.

Definition config_tiktok : PlatformConfig :=
  {| config_platform := "tiktok";
     name := "TikTok";
     icon := "üéµ";
     color := "#000000";
     supportsImages := false;
     supportsVideo := true;
     supportsScheduling := false;
     maxTextLength := 2200;
     aspectRatios := ["9:16"];
     authUrl := Some "https://www.tiktok.com/auth/authorize/" |}.

Definition config_linkedin : PlatformConfig :=
  {| config_platform := "linkedin";
     name := "LinkedIn";
     icon := "üíº";
     color := "#0A66C2";
     supportsImages := true;
     supportsVideo := true;
     supportsScheduling := true;
     maxTextLength := 3000;
     aspectRatios := ["1:1"; "16:9"; "4:5"];
     authUrl := Some "https://www.linkedin.com/oauth/v2/authorization" |}.

Definition config_twitter : PlatformConfig :=
  {| config_platform := "twitter";
     name := "X (Twitter)";
     icon := "ùïè";
     color := "#000000";
     supportsImages := true;
     supportsVideo := true;
     supportsScheduling := true;
     maxTextLength := 280;
     aspectRatios := ["16:9"; "1:1"];
     authUrl := Some "https://twitter.com/i/oauth2/authorize" |}.

(** [PLATFORM_CONFIGS[platform]] *)
Definition PLATFORM_CONFIGS (platform : Platform) : option PlatformConfig :=
  if String.eqb platform "meta" then Some config_meta
  else if String.eqb platform "tiktok" then Some config_tiktok
  else if String.eqb platform "linkedin" then Some config_linkedin
  else if String.eqb platform "twitter" then Some config_twitter
  else None.

(** The module-level [storedCredentials] map. *)
Abbreviation Credentials := (gmap string PlatformCredentials) (only parsing).

Definition getStoredCredentials (stored : Credentials) (platform : Platform)
  : option PlatformCredentials :=
  stored !! platform.

Definition storeCredentials (stored : Credentials) (credentials : PlatformCredentials)
  : Credentials :=
  <[cred_platform credentials := credentials]> stored.

Definition removeCredentials (stored : Credentials) (platform : Platform) : Credentials :=
  delete platform stored.

(** [handleOAuthCallback]: the mock credentials, and the map after they are
    stored. *)
Definition handleOAuthCallback
    (now : Z) (stored : Credentials) (platform : Platform) (code : string)
  : PlatformCredentials * Credentials :=
  let credentials :=
    {| cred_platform := platform;
       accessToken := "mock_access_token_" ++ platform ++ "_" ++ string_of_Z now;
       refreshToken := Some ("mock_refresh_token_" ++ platform);
       expiresAt := Some (now + 3600000);
       accountId := Some ("account_" ++ platform);
       accountName := Some (capitalize platform ++ " Account") |} in
  (credentials, storeCredentials stored credentials).

Definition failure (platform : Platform) (message : string) : PublishResult :=
  {| success := false;
     result_platform := platform;
     postId := None;
     postUrl := None;
     error := Some message;
     publishedAt := None |}.

Definition published (now : Z) (platform : Platform) (post url : string) : PublishResult :=
  {| success := true;
     result_platform := platform;
     postId := Some post;
     postUrl := Some url;
     error := None;
     publishedAt := Some now |}.

(** [!s] for an optional string: absent or empty. *)
Definition falsy (s : option string) : bool :=
  match s with
  | Some t => String.eqb t ""
  | None => true
  end.

(** Every publishing function reads the credentials and the clock, and
    returns its result with the credentials as it leaves them. *)
Definition publishToMeta (now : Z) (stored : Credentials) (request : PublishRequest)
  : PublishResult * Credentials :=
  match getStoredCredentials stored "meta" with
  | None =>
      (failure "meta" "Not authenticated with Meta. Please connect your account.", stored)
  | Some credentials =>
      (published now "meta" ("meta_post_" ++ string_of_Z now)
         "https://www.instagram.com/p/mock_post_id/", stored)
  end.

Definition publishToTikTok (now : Z) (stored : Credentials) (request : PublishRequest)
  : PublishResult * Credentials :=
  match getStoredCredentials stored "tiktok" with
  | None =>
      (failure "tiktok" "Not authenticated with TikTok. Please connect your account.",
       stored)
  | Some credentials =>
      if falsy (videoUrl (content request)) then
        (failure "tiktok" "TikTok requires video content.", stored)
      else
        (published now "tiktok" ("tiktok_post_" ++ string_of_Z now)
           "https://www.tiktok.com/@user/video/mock_video_id", stored)
  end.

Definition publishToLinkedIn (now : Z) (stored : Credentials) (request : PublishRequest)
  : PublishResult * Credentials :=
  match getStoredCredentials stored "linkedin" with
  | None =>
      (failure "linkedin" "Not authenticated with LinkedIn. Please connect your account.",
       stored)
  | Some credentials =>
      (published now "linkedin" ("linkedin_post_" ++ string_of_Z now)
         "https://www.linkedin.com/feed/update/mock_update_id/", stored)
  end.

(** [text && text.length > 280] *)
Definition tooLong (t : option string) : bool :=
  match t with
  | Some s => negb (String.eqb s "") && (280 <? strlen s)
  | None => false
  end.

Definition publishToTwitter (now : Z) (stored : Credentials) (request : PublishRequest)
  : PublishResult * Credentials :=
  match getStoredCredentials stored "twitter" with
  | None =>
      (failure "twitter" "Not authenticated with X. Please connect your account.", stored)
  | Some credentials =>
      if tooLong (text (content request)) then
        (failure "twitter" "Tweet exceeds 280 character limit.", stored)
      else
        (published now "twitter" ("tweet_" ++ string_of_Z now)
           "https://twitter.com/user/status/mock_tweet_id", stored)
  end.

Definition publish (now : Z) (stored : Credentials) (request : PublishRequest)
  : PublishResult * Credentials :=
  if String.eqb (platform request) "meta" then publishToMeta now stored request
  else if String.eqb (platform request) "tiktok" then publishToTikTok now stored request
  else if String.eqb (platform request) "linkedin" then publishToLinkedIn now stored request
  else if String.eqb (platform request) "twitter" then publishToTwitter now stored request
  else (failure (platform request) "Unknown platform", stored).

End PublishingService.

(** ** Predicates and reference definitions used by the statements *)

Module Spec.
Import JS Types HealthScore.

(** Every sub-score of a breakdown lies in [0, 100]. *)
Definition breakdownInRange (b : Breakdown) : Prop :=
  0 <= narrativeStrength b <= 100 /\
  0 <= emotionalBalance b <= 100 /\
  0 <= assetCoverage b <= 100 /\
  0 <= hookQuality b <= 100 /\
  0 <= ctaClarity b <= 100 /\
  0 <= pillarAlignment b <= 100.

(** The invariant of the two counters: the credit never exceeds the number
    of requested types. *)
Definition coverageInv (acc : Coverage) : Prop :=
  0 <= totalRequested acc /\
  (0 <= totalGenerated acc)%Q /\
  (totalGenerated acc <= inject_Z (totalRequested acc))%Q.

(** The rubric as the specification words it: every sub-score with its
    weight, the weighted sum rounded. *)
Definition rubric : list ((Breakdown -> Z) * Q) :=
  [ (narrativeStrength, 0.20%Q); (emotionalBalance, 0.15%Q);
    (assetCoverage, 0.20%Q); (hookQuality, 0.20%Q);
    (ctaClarity, 0.15%Q); (pillarAlignment, 0.10%Q) ].

Definition rubricSum (b : Breakdown) : Q :=
  fold_right (fun sw acc => (inject_Z (fst sw b) * snd sw + acc)%Q) 0%Q rubric.

Definition rubricScore (b : Breakdown) : Z := Math_round (rubricSum b).

Definition rubricTotalWeight : Q :=
  fold_right (fun sw acc => (snd sw + acc)%Q) 0%Q rubric.

(** The weighted sum of the rubric, in hundredths. *)
Definition hundredths (b : Breakdown) : Z :=
  20 * narrativeStrength b + 15 * emotionalBalance b + 20 * assetCoverage b
  + 20 * hookQuality b + 15 * ctaClarity b + 10 * pillarAlignment b.

(** Two briefs agree on what the score reads of a brief: the pillars, the
    emotional frequencies and the requested quantities. *)
Definition briefAgree (b1 b2 : CampaignBrief) : Prop :=
  orEmpty (pillars (meta b1)) = orEmpty (pillars (meta b2)) /\
  emotional_frequency (creative b1) = emotional_frequency (creative b2) /\
  quantities (outputs b1) = quantities (outputs b2).

(** Two blueprints agree on what the score reads of a blueprint: the
    summary, the narrative pack and the number of assets of each type. *)
Definition blueprintAgree (p1 p2 : CampaignBlueprint) : Prop :=
  campaign_summary p1 = campaign_summary p2 /\
  narrative_pack p1 = narrative_pack p2 /\
  lengthOrZero (memes p1) = lengthOrZero (memes p2) /\
  lengthOrZero (static_banners p1) = lengthOrZero (static_banners p2) /\
  lengthOrZero (short_videos p1) = lengthOrZero (short_videos p2) /\
  lengthOrZero (ugc_scripts p1) = lengthOrZero (ugc_scripts p2) /\
  lengthOrZero (carousels p1) = lengthOrZero (carousels p2).

Section WithHost.
Context {host : Host}.

(** [p] occurs in [s] when letter case is ignored. *)
Definition containsIgnoringCase (s p : string) : Prop :=
  exists pre post : string, toLowerCase s = pre ++ toLowerCase p ++ post.

(** Some pillar of the blueprint contains the requested pillar [p]. *)
Definition pillarHit (generatedPillars : list string) (p : string) : Prop :=
  exists gp : string, In gp generatedPillars /\ containsIgnoringCase gp p.

End WithHost.

(** The percentage of [m] out of [n], rounded in exact arithmetic. *)
Definition roundedPercentage (m n : Z) : Z :=
  Math_round (inject_Z m / inject_Z n * 100)%Q.

(** The credit of one asset type, requested [req] times and generated [gen]
    times: full when delivered, the fraction generated/requested when
    under-delivered. *)
Definition credit (rg : Z * Z) : Q :=
  let (req, gen) := rg in
  if req <=? gen then 1%Q
  else if 0 <? gen then (inject_Z gen / inject_Z req)%Q
  else 0%Q.

(** The asset types the brief asks for. *)
Definition requestedTypes (rgs : list (Z * Z)) : list (Z * Z) :=
  List.filter (fun rg => 0 <? fst rg) rgs.

Definition totalCredit (rgs : list (Z * Z)) : Q :=
  fold_right (fun rg acc => (credit rg + acc)%Q) 0%Q (requestedTypes rgs).

(** The mean credit of the requested types, in percent. *)
Definition meanCreditPercent (rgs : list (Z * Z)) : Q :=
  (totalCredit rgs / inject_Z (lengthZ (requestedTypes rgs)) * 100)%Q.

(** A requested type of which fewer were generated than requested. *)
Definition underDelivered (rg : Z * Z) : Prop := 0 < fst rg /\ snd rg < fst rg.

(** An under-delivered type of which fewer than 40 were requested. *)
Definition shortOfFew (rg : Z * Z) : Prop := underDelivered rg /\ fst rg < 40.

End Spec.

Module WhisperSpec.
Import JS Storage WhisperService.

(** [p] comes before [q] in the order of priorities: high, medium, low. *)
Definition outranks (p q : Priority) : Prop :=
  (p = high /\ q = medium) \/ (p = medium /\ q = low) \/ (p = high /\ q = low).

(** The two whispers that come from the calendar alone. *)
Definition calendarWhisper (w : World) (x : Whisper) : Prop :=
  (title x = "New Year Campaign Opportunity" /\ (month w = 11 \/ month w = 0)) \/
  (title x = "Monday Motivation" /\ dayOfWeek w = 1).

(** A whisper that one of the analyses draws from the stored history: from
    the assets, of which there is one at least, or from the campaigns, of
    which there is one at least. *)
Definition historyWhisper (w : World) (x : Whisper) : Prop :=
  exists (campaigns : list StoredCampaign) (assets : list StoredAsset),
    getAllCampaigns w = Some campaigns /\
    getAllAssets w = Some assets /\
    ((assets <> [] /\ In x (analyzeAssetDistribution w assets)) \/
     (campaigns <> [] /\
      (In x (analyzeCampaignPatterns w campaigns) \/
       In x (analyzeTimingPatterns w campaigns) \/
       In x (analyzePillarUsage w campaigns) \/
       (title x = "LinkedIn Carousel Opportunity" /\
        In x (generateOpportunities w campaigns assets))))).

(** What the analyses read of a stored campaign: when it was created and
    updated, its health score and the pillars of its brief. *)
Definition campaignView (c : StoredCampaign) : Z * Z * Z * list string :=
  (Storage.createdAt c, updatedAt c, healthOf c, pillarsOf c).

(** Two worlds whose clocks read the same. *)
Definition sameClock (w w' : World) : Prop :=
  now w = now w' /\ month w = month w' /\ dayOfWeek w = dayOfWeek w'.

(** Two worlds whose stores agree on what the analyses read: the views of
    the campaigns and the types of the assets. *)
Definition sameHistory (w w' : World) : Prop :=
  match database w, database w' with
  | Some d, Some d' =>
      map campaignView (campaigns d) = map campaignView (campaigns d') /\
      map Storage.type (assets d) = map Storage.type (assets d')
  | None, None => True
  | _, _ => False
  end.

End WhisperSpec.

Module PublishingSpec.

(** The four platforms of the [Platform] type. *)
Definition knownPlatform (p : string) : Prop :=
  p = "meta" \/ p = "tiktok" \/ p = "linkedin" \/ p = "twitter".

End PublishingSpec.

Module FeedbackSpec.
Import JS FeedbackService.

(** The first of the optional numbers that is present and not zero, or the
    default. *)
Fixpoint firstNonZero (xs : list (option Z)) (default : Z) : Z :=
  match xs with
  | [] => default
  | Some n :: rest => if n =? 0 then firstNonZero rest default else n
  | None :: rest => firstNonZero rest default
  end.

(** No counter that the engagement rate reads is negative. *)
Definition nonNegative (metrics : PerformanceMetrics) : Prop :=
  0 <= orZero (likes metrics) /\ 0 <= orZero (comments metrics) /\
  0 <= orZero (shares metrics) /\ 0 <= orZero (saves metrics) /\
  0 <= orZero (reach metrics) /\ 0 <= orZero (impressions metrics) /\
  0 <= orZero (views metrics).

End FeedbackSpec.

(** ** Concrete briefs, blueprints and environments *)

Module Samples.
Import JS Types HealthScore.

Definition quantitiesOf (memes banners videos ugc carousels : Z) : Quantities :=
  {| q_memes := memes;
     q_static_banners := banners;
     q_short_vertical_videos := videos;
     q_ugc_scripts := ugc;
     q_carousels := carousels |}.

(** A brief with the given campaign name, pillars and requested
    quantities; the other fields are those of a plain brief. *)
Definition briefWith (title : string) (ps : list string) (q : Quantities) : CampaignBrief :=
  {| meta := {| campaign_name := title;
                purpose := "launch";
                pillars := Some ps;
                primary_theme := "fresh start" |};
     audience := {| archetypes := ["busy parent"];
                    hidden_truth := "";
                    fears := [];
                    secret_desires := [] |};
     creative := {| raw_brain_dump := "";
                    must_include_phrases := [];
                    must_avoid_phrases := [];
                    voice_reference := "";
                    cta_flavor := soft_cosmic;
                    emotional_frequency :=
                      {| humor := 5; relatability := 8; shock := 3;
                         inspiration := 9; identity_shift := 6 |} |};
     visual := {| style_tags := [];
                  palette := "";
                  instructor_image_url := "";
                  logo_image_url := "" |};
     outputs := {| formats := {| f_memes := true;
                                 f_static_banners := true;
                                 f_short_vertical_videos := true;
                                 f_ugc_scripts := true;
                                 f_carousels := true |};
                   quantities := q;
                   platforms := ["instagram"];
                   aspect_ratios := ["1:1"];
                   video_max_duration_seconds := 30 |};
     constraints := {| humor_edge_level := safe;
                       body_sensitivity := neutral;
                       language_filter := clean;
                       spirituality_flavor := grounded |};
     special_notes := "" |}.

Definition aMeme : Meme :=
  {| meme_id := "m1"; angle := ""; top_text := ""; bottom_text := ""; alt_text := "";
     caption_options := []; meme_hashtags := []; meme_image_prompt := "";
     meme_aspect_ratios := [] |}.

Definition aBanner : StaticBanner :=
  {| banner_id := "b1"; headline := ""; subheadline := ""; bullets := [];
     cta_text := ""; layout_description := ""; banner_image_prompt := "";
     banner_aspect_ratios := [] |}.

Definition aSummary (ps : list string) : CampaignSummary :=
  {| one_liner := Some "Move a little, change a lot";
     summary_pillars := Some ps;
     core_promise := Some "Ten minutes a day is enough";
     primary_emotions := Some ["Hope"; "Urgency"];
     tone_description := Some "warm and direct" |}.

Definition aNarrative : NarrativePack :=
  {| hooks := Some ["Why do 9 out of 10 plans fail you?"; "Stop scrolling"];
     pain_points := Some ["no time"; "no energy"];
     micro_transformations := Some ["one stretch"];
     cta_variants := Some ["Start today"; "Join now"; "Claim your spot"];
     taglines := Some ["Flow first"] |}.

(** A blueprint with the given pillars in its summary and the given number
    of memes and banners, and no other asset. *)
Definition blueprintWith (ps : list string) (nMemes nBanners : nat) : CampaignBlueprint :=
  {| campaign_summary := aSummary ps;
     narrative_pack := aNarrative;
     memes := Some (repeat aMeme nMemes);
     static_banners := Some (repeat aBanner nBanners);
     short_videos := Some [];
     ugc_scripts := Some [];
     carousels := Some [];
     moments_mapping := [] |}.

(** A blueprint whose weighted sum falls half-way between 61 and 62: four
    short hooks with a number, one tagline, one call to action, one of the
    three pillars. *)
Definition halfwayBlueprint : CampaignBlueprint :=
  {| campaign_summary :=
       {| one_liner := Some "Move";
          summary_pillars := Some ["Moments"];
          core_promise := None;
          primary_emotions := Some ["Hope"; "Urgency"];
          tone_description := None |};
     narrative_pack :=
       {| hooks := Some ["Day 1"; "Day 2"; "Day 3"; "Day 4"];
          pain_points := Some [];
          micro_transformations := None;
          cta_variants := Some ["Start now"];
          taglines := Some ["Flow first"] |};
     memes := None;
     static_banners := None;
     short_videos := None;
     ugc_scripts := None;
     carousels := None;
     moments_mapping := [] |}.

Definition threePillars : list string :=
  ["primal_flow_fusion"; "animator_shift"; "moments"].

Import Storage.

Definition aCampaign (key : string) (updated : Z) (health : option Z) : StoredCampaign :=
  {| id := key;
     Storage.name := "campaign " ++ key;
     brief := None;
     blueprint := None;
     createdAt := updated;
     updatedAt := updated;
     healthScore := health;
     tags := None |}.

Definition anAsset (key kind : string) : StoredAsset :=
  {| asset_id := key;
     campaignId := "c1";
     Storage.type := kind;
     dataUrl := "";
     prompt := "";
     asset_createdAt := 1700000000000;
     asset_tags := None |}.

(** A Wednesday of December with an empty database. *)
Definition decemberEmpty : World :=
  {| now := 1765368000000;
     month := 11;
     dayOfWeek := 3;
     database := Some {| campaigns := []; assets := [] |} |}.

(** A Wednesday of March with an empty database. *)
Definition marchEmpty : World :=
  {| now := 1741780800000;
     month := 2;
     dayOfWeek := 3;
     database := Some {| campaigns := []; assets := [] |} |}.

(** A Monday of December, two campaigns of low health and three memes. *)
Definition decemberBusy : World :=
  {| now := 1765195200000;
     month := 11;
     dayOfWeek := 1;
     database :=
       Some {| campaigns := [ aCampaign "c1" 1765000000000 (Some 40);
                              aCampaign "c2" 1765100000000 (Some 55) ];
               assets := [ anAsset "a1" "meme"; anAsset "a2" "meme";
                           anAsset "a3" "meme" ] |} |}.

Import FeedbackService.

Definition metricsOf (l v : option Z) : PerformanceMetrics :=
  {| views := v; impressions := None; likes := l; comments := None;
     shares := None; saves := None; clicks := None;
     engagementRate := None; clickThroughRate := None;
     reach := None; followers := None |}.

Import PublishingService.

Definition aContent (t : option string) : Content :=
  {| text := t; imageUrl := None; videoUrl := None; link := None; hashtags := None |}.

Definition aRequest (p : string) (t : option string) : PublishRequest :=
  {| platform := p; content := aContent t; scheduling := None |}.

Definition twitterCredentials : PlatformCredentials :=
  {| cred_platform := "twitter";
     accessToken := "token";
     refreshToken := None;
     expiresAt := None;
     accountId := None;
     accountName := None |}.

(** Two texts of 281 and of 280 characters. *)
Definition longTweet : string := String.concat "" (repeat "a" 281).
Definition fullTweet : string := String.concat "" (repeat "a" 280).

(** A text of 200 accented letters, of two bytes each in UTF-8. *)
Definition accentedTweet : string := String.concat "" (repeat "é" 200).

End Samples.

(** ** Display of a score (services/healthScore.ts) *)

Module HealthScoreDisplay.

Definition getScoreColor (score : Z) : string :=
  if 80 <=? score then "text-emerald-400"
  else if 60 <=? score then "text-gold-400"
  else if 40 <=? score then "text-amber-400"
  else "text-rose-400".

Definition getScoreLabel (score : Z) : string :=
  if 90 <=? score then "Exceptional"
  else if 80 <=? score then "Strong"
  else if 70 <=? score then "Good"
  else if 60 <=? score then "Solid"
  else if 50 <=? score then "Fair"
  else if 40 <=? score then "Needs Work"
  else "Weak".

End HealthScoreDisplay.

Module HealthScoreNotes.
Import JS Types HealthScore.

(** The recommendation that is added when no other applies. *)
Definition growthRecommendation : string :=
  "Campaign is strong. Consider A/B testing hooks for optimization.".

Definition hooksRecommendation : string :=
  "Add more questions and numbers to your hooks for higher engagement.".

Definition emotionRecommendation : string :=
  "Balance positive emotions (inspiration, hope) with tension (urgency, FOMO).".

Definition narrativeRecommendation : string :=
  "Develop more micro-transformations to show the journey.".

Definition ctaRecommendation : string :=
  "Use stronger action verbs in CTAs: " ++ dquote ++ "Unlock" ++ dquote
  ++ ", " ++ dquote ++ "Claim" ++ dquote
  ++ ", " ++ dquote ++ "Transform" ++ dquote ++ ".".

Definition assetsRecommendation : string :=
  "Consider regenerating the blueprint to meet all asset requirements.".

(** An insight of the given type about the given category. *)
Definition insightAbout (t : InsightType) (c : string) (i : HealthInsight) : Prop :=
  type i = t /\ category i = c.

(** The five emotional frequencies of a brief. *)
Definition frequenciesOf (brief : CampaignBrief) : list Z :=
  let freq := emotional_frequency (creative brief) in
  [humor freq; relatability freq; shock freq; inspiration freq; identity_shift freq].

(** Every sub-score of [b1] is at most the one of [b2]. *)
Definition breakdownLe (b1 b2 : Breakdown) : Prop :=
  narrativeStrength b1 <= narrativeStrength b2 /\
  emotionalBalance b1 <= emotionalBalance b2 /\
  assetCoverage b1 <= assetCoverage b2 /\
  hookQuality b1 <= hookQuality b2 /\
  ctaClarity b1 <= ctaClarity b2 /\
  pillarAlignment b1 <= pillarAlignment b2.

(** The second blueprint holds at least as many assets of every type. *)
Definition generatesAtLeast (p1 p2 : CampaignBlueprint) : Prop :=
  lengthOrZero (memes p1) <= lengthOrZero (memes p2) /\
  lengthOrZero (static_banners p1) <= lengthOrZero (static_banners p2) /\
  lengthOrZero (short_videos p1) <= lengthOrZero (short_videos p2) /\
  lengthOrZero (ugc_scripts p1) <= lengthOrZero (ugc_scripts p2) /\
  lengthOrZero (carousels p1) <= lengthOrZero (carousels p2).

(** The same quantity requested, and no fewer generated. *)
Definition sameRequestMore (a b : Z * Z) : Prop := fst a = fst b /\ snd a <= snd b.

(** The narrative pack and the summary are complete for the rubric. *)
Definition narrativeComplete (blueprint : CampaignBlueprint) : Prop :=
  5 <= lengthOrZero (hooks (narrative_pack blueprint)) /\
  4 <= lengthOrZero (pain_points (narrative_pack blueprint)) /\
  4 <= lengthOrZero (micro_transformations (narrative_pack blueprint)) /\
  5 <= lengthOrZero (taglines (narrative_pack blueprint)) /\
  longerThan (one_liner (campaign_summary blueprint)) 10 = true /\
  longerThan (core_promise (campaign_summary blueprint)) 10 = true /\
  longerThan (tone_description (campaign_summary blueprint)) 10 = true.

End HealthScoreNotes.

(** ** A JavaScript [Map] with string keys

    The entries are kept in insertion order, which is the order in which
    [values()] and [forEach] visit them. *)

Module JSMap.

Definition t (V : Type) : Type := list (string * V).

(** [m.get(key)] *)
Fixpoint get {V : Type} (key : string) (m : t V) : option V :=
  match m with
  | [] => None
  | (k, v) :: rest => if String.eqb k key then Some v else get key rest
  end.

(** [m.set(key, v)]: a present key keeps its place. *)
Fixpoint set {V : Type} (key : string) (v : V) (m : t V) : t V :=
  match m with
  | [] => [(key, v)]
  | (k, old) :: rest =>
      if String.eqb k key then (k, v) :: rest else (k, old) :: set key v rest
  end.

(** [m.delete(key)]: whether the key was present, and the map without it. *)
Fixpoint delete {V : Type} (key : string) (m : t V) : bool * t V :=
  match m with
  | [] => (false, [])
  | (k, v) :: rest =>
      if String.eqb k key then (true, rest)
      else let (found, rest') := delete key rest in (found, (k, v) :: rest')
  end.

(** [Array.from(m.values())] *)
Definition values {V : Type} (m : t V) : list V := map snd m.

(** The keys of a map are pairwise distinct. *)
Definition wellFormed {V : Type} (m : t V) : Prop := List.NoDup (map fst m).

End JSMap.

(** ** Bulk publishing and scheduled posts (services/publishingService.ts) *)

Module PublishingSchedule.
Import JS PublishingService.

(** [publishToAll]: the platforms are published to in order; every call
    returns without waiting, so the results come in the order of the
    platforms. *)
Fixpoint publishToAll (now : Z) (stored : gmap string PlatformCredentials)
    (platforms : list string) (content : Content)
  : list PublishResult * gmap string PlatformCredentials :=
  match platforms with
  | [] => ([], stored)
  | platform :: rest =>
      let (result, stored1) :=
        publish now stored
          {| platform := platform; content := content; scheduling := None |} in
      let (results, stored2) := publishToAll now stored1 rest content in
      (result :: results, stored2)
  end.

Inductive PostStatus := pending | published | failed.

Record ScheduledPost := {
  id : string;
  request : PublishRequest;
  scheduledFor : Z;
  status : PostStatus;
  result : option PublishResult }.

(** [request.scheduling?.publishAt?.getTime() || Date.now() + 3600000] *)
Definition scheduledTime (now : Z) (request : PublishRequest) : Z :=
  match scheduling request with
  | Some s =>
      match publishAt s with
      | Some t => if t =? 0 then now + 3600000 else t
      | None => now + 3600000
      end
  | None => now + 3600000
  end.

(** [schedulePost]: [token] is the string that
    [Math.random().toString(36).substr(2, 9)] yields; the new post and the
    module-level [scheduledPosts] after the call. *)
Definition schedulePost (now : Z) (token : string)
    (scheduledPosts : JSMap.t ScheduledPost) (request : PublishRequest)
  : ScheduledPost * JSMap.t ScheduledPost :=
  let id := "scheduled_" ++ string_of_Z now ++ "_" ++ token in
  let scheduledFor := scheduledTime now request in
  let post :=
    {| id := id;
       request := request;
       scheduledFor := scheduledFor;
       status := pending;
       result := None |} in
  (post, JSMap.set id post scheduledPosts).

Definition isPending (p : ScheduledPost) : bool :=
  match status p with pending => true | _ => false end.

Definition getScheduledPosts (scheduledPosts : JSMap.t ScheduledPost)
  : list ScheduledPost :=
  sortBy scheduledFor (List.filter isPending (JSMap.values scheduledPosts)).

Definition cancelScheduledPost (id : string) (scheduledPosts : JSMap.t ScheduledPost)
  : bool * JSMap.t ScheduledPost :=
  JSMap.delete id scheduledPosts.

(** Every post is filed under its own id, as [schedulePost] files it. *)
Definition filedById (scheduledPosts : JSMap.t ScheduledPost) : Prop :=
  Forall (fun entry => id (snd entry) = fst entry) scheduledPosts.

End PublishingSchedule.

(** ** Recorded performance and predictions (services/feedbackService.ts) *)

Module FeedbackRecords.
Import JS FeedbackService.

Record AssetPerformance := {
  id : string;
  assetId : string;
  assetType : string;
  campaignId : option string;
  platform : string;
  postUrl : option string;
  metrics : PerformanceMetrics;
  recordedAt : Z;
  notes : option string }.

(** [Omit<AssetPerformance, 'id' | 'recordedAt'>] *)
Record PerformanceInput := {
  in_assetId : string;
  in_assetType : string;
  in_campaignId : option string;
  in_platform : string;
  in_postUrl : option string;
  in_metrics : PerformanceMetrics;
  in_notes : option string }.

(** [recordPerformance]: [token] is the string that
    [Math.random().toString(36).substr(2, 9)] yields; the new record and the
    module-level [performanceData] after the call. *)
Definition recordPerformance (now : Z) (token : string)
    (performanceData : JSMap.t (list AssetPerformance)) (data : PerformanceInput)
  : AssetPerformance * JSMap.t (list AssetPerformance) :=
  let record :=
    {| id := "perf_" ++ string_of_Z now ++ "_" ++ token;
       assetId := in_assetId data;
       assetType := in_assetType data;
       campaignId := in_campaignId data;
       platform := in_platform data;
       postUrl := in_postUrl data;
       metrics := in_metrics data;
       recordedAt := now;
       notes := in_notes data |} in
  let existing := orEmpty (JSMap.get (in_assetId data) performanceData) in
  let existing := push existing record in
  (record, JSMap.set (in_assetId data) existing performanceData).

Definition getAssetPerformance
    (performanceData : JSMap.t (list AssetPerformance)) (assetId : string)
  : list AssetPerformance :=
  orEmpty (JSMap.get assetId performanceData).

Definition getAllPerformanceData (performanceData : JSMap.t (list AssetPerformance))
  : list AssetPerformance :=
  let all := List.concat (JSMap.values performanceData) in
  sortBy (fun a => - recordedAt a) all.

(** The number that [calculateEngagementRate] returns for a record. *)
Definition rateOf (d : AssetPerformance) : Q :=
  match calculateEngagementRate (metrics d) with
  | Some q => q
  | None => 0%Q
  end.

(** [records.reduce((sum, r) => sum + calculateEngagementRate(r.metrics), 0)
     / records.length] *)
Definition averageRate (records : list AssetPerformance) : Q :=
  (fold_left (fun sum r => sum + rateOf r) records 0 / inject_Z (lengthZ records))%Q.

Inductive Engagement := low | medium | high.

Record AssetScorePrediction := {
  predictedEngagement : Engagement;
  confidence : Q;
  factors : list string }.

Definition predictAssetPerformance
    (performanceData : JSMap.t (list AssetPerformance))
    (type platform' : string) (promptKeywords : list string)
  : AssetScorePrediction :=
  let allData := getAllPerformanceData performanceData in
  let similar :=
    List.filter (fun d => String.eqb (assetType d) type || String.eqb (platform d) platform')
                allData in
  if lengthZ similar <? 3 then
    {| predictedEngagement := medium;
       confidence := 0.3;
       factors := ["Insufficient historical data for accurate prediction"] |}
  else
    let avgEngagement := averageRate similar in
    let factors : list string := [] in
    let typeData := List.filter (fun d => String.eqb (assetType d) type) similar in
    let factors :=
      if 0 <? lengthZ typeData then
        let typeAvg := averageRate typeData in
        if Qltb (avgEngagement * 1.2) typeAvg then
          push factors (type ++ "s historically outperform")
        else if Qltb typeAvg (avgEngagement * 0.8) then
          push factors (type ++ "s historically underperform")
        else factors
      else factors in
    let platformData := List.filter (fun d => String.eqb (platform d) platform') similar in
    let factors :=
      if 0 <? lengthZ platformData then
        let platformAvg := averageRate platformData in
        if Qltb (avgEngagement * 1.2) platformAvg then
          push factors (platform' ++ " shows strong engagement")
        else factors
      else factors in
    let prediction :=
      if Qle_bool 5 avgEngagement then high
      else if Qltb avgEngagement 2 then low
      else medium in
    {| predictedEngagement := prediction;
       confidence := Qmin 0.9 (0.3 + inject_Z (lengthZ similar) * 0.05);
       factors :=
         if 0 <? lengthZ factors then factors
         else ["Based on overall historical performance"] |}.

(** The records stored under a key are those of that asset. *)
Definition filedByAsset (performanceData : JSMap.t (list AssetPerformance)) : Prop :=
  Forall (fun entry => Forall (fun r => assetId r = fst entry) (snd entry)) performanceData.

End FeedbackRecords.

(** ** Performance insights (services/feedbackService.ts) *)

Module FeedbackInsights.
Import JS FeedbackService FeedbackRecords.

Inductive InsightKind := top_performer | underperformer | trend | recommendation.

Record PerformanceInsight := {
  type : InsightKind;
  title : string;
  message : string;
  assetIds : option (list string);
  metric : option string;
  value : option Q }.

(** One insertion of a stable sort in descending order of [rate]. *)
Fixpoint insertDescBy {A : Type} (rate : A -> Q) (x : A) (xs : list A) : list A :=
  match xs with
  | [] => [x]
  | y :: ys =>
      if Qle_bool (rate y) (rate x) then x :: y :: ys
      else y :: insertDescBy rate x ys
  end.

(** [xs.sort((a, b) => rate(b) - rate(a))] *)
Definition sortDescBy {A : Type} (rate : A -> Q) (xs : list A) : list A :=
  fold_right (insertDescBy rate) [] xs.

(** Two decimal digits, with a leading zero. *)
Definition twoDigits (n : Z) : string :=
  if n <? 10 then "0" ++ string_of_Z n else string_of_Z n.

(** [x.toFixed(2)]: the hundredths nearest to [x], halves away from zero. *)
Definition toFixed2 (x : Q) : string :=
  let hundredths := Qfloor (Qabs x * 100 + (1 # 2)) in
  (if Qltb x 0 then "-" else "")
  ++ string_of_Z (hundredths / 100) ++ "." ++ twoDigits (hundredths mod 100).

(** [if (!groups[key]) groups[key] = []; groups[key].push(d)] *)
Definition addToGroup (key : string) (d : AssetPerformance)
    (groups : JSMap.t (list AssetPerformance)) : JSMap.t (list AssetPerformance) :=
  JSMap.set key (push (orEmpty (JSMap.get key groups)) d) groups.

Definition groupBy (key : AssetPerformance -> string) (allData : list AssetPerformance)
  : JSMap.t (list AssetPerformance) :=
  fold_left (fun groups d => addToGroup (key d) d groups) allData [].

(** The average engagement of every group, under the key of the group. *)
Definition averages (groups : JSMap.t (list AssetPerformance)) : JSMap.t Q :=
  map (fun entry => (fst entry, averageRate (snd entry))) groups.

(** [Object.entries(averages).sort((a, b) => b[1] - a[1])[0]] *)
Definition best (avgs : JSMap.t Q) : option (string * Q) :=
  List.head (sortDescBy snd avgs).

Definition startTracking : PerformanceInsight :=
  {| type := recommendation;
     title := "Start Tracking";
     message := "Log performance metrics for your published assets to unlock insights.";
     assetIds := None;
     metric := None;
     value := None |}.

Definition candidateTypes : list string := ["meme"; "banner"; "carousel"; "video"].

Definition generatePerformanceInsights
    (performanceData : JSMap.t (list AssetPerformance)) : list PerformanceInsight :=
  let insights : list PerformanceInsight := [] in
  let allData := getAllPerformanceData performanceData in
  if lengthZ allData =? 0 then [startTracking]
  else
    let byType := groupBy assetType allData in
    let withEngagement :=
      sortDescBy snd
        (List.filter (fun d => Qltb 0 (snd d)) (map (fun d => (d, rateOf d)) allData)) in
    let insights :=
      match withEngagement with
      | top :: _ =>
          push insights
            {| type := top_performer;
               title := "Top Performing Asset";
               message := "Your " ++ assetType (fst top) ++ " on " ++ platform (fst top)
                 ++ " achieved " ++ toFixed2 (snd top) ++ "% engagement.";
               assetIds := Some [assetId (fst top)];
               metric := Some "engagementRate";
               value := Some (snd top) |}
      | [] => insights
      end in
    let typeAvgEngagement := averages byType in
    let bestType := best typeAvgEngagement in
    let insights :=
      match bestType with
      | Some bestType =>
          if Qltb 0 (snd bestType) then
            push insights
              {| type := trend;
                 title := "Best Content Type";
                 message := capitalize (fst bestType) ++ "s perform best with "
                   ++ toFixed2 (snd bestType) ++ "% avg engagement.";
                 assetIds := None;
                 metric := Some "avgEngagement";
                 value := Some (snd bestType) |}
          else insights
      | None => insights
      end in
    let byPlatform := groupBy platform allData in
    let platformAvgEngagement := averages byPlatform in
    let bestPlatform := best platformAvgEngagement in
    let insights :=
      match bestPlatform with
      | Some bestPlatform =>
          if Qltb 0 (snd bestPlatform) then
            push insights
              {| type := trend;
                 title := "Top Platform";
                 message := fst bestPlatform ++ " drives the highest engagement at "
                   ++ toFixed2 (snd bestPlatform) ++ "%.";
                 assetIds := None;
                 metric := Some "platformEngagement";
                 value := Some (snd bestPlatform) |}
          else insights
      | None => insights
      end in
    let underperformers := List.filter (fun d => Qltb (snd d) 1) withEngagement in
    let insights :=
      if 2 <? lengthZ underperformers then
        push insights
          {| type := underperformer;
             title := "Low Engagement Assets";
             message := string_of_Z (lengthZ underperformers)
               ++ " assets have under 1% engagement. Consider revising hooks or visuals.";
             assetIds := Some (map (fun d => assetId (fst d)) (slice0 3 underperformers));
             metric := None;
             value := None |}
      else insights in
    let insights :=
      if lengthZ byType <? 3 then
        let missingTypes :=
          List.filter (fun t => match JSMap.get t byType with Some _ => false | None => true end)
                      candidateTypes in
        if 0 <? lengthZ missingTypes then
          push insights
            {| type := recommendation;
               title := "Diversify Content";
               message := "You haven't tracked any "
                 ++ String.concat " or " (slice0 2 missingTypes)
                 ++ " performance. Consider testing these formats.";
               assetIds := None;
               metric := None;
               value := None |}
        else insights
      else insights in
    slice0 5 insights.

End FeedbackInsights.

Module FeedbackSamples.
Import JS FeedbackService FeedbackRecords FeedbackInsights Samples.

Definition aRecord (key asset kind site : string) (l v : option Z) (at' : Z)
  : AssetPerformance :=
  {| id := key; assetId := asset; assetType := kind; campaignId := None;
     platform := site; postUrl := None; metrics := metricsOf l v;
     recordedAt := at'; notes := None |}.

Definition anInput (asset kind site : string) (l v : option Z) : PerformanceInput :=
  {| in_assetId := asset; in_assetType := kind; in_campaignId := None;
     in_platform := site; in_postUrl := None; in_metrics := metricsOf l v;
     in_notes := None |}.

(** Two assets, three records: rates of 2.5, 0.5 and 10 per cent. *)
Definition somePerformance : JSMap.t (list AssetPerformance) :=
  [ ("a1", [ aRecord "p1" "a1" "meme" "instagram" (Some 5) (Some 200) 1765000000000;
             aRecord "p3" "a1" "meme" "instagram" (Some 1) (Some 200) 1765200000000 ]);
    ("a2", [ aRecord "p2" "a2" "banner" "instagram" (Some 20) (Some 200) 1765100000000 ]) ].

End FeedbackSamples.

(** ** Notions used to describe the whispers *)

Module WhisperNotes.
Import JS Storage WhisperService.

Definition isHigh (x : Whisper) : bool :=
  match priority x with high => true | _ => false end.

Definition isMedium (x : Whisper) : bool :=
  match priority x with medium => true | _ => false end.

Definition isLow (x : Whisper) : bool :=
  match priority x with low => true | _ => false end.

(** The campaigns as [getAllCampaigns] returns them: last updated first. *)
Definition lastUpdatedFirst (campaigns : list StoredCampaign) : Prop :=
  StronglySorted (fun a b => updatedAt b <= updatedAt a) campaigns.

(** No campaign was updated before it was created. *)
Definition updatedAfterCreated (campaigns : list StoredCampaign) : Prop :=
  Forall (fun c => Storage.createdAt c <= updatedAt c) campaigns.

Definition titled (t : string) (x : Whisper) : Prop := title x = t.

(** The whispers about one asset type outweighing the others. *)
Definition isImbalance (x : Whisper) : bool := String.eqb (title x) "Asset Mix Imbalance".

(** The campaign lists the pillar in its brief. *)
Definition features (pillar : string) (c : StoredCampaign) : bool :=
  existsb (String.eqb pillar) (pillarsOf c).

(** [Object.values(counts)] added up. *)
Definition totalOf (counts : list (string * Z)) : Z :=
  fold_right (fun entry sum => snd entry + sum) 0 counts.

End WhisperNotes.

Module WhisperSamples.
Import JS Types Storage Samples.

Definition aCampaignOn (ps : list string) : StoredCampaign :=
  {| id := "c";
     Storage.name := "campaign";
     brief := Some (briefWith "campaign" ps (quantitiesOf 1 1 1 1 1));
     blueprint := None;
     createdAt := 1765000000000;
     updatedAt := 1765000000000;
     healthScore := None;
     tags := None |}.

End WhisperSamples.

(** * Properties *)

(** ** Rounding and counting *)

Module JSFacts.
Import JS.

Lemma Math_round_inject (z : Z) : Math_round (inject_Z z) = z.
Proof.
  unfold Math_round.
  assert (Hlo : z <= Qfloor (inject_Z z + (1 # 2))).
  { rewrite <- (Qfloor_Z z) at 1. apply Qfloor_resp_le. lra. }
  assert (Hhi : Qfloor (inject_Z z + (1 # 2)) < z + 1).
  { rewrite Zlt_Qlt. rewrite inject_Z_plus. change (inject_Z 1) with 1%Q.
    pose proof (Qfloor_le (inject_Z z + (1 # 2))). lra. }
  lia.
Qed.

Lemma Math_round_mono (x y : Q) : (x <= y)%Q -> Math_round x <= Math_round y.
Proof. intros H. unfold Math_round. apply Qfloor_resp_le. lra. Qed.

Lemma Math_round_between (a b : Z) (x : Q) :
  (inject_Z a <= x)%Q -> (x <= inject_Z b)%Q -> a <= Math_round x <= b.
Proof.
  intros Ha Hb. split.
  - rewrite <- (Math_round_inject a). now apply Math_round_mono.
  - rewrite <- (Math_round_inject b). now apply Math_round_mono.
Qed.

Lemma inject_pos (r : Z) : 0 < r -> (0 < inject_Z r)%Q.
Proof. intros H. unfold Qlt. simpl. lia. Qed.

Lemma inject_nonneg (r : Z) : 0 <= r -> (0 <= inject_Z r)%Q.
Proof. intros H. unfold Qle. simpl. lia. Qed.

Lemma inject_le (a b : Z) : a <= b -> (inject_Z a <= inject_Z b)%Q.
Proof. intros H. unfold Qle. simpl. lia. Qed.

Lemma Math_round_comp (x y : Q) : (x == y)%Q -> Math_round x = Math_round y.
Proof. intros H. unfold Math_round. apply Qfloor_comp. now rewrite H. Qed.

(** Rounding a quotient of integers, in integer arithmetic. *)
Lemma Math_round_div (n d : Z) :
  0 < d -> Math_round (inject_Z n / inject_Z d) = (2 * n + d) / (2 * d).
Proof.
  intros Hd. rewrite Zdiv_Qdiv. unfold Math_round. apply Qfloor_comp.
  rewrite inject_Z_plus, !inject_Z_mult. change (inject_Z 2) with 2%Q.
  assert (~ (inject_Z d == 0)%Q).
  { intros H. pose proof (inject_pos d Hd). lra. }
  field. assumption.
Qed.

Lemma Math_round_below (x : Q) (k : Z) :
  (x + (1 # 2) < inject_Z k)%Q -> Math_round x < k.
Proof.
  intros H. unfold Math_round. rewrite Zlt_Qlt.
  pose proof (Qfloor_le (x + (1 # 2))). lra.
Qed.

Lemma lengthZ_nonneg {A : Type} (xs : list A) : 0 <= lengthZ xs.
Proof. unfold lengthZ. lia. Qed.

Lemma codeUnits_range (c : ascii) : 0 <= codeUnits c <= 2.
Proof.
  unfold codeUnits. cbv zeta.
  destruct (_ <? 128)%nat; [lia |].
  destruct (_ <? 192)%nat; [lia |].
  destruct (_ <? 240)%nat; lia.
Qed.

Lemma strlen_nonneg (s : string) : 0 <= strlen s.
Proof.
  induction s as [|c s IH]; simpl; [lia |].
  pose proof (codeUnits_range c). lia.
Qed.

(** The empty string is the only one without a code unit at its head. *)
Lemma strlen_empty : strlen "" = 0.
Proof. reflexivity. Qed.

(** Length is counted in UTF-16 code units, not in bytes: an accented
    letter is one unit, a character outside the basic plane two. *)
Lemma strlen_code_units :
  strlen "déjà vu" = 7 /\ String.length "déjà vu" = 9%nat /\ strlen "🎨" = 2.
Proof. repeat split. Qed.

Lemma Qfloor_unique (x : Q) (k : Z) :
  (inject_Z k <= x)%Q -> (x < inject_Z (k + 1))%Q -> Qfloor x = k.
Proof.
  intros Hlo Hhi.
  assert (k <= Qfloor x) by (rewrite <- (Qfloor_Z k); now apply Qfloor_resp_le).
  assert (Qfloor x < k + 1).
  { rewrite Zlt_Qlt. pose proof (Qfloor_le x). lra. }
  lia.
Qed.

(** *** Doubles *)

Lemma pow2_pos (e : Z) : (0 < pow2 e)%Q.
Proof. unfold pow2. apply Qpower_0_lt. reflexivity. Qed.

Lemma pow2_plus (a b : Z) : (pow2 (a + b) == pow2 a * pow2 b)%Q.
Proof. unfold pow2. apply Qpower_plus. discriminate. Qed.

Lemma pow2_minus (a b : Z) : (pow2 (a - b) == pow2 a / pow2 b)%Q.
Proof. unfold pow2. apply Qpower_minus. discriminate. Qed.

Lemma pow2_le (a b : Z) : a <= b -> (pow2 a <= pow2 b)%Q.
Proof. intros H. unfold pow2. apply Qpower_le_compat_l; [assumption | discriminate]. Qed.

Lemma pow2_lt (a b : Z) : a < b -> (pow2 a < pow2 b)%Q.
Proof. intros H. unfold pow2. apply Qpower_lt_compat_l; [assumption | reflexivity]. Qed.

Lemma pow2_lt_inv (a b : Z) : (pow2 a < pow2 b)%Q -> a < b.
Proof. intros H. unfold pow2 in H. apply Qpower_lt_compat_l_inv in H; [assumption | reflexivity]. Qed.

Lemma pow2_Z (n : Z) : 0 <= n -> (pow2 n == inject_Z (2 ^ n))%Q.
Proof. intros H. unfold pow2. now rewrite Zpower_Qpower. Qed.

Lemma pow2_succ (a : Z) : (pow2 (a + 1) == 2 * pow2 a)%Q.
Proof. rewrite pow2_plus. change (pow2 1) with 2%Q. ring. Qed.

(** [Qlog2] is the binary logarithm, rounded down. *)
Lemma Qlog2_spec (x : Q) :
  (0 < x)%Q -> (pow2 (Qlog2 x) <= x)%Q /\ (x < pow2 (Qlog2 x + 1))%Q.
Proof.
  intros Hx. unfold Qlog2.
  destruct x as [n d]. cbn [Qnum Qden].
  assert (Hn : 0 < n) by (unfold Qlt in Hx; simpl in Hx; lia).
  destruct (Z.log2_spec n Hn) as [Hn1 Hn2].
  destruct (Z.log2_spec (Z.pos d) ltac:(lia)) as [Hd1 Hd2].
  pose proof (Z.log2_nonneg n) as Ha. pose proof (Z.log2_nonneg (Z.pos d)) as Hb.
  set (a := Z.log2 n) in *. set (b := Z.log2 (Z.pos d)) in *.
  assert (Hxq : (n # d == inject_Z n / inject_Z (Z.pos d))%Q) by apply Qmake_Qdiv.
  assert (Hdpos : (0 < inject_Z (Z.pos d))%Q) by (unfold Qlt; simpl; lia).
  assert (Hpa : (pow2 a <= inject_Z n)%Q).
  { rewrite pow2_Z by assumption. unfold Qle. simpl. lia. }
  assert (Hpa' : (inject_Z n < pow2 (a + 1))%Q).
  { rewrite pow2_Z by lia. unfold Qlt. simpl. unfold Z.succ in Hn2. lia. }
  assert (Hpb : (pow2 b <= inject_Z (Z.pos d))%Q).
  { rewrite pow2_Z by assumption. unfold Qle. simpl. lia. }
  assert (Hpb' : (inject_Z (Z.pos d) < pow2 (b + 1))%Q).
  { rewrite pow2_Z by lia. unfold Qlt. simpl. unfold Z.succ in Hd2. lia. }
  pose proof (pow2_pos a) as Ha0. pose proof (pow2_pos b) as Hb0.
  pose proof (pow2_pos (a - b)) as Hab0.
  assert (Hlow : (pow2 (a - b - 1) <= n # d)%Q).
  { rewrite Hxq. apply Qle_shift_div_l; [assumption |].
    setoid_replace (pow2 (a - b - 1)) with (pow2 a / pow2 (b + 1))%Q using relation Qeq
      by (rewrite <- pow2_minus; now replace (a - b - 1) with (a - (b + 1)) by lia).
    pose proof (pow2_pos (b + 1)) as Hb1.
    setoid_replace (pow2 a / pow2 (b + 1) * inject_Z (Z.pos d))%Q
      with (pow2 a * (inject_Z (Z.pos d) / pow2 (b + 1)))%Q using relation Qeq by (field; lra).
    assert (inject_Z (Z.pos d) / pow2 (b + 1) <= 1)%Q
      by (apply Qle_shift_div_r; lra).
    assert (0 <= inject_Z (Z.pos d) / pow2 (b + 1))%Q
      by (apply Qle_shift_div_l; lra).
    nra. }
  assert (Hhigh : (n # d < pow2 (a - b + 1))%Q).
  { rewrite Hxq. apply Qlt_shift_div_r; [assumption |].
    setoid_replace (pow2 (a - b + 1)) with (pow2 (a + 1) / pow2 b)%Q using relation Qeq
      by (rewrite <- pow2_minus; now replace (a - b + 1) with (a + 1 - b) by lia).
    setoid_replace (pow2 (a + 1) / pow2 b * inject_Z (Z.pos d))%Q
      with (pow2 (a + 1) * (inject_Z (Z.pos d) / pow2 b))%Q using relation Qeq by (field; lra).
    assert (1 <= inject_Z (Z.pos d) / pow2 b)%Q
      by (apply Qle_shift_div_l; lra).
    pose proof (pow2_pos (a + 1)). nra. }
  destruct (Qle_bool (pow2 (a - b)) (n # d)) eqn:E.
  - apply Qle_bool_iff in E. split; assumption.
  - assert (Hlt : (n # d < pow2 (a - b))%Q).
    { apply Qnot_le_lt. intros H. apply Qle_bool_iff in H. congruence. }
    split; [assumption |]. now replace (a - b - 1 + 1) with (a - b) by lia.
Qed.

Lemma Qlog2_comp (x y : Q) : (0 < x)%Q -> (x == y)%Q -> Qlog2 x = Qlog2 y.
Proof.
  intros Hx Hxy. assert (Hy : (0 < y)%Q) by lra.
  destruct (Qlog2_spec x Hx) as [H1 H2]. destruct (Qlog2_spec y Hy) as [H3 H4].
  assert (Qlog2 x < Qlog2 y + 1) by (apply pow2_lt_inv; lra).
  assert (Qlog2 y < Qlog2 x + 1) by (apply pow2_lt_inv; lra).
  lia.
Qed.

Lemma Qlog2_mono (x y : Q) : (0 < x)%Q -> (x <= y)%Q -> Qlog2 x <= Qlog2 y.
Proof.
  intros Hx Hxy. assert (Hy : (0 < y)%Q) by lra.
  destruct (Qlog2_spec x Hx) as [H1 H2]. destruct (Qlog2_spec y Hy) as [H3 H4].
  assert (Qlog2 x < Qlog2 y + 1) by (apply pow2_lt_inv; lra).
  lia.
Qed.

Lemma Qlog2_below (x : Q) (k : Z) : (0 < x)%Q -> (x < pow2 k)%Q -> Qlog2 x < k.
Proof.
  intros Hx Hk. destruct (Qlog2_spec x Hx) as [H1 _].
  apply pow2_lt_inv. lra.
Qed.

(** Rounding to an integer. *)
Lemma nearestEven_cases (x : Q) :
  let f := Qfloor x in
  (nearestEven x = f /\ (x - inject_Z f <= 1 # 2)%Q) \/
  (nearestEven x = f + 1 /\ (1 # 2 <= x - inject_Z f)%Q).
Proof.
  cbv zeta. unfold nearestEven.
  destruct (Qcompare_spec (x - inject_Z (Qfloor x)) (1 # 2)) as [E | E | E].
  - destruct (Z.even (Qfloor x)); [left | right]; split; try reflexivity; lra.
  - left. split; [reflexivity | lra].
  - right. split; [reflexivity | lra].
Qed.

Lemma nearestEven_error (x : Q) :
  (x - (1 # 2) <= inject_Z (nearestEven x))%Q /\ (inject_Z (nearestEven x) <= x + (1 # 2))%Q.
Proof.
  pose proof (Qfloor_le x) as Hlo. pose proof (Qlt_floor x) as Hhi.
  rewrite inject_Z_plus in Hhi. change (inject_Z 1) with 1%Q in Hhi.
  destruct (nearestEven_cases x) as [[-> H] | [-> H]].
  - split; lra.
  - rewrite inject_Z_plus. change (inject_Z 1) with 1%Q. split; lra.
Qed.

Lemma nearestEven_comp (x y : Q) : (x == y)%Q -> nearestEven x = nearestEven y.
Proof.
  intros H. unfold nearestEven. rewrite (Qfloor_comp _ _ H).
  destruct (Qcompare_spec (x - inject_Z (Qfloor y)) (1 # 2));
    destruct (Qcompare_spec (y - inject_Z (Qfloor y)) (1 # 2));
    try reflexivity; exfalso; lra.
Qed.

Lemma nearestEven_Z (k : Z) : nearestEven (inject_Z k) = k.
Proof.
  unfold nearestEven. rewrite Qfloor_Z.
  destruct (Qcompare_spec (inject_Z k - inject_Z k) (1 # 2)); [lra | reflexivity | lra].
Qed.

Lemma nearestEven_mono (x y : Q) : (x <= y)%Q -> nearestEven x <= nearestEven y.
Proof.
  intros Hxy. pose proof (Qfloor_resp_le _ _ Hxy) as Hf.
  unfold nearestEven.
  destruct (Z.eq_dec (Qfloor x) (Qfloor y)) as [Heq | Hne].
  - rewrite Heq.
    destruct (Qcompare_spec (x - inject_Z (Qfloor y)) (1 # 2));
      destruct (Qcompare_spec (y - inject_Z (Qfloor y)) (1 # 2));
      try destruct (Z.even (Qfloor y)); try lia; exfalso; lra.
  - destruct (Qcompare_spec (x - inject_Z (Qfloor x)) (1 # 2));
      destruct (Qcompare_spec (y - inject_Z (Qfloor y)) (1 # 2));
      try destruct (Z.even (Qfloor x)); try destruct (Z.even (Qfloor y)); lia.
Qed.

(** Rounding a positive number to the nearest double. *)
Lemma nearestDouble_eq (x : Q) :
  (nearestDouble x == inject_Z (nearestEven (x / pow2 (lastPlace x))) * pow2 (lastPlace x))%Q.
Proof. unfold nearestDouble. cbv zeta. apply Qred_correct. Qed.

Lemma nearestDouble_error (x : Q) :
  (x - pow2 (lastPlace x - 1) <= nearestDouble x)%Q /\
  (nearestDouble x <= x + pow2 (lastPlace x - 1))%Q.
Proof.
  rewrite nearestDouble_eq.
  assert (Hh : (pow2 (lastPlace x) == 2 * pow2 (lastPlace x - 1))%Q).
  { rewrite <- pow2_succ. now replace (lastPlace x - 1 + 1) with (lastPlace x) by lia. }
  pose proof (pow2_pos (lastPlace x)) as Hu.
  set (h := pow2 (lastPlace x - 1)) in *. set (u := pow2 (lastPlace x)) in *.
  destruct (nearestEven_error (x / u)) as [H1 H2].
  set (r := inject_Z (nearestEven (x / u))) in *.
  assert (Hx : (x == x / u * u)%Q) by (field; lra).
  set (m := (x / u)%Q) in *.
  assert ((m - (1 # 2)) * u <= r * u)%Q by (apply Qmult_le_compat_r; lra).
  assert (r * u <= (m + (1 # 2)) * u)%Q by (apply Qmult_le_compat_r; lra).
  split; lra.
Qed.

Lemma nearestDouble_comp (x y : Q) :
  (0 < x)%Q -> (x == y)%Q -> (nearestDouble x == nearestDouble y)%Q.
Proof.
  intros Hx Hxy. rewrite !nearestDouble_eq.
  assert (Hl : lastPlace x = lastPlace y)
    by (unfold lastPlace; now rewrite (Qlog2_comp x y Hx Hxy)).
  rewrite Hl.
  assert (Hq : (x / pow2 (lastPlace y) == y / pow2 (lastPlace y))%Q) by (now rewrite Hxy).
  now rewrite (nearestEven_comp _ _ Hq).
Qed.

(** A multiple of the last place that bounds [x] bounds its double. *)
Lemma nearestDouble_le_grid (x : Q) (k : Z) :
  (x <= inject_Z k * pow2 (lastPlace x))%Q -> (nearestDouble x <= inject_Z k * pow2 (lastPlace x))%Q.
Proof.
  intros H. rewrite nearestDouble_eq.
  pose proof (pow2_pos (lastPlace x)) as Hu. set (u := pow2 (lastPlace x)) in *.
  assert (Hm : (x / u <= inject_Z k)%Q) by (apply Qle_shift_div_r; lra).
  apply nearestEven_mono in Hm. rewrite nearestEven_Z in Hm.
  assert (inject_Z (nearestEven (x / u)) <= inject_Z k)%Q by (unfold Qle; simpl; lia).
  apply Qmult_le_compat_r; lra.
Qed.

Lemma nearestDouble_ge_grid (x : Q) (k : Z) :
  (inject_Z k * pow2 (lastPlace x) <= x)%Q -> (inject_Z k * pow2 (lastPlace x) <= nearestDouble x)%Q.
Proof.
  intros H. rewrite nearestDouble_eq.
  pose proof (pow2_pos (lastPlace x)) as Hu. set (u := pow2 (lastPlace x)) in *.
  assert (Hm : (inject_Z k <= x / u)%Q) by (apply Qle_shift_div_l; lra).
  apply nearestEven_mono in Hm. rewrite nearestEven_Z in Hm.
  assert (inject_Z k <= inject_Z (nearestEven (x / u)))%Q by (unfold Qle; simpl; lia).
  apply Qmult_le_compat_r; lra.
Qed.

Lemma lastPlace_mono (x y : Q) : (0 < x)%Q -> (x <= y)%Q -> lastPlace x <= lastPlace y.
Proof.
  intros Hx Hxy. unfold lastPlace. pose proof (Qlog2_mono x y Hx Hxy). lia.
Qed.

Lemma nearestDouble_mono (x y : Q) :
  (0 < x)%Q -> (x <= y)%Q -> (nearestDouble x <= nearestDouble y)%Q.
Proof.
  intros Hx Hxy. assert (Hy : (0 < y)%Q) by lra.
  pose proof (lastPlace_mono x y Hx Hxy) as Hle.
  destruct (Z.eq_dec (lastPlace x) (lastPlace y)) as [Heq | Hne].
  - rewrite !nearestDouble_eq, Heq.
    pose proof (pow2_pos (lastPlace y)) as Hu. set (u := pow2 (lastPlace y)) in *.
    assert (Hm : (x / u <= y / u)%Q).
    { apply Qle_shift_div_l; [assumption |].
      setoid_replace (x / u * u)%Q with x using relation Qeq by (field; lra). assumption. }
    apply nearestEven_mono in Hm.
    assert (inject_Z (nearestEven (x / u)) <= inject_Z (nearestEven (y / u)))%Q
      by (unfold Qle; simpl; lia).
    apply Qmult_le_compat_r; lra.
  - (* the power of two between them is a double of both grids *)
    assert (Hey : lastPlace y = Qlog2 y - 52) by (unfold lastPlace in *; lia).
    assert (Hex : Qlog2 x - 52 <= lastPlace x) by (unfold lastPlace; lia).
    assert (Hxx : -1074 <= lastPlace x) by (unfold lastPlace; lia).
    destruct (Qlog2_spec x Hx) as [_ Hx2]. destruct (Qlog2_spec y Hy) as [Hy1 _].
    set (e := Qlog2 y) in *.
    assert (Hxe : (x <= pow2 e)%Q).
    { assert (pow2 (Qlog2 x + 1) <= pow2 e)%Q by (apply pow2_le; lia). lra. }
    apply Qle_trans with (pow2 e).
    + assert (Hg : (pow2 e == inject_Z (2 ^ (e - lastPlace x)) * pow2 (lastPlace x))%Q).
      { rewrite <- pow2_Z by lia. rewrite <- pow2_plus.
        now replace (e - lastPlace x + lastPlace x) with e by lia. }
      pose proof (nearestDouble_le_grid x (2 ^ (e - lastPlace x))). lra.
    + assert (Hg : (pow2 e == inject_Z (2 ^ 52) * pow2 (lastPlace y))%Q).
      { rewrite <- pow2_Z by lia. rewrite <- pow2_plus.
        now replace (52 + lastPlace y) with e by lia. }
      pose proof (nearestDouble_ge_grid y (2 ^ 52)). lra.
Qed.

Lemma nearestDouble_pos (x : Q) : (0 < x)%Q -> (0 <= nearestDouble x)%Q.
Proof.
  intros Hx. pose proof (nearestDouble_ge_grid x 0) as H.
  setoid_replace (inject_Z 0 * pow2 (lastPlace x))%Q with 0%Q using relation Qeq in H by ring.
  apply H. lra.
Qed.

(** *** The double nearest to a number *)

Lemma double_pos (x : Q) : (0 < x)%Q -> double x = nearestDouble (Qred x).
Proof.
  intros Hx. unfold double.
  pose proof (Qred_correct x) as Hred.
  destruct (Qcompare_spec (Qred x) 0); [lra | lra | reflexivity].
Qed.

Lemma double_0 (x : Q) : (x == 0)%Q -> double x = 0%Q.
Proof.
  intros Hx. unfold double.
  pose proof (Qred_correct x) as Hred.
  destruct (Qcompare_spec (Qred x) 0); [reflexivity | lra | lra].
Qed.

Lemma double_comp (x y : Q) : (x == y)%Q -> double x = double y.
Proof.
  intros H. unfold double.
  rewrite (Qred_complete _ _ H).
  assert (H' : (- x == - y)%Q) by (now rewrite H).
  now rewrite (Qred_complete _ _ H').
Qed.

Lemma double_nonneg (x : Q) : (0 <= x)%Q -> (0 <= double x)%Q.
Proof.
  intros Hx. destruct (Qlt_le_dec 0 x) as [Hpos | Hle].
  - rewrite double_pos by assumption. apply nearestDouble_pos. rewrite Qred_correct. assumption.
  - rewrite double_0 by lra. lra.
Qed.

Lemma double_neg (x : Q) : (x < 0)%Q -> double x = (- nearestDouble (Qred (- x)))%Q.
Proof.
  intros Hx. unfold double.
  pose proof (Qred_correct x) as Hred.
  destruct (Qcompare_spec (Qred x) 0); [lra | reflexivity | lra].
Qed.

Lemma double_nonpos (x : Q) : (x <= 0)%Q -> (double x <= 0)%Q.
Proof.
  intros Hx. destruct (Qlt_le_dec x 0) as [Hneg | Hle].
  - rewrite double_neg by assumption.
    assert (0 <= nearestDouble (Qred (- x)))%Q
      by (apply nearestDouble_pos; rewrite Qred_correct; lra).
    lra.
  - rewrite double_0 by lra. lra.
Qed.

(** Rounding to the nearest double is monotone. *)
Lemma double_mono (x y : Q) : (x <= y)%Q -> (double x <= double y)%Q.
Proof.
  intros Hxy. destruct (Qlt_le_dec 0 x) as [Hpos | Hle].
  - rewrite !double_pos by lra. apply nearestDouble_mono; rewrite !Qred_correct; assumption.
  - destruct (Qlt_le_dec y 0) as [Hneg | Hy].
    + rewrite !double_neg by lra.
      assert (nearestDouble (Qred (- y)) <= nearestDouble (Qred (- x)))%Q
        by (apply nearestDouble_mono; rewrite !Qred_correct; lra).
      lra.
    + pose proof (double_nonpos x Hle). pose proof (double_nonneg y Hy). lra.
Qed.

(** A multiple [k * 2^p] with [k] of at most 53 bits is a double. *)
Lemma nearestDouble_grid (x : Q) (k p : Z) :
  0 < k <= 2 ^ 53 -> -1074 <= p -> (x == inject_Z k * pow2 p)%Q ->
  (nearestDouble x == x)%Q.
Proof.
  intros [H0 H53] Hp Hx.
  pose proof (pow2_pos p) as Hp0.
  assert (Hk1 : (1 <= inject_Z k)%Q) by (unfold Qle; simpl; lia).
  assert (Hk53 : (inject_Z k <= pow2 53)%Q).
  { rewrite (pow2_Z 53) by lia. unfold Qle. simpl. lia. }
  assert (Hpos : (0 < x)%Q) by nra.
  destruct (Qlog2_spec x Hpos) as [Hs1 Hs2].
  assert (Hlow : p <= Qlog2 x).
  { assert (H : (pow2 p < pow2 (Qlog2 x + 1))%Q) by nra.
    apply pow2_lt_inv in H. lia. }
  assert (Hgrid : exists j : Z, (x == inject_Z j * pow2 (lastPlace x))%Q).
  { destruct (Z_le_gt_dec (lastPlace x) p) as [Hq | Hq].
    - exists (k * 2 ^ (p - lastPlace x)).
      rewrite inject_Z_mult, <- pow2_Z by lia. rewrite <- Qmult_assoc, <- pow2_plus.
      now replace (p - lastPlace x + lastPlace x) with p by lia.
    - (* the last place is above [p]: [k] is [2^53] *)
      assert (Hl : lastPlace x = Qlog2 x - 52) by (unfold lastPlace in *; lia).
      assert (Hhigh : (pow2 (p + 53) <= x)%Q).
      { apply Qle_trans with (pow2 (Qlog2 x)); [apply pow2_le; lia | assumption]. }
      rewrite pow2_plus in Hhigh.
      assert (Hk : (inject_Z k == pow2 53)%Q) by nra.
      exists (2 ^ 52).
      assert (He : (pow2 (Qlog2 x) <= pow2 (p + 53))%Q).
      { rewrite pow2_plus. nra. }
      assert (Hlog : Qlog2 x = p + 53).
      { destruct (Z_le_gt_dec (Qlog2 x) (p + 53)) as [Hle | Hgt]; [lia |].
        assert (Hlt : p + 53 < Qlog2 x) by lia.
        apply pow2_lt in Hlt. lra. }
      rewrite Hl, Hlog, Hx, Hk, <- (pow2_Z 52), <- !pow2_plus by lia.
      now replace (52 + (p + 53 - 52)) with (53 + p) by lia. }
  destruct Hgrid as [j Hg].
  pose proof (nearestDouble_le_grid x j) as Hle.
  pose proof (nearestDouble_ge_grid x j) as Hge.
  apply Qle_antisym; lra.
Qed.

(** An integer of at most 53 bits is a double. *)
Lemma double_Z (z : Z) : 0 <= z <= 2 ^ 53 -> (double (inject_Z z) == inject_Z z)%Q.
Proof.
  intros [H0 H53]. destruct (Z.eq_dec z 0) as [-> | Hz]; [reflexivity |].
  assert (Hpos : (0 < inject_Z z)%Q) by (unfold Qlt; simpl; lia).
  rewrite double_pos by assumption.
  rewrite (nearestDouble_grid _ z 0); [apply Qred_correct | lia | lia |].
  rewrite Qred_correct. change (pow2 0) with 1%Q. ring.
Qed.

(** The ratio of a positive number to its last place is under [2^53]. *)
Lemma lastPlace_ratio (x : Q) :
  (0 < x)%Q -> (x / pow2 (lastPlace x) < pow2 53)%Q.
Proof.
  intros Hx. destruct (Qlog2_spec x Hx) as [_ H2].
  pose proof (pow2_pos (lastPlace x)) as Hu.
  apply Qlt_shift_div_r; [assumption |].
  rewrite <- pow2_plus.
  apply Qlt_le_trans with (pow2 (Qlog2 x + 1)); [assumption |].
  apply pow2_le. unfold lastPlace. lia.
Qed.

(** Rounding a double again changes nothing. *)
Lemma nearestDouble_idem (x : Q) :
  (0 < x)%Q -> (0 < nearestDouble x)%Q -> (nearestDouble (nearestDouble x) == nearestDouble x)%Q.
Proof.
  intros Hx Hd.
  pose proof (nearestDouble_eq x) as He.
  pose proof (pow2_pos (lastPlace x)) as Hu.
  set (k := nearestEven (x / pow2 (lastPlace x))) in *.
  assert (Hk53 : k <= 2 ^ 53).
  { pose proof (lastPlace_ratio x Hx) as Hr.
    assert (Hle : (x / pow2 (lastPlace x) <= inject_Z (2 ^ 53))%Q)
      by (rewrite <- pow2_Z by lia; lra).
    apply nearestEven_mono in Hle. now rewrite nearestEven_Z in Hle. }
  assert (Hk0 : 0 < k).
  { destruct (Z_lt_le_dec 0 k) as [H | H]; [assumption | exfalso].
    assert (inject_Z k <= 0)%Q by (unfold Qle; simpl; lia). nra. }
  apply (nearestDouble_grid _ k (lastPlace x)); [lia | unfold lastPlace; lia | exact He].
Qed.

Lemma double_idem (x : Q) : (double (double x) == double x)%Q.
Proof.
  destruct (Qlt_le_dec 0 x) as [Hpos | Hle].
  - rewrite (double_pos x) by assumption.
    assert (Hr : (0 < Qred x)%Q) by (rewrite Qred_correct; assumption).
    pose proof (nearestDouble_pos (Qred x) Hr) as H0.
    destruct (Qlt_le_dec 0 (nearestDouble (Qred x))) as [Hd | Hd].
    + rewrite double_pos by assumption.
      rewrite (nearestDouble_comp (Qred (nearestDouble (Qred x))) (nearestDouble (Qred x)))
        by (rewrite ?Qred_correct; first [assumption | reflexivity]).
      now apply nearestDouble_idem.
    + rewrite double_0 by lra. lra.
  - destruct (Qlt_le_dec x 0) as [Hneg | Hge].
    + rewrite (double_neg x) by assumption.
      assert (Hr : (0 < Qred (- x))%Q) by (rewrite Qred_correct; lra).
      pose proof (nearestDouble_pos (Qred (- x)) Hr) as H0.
      destruct (Qlt_le_dec 0 (nearestDouble (Qred (- x)))) as [Hd | Hd].
      * rewrite double_neg by lra.
        rewrite (nearestDouble_comp (Qred (- - nearestDouble (Qred (- x))))
                                    (nearestDouble (Qred (- x))))
          by (rewrite ?Qred_correct; first [lra | ring]).
        rewrite (nearestDouble_idem _ Hr Hd). reflexivity.
      * rewrite double_0 by lra. lra.
    + rewrite (double_0 x) by lra. reflexivity.
Qed.

(** The rounding error of a number under [2^k] is at most half a unit in
    the last place of the doubles under [2^k]. *)
Lemma double_error (x : Q) (k : Z) :
  -1021 <= k -> (0 <= x)%Q -> (x < pow2 k)%Q ->
  (x - pow2 (k - 54) <= double x)%Q /\ (double x <= x + pow2 (k - 54))%Q.
Proof.
  intros Hk Hx Hxk. pose proof (pow2_pos (k - 54)) as Hh.
  destruct (Qlt_le_dec 0 x) as [Hpos | Hle].
  - rewrite double_pos by assumption.
    assert (Hred : (Qred x == x)%Q) by apply Qred_correct.
    set (y := Qred x) in *.
    destruct (nearestDouble_error y) as [H1 H2].
    assert (Hl : lastPlace y - 1 <= k - 54).
    { unfold lastPlace. assert (Qlog2 y < k) by (apply Qlog2_below; lra). lia. }
    apply pow2_le in Hl. split; lra.
  - rewrite double_0 by lra. split; lra.
Qed.

(** *** Arithmetic on numbers *)

Lemma num_add_mono (a a' b b' : Q) :
  (a <= a')%Q -> (b <= b')%Q -> (num_add a b <= num_add a' b')%Q.
Proof. intros Ha Hb. unfold num_add. apply double_mono. lra. Qed.

Lemma num_mul_mono (a a' w : Q) :
  (0 <= w)%Q -> (a <= a')%Q -> (num_mul a w <= num_mul a' w)%Q.
Proof.
  intros Hw Ha. unfold num_mul. apply double_mono.
  now apply Qmult_le_compat_r.
Qed.

Lemma num_div_mono (a a' r : Q) :
  (0 < r)%Q -> (a <= a')%Q -> (num_div a r <= num_div a' r)%Q.
Proof.
  intros Hr Ha. unfold num_div. apply double_mono.
  unfold Qdiv. apply Qmult_le_compat_r; [assumption |].
  apply Qinv_le_0_compat. lra.
Qed.

Lemma double_1 : (double 1 == 1)%Q.
Proof. reflexivity. Qed.

Lemma double_100 : (double 100 == 100)%Q.
Proof. reflexivity. Qed.

(** A part divided by the whole is a number of the unit interval. *)
Lemma num_div_unit (g r : Q) :
  (0 <= g)%Q -> (g <= r)%Q -> (0 < r)%Q ->
  (0 <= num_div g r)%Q /\ (num_div g r <= 1)%Q.
Proof.
  intros Hg Hgr Hr. unfold num_div.
  assert (H0 : (0 <= g / r)%Q) by (apply Qle_shift_div_l; [assumption | lra]).
  assert (H1 : (g / r <= 1)%Q) by (apply Qle_shift_div_r; [assumption | lra]).
  split; [now apply double_nonneg |].
  pose proof (double_mono _ _ H1) as H. pose proof double_1. lra.
Qed.

(** A percentage of a part of the whole rounds into [0, 100]. *)
Lemma percent_range (g r : Q) :
  (0 <= g)%Q -> (g <= r)%Q -> (0 < r)%Q ->
  0 <= Math_round (num_mul (num_div g r) 100) <= 100.
Proof.
  intros Hg Hgr Hr. destruct (num_div_unit g r Hg Hgr Hr) as [H0 H1].
  apply Math_round_between.
  - change (inject_Z 0) with 0%Q. unfold num_mul. apply double_nonneg. lra.
  - change (inject_Z 100) with 100%Q. unfold num_mul.
    assert (H : (double (num_div g r * 100) <= double 100)%Q)
      by (apply double_mono; lra).
    pose proof double_100. lra.
Qed.

Lemma startsWith_iff (s p : string) :
  startsWith s p = true <-> exists post : string, s = p ++ post.
Proof.
  revert s. induction p as [|a p IH]; intros s; simpl.
  - split; [intros _; now exists s | reflexivity].
  - destruct s as [|b s].
    + split; [discriminate | intros [post H]; discriminate].
    + rewrite andb_true_iff, Ascii.eqb_eq, IH. split.
      * intros [-> [post ->]]. now exists post.
      * intros [post H]. injection H as -> ->. split; [reflexivity | now exists post].
Qed.

(** [includes] finds exactly the substrings. *)
Lemma includes_iff (s p : string) :
  includes s p = true <-> exists pre post : string, s = pre ++ p ++ post.
Proof.
  split.
  - induction s as [|c s IH]; simpl; rewrite orb_true_iff.
    + intros [H | H]; [| discriminate].
      apply startsWith_iff in H as [post H]. now exists "", post.
    + intros [H | H].
      * apply startsWith_iff in H as [post H]. now exists "", post.
      * destruct (IH H) as (pre & post & ->). now exists (String c pre), post.
  - intros (pre & post & ->). induction pre as [|c pre IH].
    + assert (H : startsWith (p ++ post) p = true)
        by (apply startsWith_iff; now exists post).
      simpl append. destruct (p ++ post); simpl; now rewrite H.
    + simpl. rewrite IH. apply orb_true_r.
Qed.

Lemma filter_all_length {A : Type} (f : A -> bool) (xs : list A) :
  List.length (List.filter f xs) = List.length xs <-> Forall (fun x => f x = true) xs.
Proof.
  induction xs as [|x xs IH]; simpl.
  - split; [constructor | reflexivity].
  - pose proof (List.filter_length_le f xs) as Hle.
    destruct (f x) eqn:Hx; simpl.
    + split.
      * intros H. constructor; [assumption | apply IH; lia].
      * intros H. inversion H; subst. f_equal. now apply IH.
    + split; [lia | intros H; inversion H; congruence].
Qed.

Lemma filter_length_mono {A : Type} (f g : A -> bool) (xs : list A) :
  (forall x, In x xs -> f x = true -> g x = true) ->
  (List.length (List.filter f xs) <= List.length (List.filter g xs))%nat.
Proof.
  induction xs as [|x xs IH]; intros H; simpl; [lia |].
  assert (IH' : (List.length (List.filter f xs) <= List.length (List.filter g xs))%nat)
    by (apply IH; intros y Hy; apply H; now right).
  destruct (f x) eqn:Hf.
  - rewrite (H x (or_introl eq_refl) Hf). simpl. lia.
  - destruct (g x); simpl; lia.
Qed.

End JSFacts.

(** ** The health score *)

Module HealthScoreFacts.
Import JS Types HealthScore Spec HealthScoreNotes Samples JSFacts.

Section WithHost.
Context {host : Host}.

Lemma lengthOrZero_nonneg {A : Type} (o : option (list A)) : 0 <= lengthOrZero o.
Proof. destruct o; simpl; [apply lengthZ_nonneg | lia]. Qed.

Lemma analyzeNarrativeStrength_range (blueprint : CampaignBlueprint) :
  0 <= analyzeNarrativeStrength blueprint <= 100.
Proof.
  unfold analyzeNarrativeStrength. cbv zeta.
  pose proof (lengthOrZero_nonneg (hooks (narrative_pack blueprint))).
  pose proof (lengthOrZero_nonneg (pain_points (narrative_pack blueprint))).
  pose proof (lengthOrZero_nonneg (micro_transformations (narrative_pack blueprint))).
  pose proof (lengthOrZero_nonneg (taglines (narrative_pack blueprint))).
  repeat destruct (longerThan _ _); lia.
Qed.

Lemma analyzeEmotionalBalance_range brief blueprint :
  0 <= analyzeEmotionalBalance brief blueprint <= 100.
Proof. unfold analyzeEmotionalBalance. cbv zeta. lia. Qed.

(** A quotient of a part by the whole lies in the unit interval. *)
Lemma ratio_unit (g r : Z) :
  0 <= g <= r -> 0 < r -> (0 <= inject_Z g / inject_Z r <= 1)%Q.
Proof.
  intros [Hg Hr] Hpos.
  pose proof (inject_pos r Hpos) as Hr'.
  pose proof (inject_nonneg g Hg) as Hg'.
  pose proof (inject_le g r Hr) as Hgr.
  split.
  - apply Qle_shift_div_l; [assumption | lra].
  - apply Qle_shift_div_r; [assumption | lra].
Qed.

(** The credit of an under-delivered type, as the code computes it. *)
Lemma num_div_credit (gen req : Z) :
  0 < gen -> gen < req ->
  (0 <= num_div (inject_Z gen) (inject_Z req))%Q /\
  (num_div (inject_Z gen) (inject_Z req) <= 1)%Q.
Proof.
  intros Hg Hr. apply num_div_unit.
  - apply inject_nonneg. lia.
  - apply inject_le. lia.
  - apply inject_pos. lia.
Qed.

Lemma coverageStep_inv (acc : Coverage) (rg : Z * Z) :
  totalRequested acc < 2 ^ 53 ->
  coverageInv acc -> coverageInv (coverageStep acc rg).
Proof.
  intros Hsmall (Hr & Hg0 & Hg1). destruct rg as [req gen]. unfold coverageStep.
  destruct (0 <? req) eqn:Hreq; [apply Z.ltb_lt in Hreq | now repeat split].
  assert (Hnext : (double (inject_Z (totalRequested acc + 1))
                   == inject_Z (totalRequested acc + 1))%Q) by (apply double_Z; lia).
  assert (Hup : forall c : Q, (0 <= c)%Q -> (c <= 1)%Q ->
            (0 <= num_add (totalGenerated acc) c)%Q /\
            (num_add (totalGenerated acc) c <= inject_Z (totalRequested acc + 1))%Q).
  { intros c Hc0 Hc1. unfold num_add. split; [apply double_nonneg; lra |].
    assert (H : (double (totalGenerated acc + c)
                 <= double (inject_Z (totalRequested acc + 1)))%Q).
    { apply double_mono. rewrite inject_Z_plus. change (inject_Z 1) with 1%Q. lra. }
    lra. }
  destruct (req <=? gen) eqn:Hfull; [apply Z.leb_le in Hfull | apply Z.leb_gt in Hfull].
  - destruct (Hup 1%Q) as [H0 H1]; [lra | lra |].
    repeat split; simpl; [lia | assumption | assumption].
  - destruct (0 <? gen) eqn:Hgen; [apply Z.ltb_lt in Hgen | ].
    + destruct (num_div_credit gen req Hgen Hfull) as [Hc0 Hc1].
      destruct (Hup _ Hc0 Hc1) as [H0 H1].
      repeat split; simpl; [lia | assumption | assumption].
    + repeat split; simpl; [lia | lra |].
      rewrite inject_Z_plus. change (inject_Z 1) with 1%Q. lra.
Qed.

Lemma coverageStep_requested (acc : Coverage) (rg : Z * Z) :
  totalRequested acc <= totalRequested (coverageStep acc rg) <= totalRequested acc + 1.
Proof.
  destruct rg as [req gen]. unfold coverageStep.
  destruct (0 <? req); [| lia].
  destruct (req <=? gen); [simpl; lia |].
  destruct (0 <? gen); simpl; lia.
Qed.

Lemma fold_coverage_inv (rgs : list (Z * Z)) (acc : Coverage) :
  totalRequested acc + lengthZ rgs <= 2 ^ 53 ->
  coverageInv acc -> coverageInv (fold_left coverageStep rgs acc).
Proof.
  revert acc. induction rgs as [|rg rgs IH]; intros acc Hsmall H; simpl; [assumption |].
  unfold lengthZ in Hsmall. rewrite length_cons in Hsmall.
  pose proof (coverageStep_requested acc rg).
  apply IH; [unfold lengthZ; lia |].
  apply coverageStep_inv; [lia | assumption].
Qed.

Lemma coverageOf_inv (rgs : list (Z * Z)) :
  lengthZ rgs <= 2 ^ 53 -> coverageInv (coverageOf rgs).
Proof.
  intros Hsmall. apply fold_coverage_inv; [simpl; lia |].
  unfold coverageInv. simpl.
  change (inject_Z 0) with 0%Q. split; [lia | split; lra].
Qed.

Lemma requestedGenerated_length brief blueprint :
  lengthZ (requestedGenerated brief blueprint) = 5.
Proof. reflexivity. Qed.

Lemma analyzeAssetCoverage_range brief blueprint :
  0 <= analyzeAssetCoverage brief blueprint <= 100.
Proof.
  unfold analyzeAssetCoverage. cbv zeta.
  destruct (coverageOf_inv (requestedGenerated brief blueprint)) as (Hr & Hg0 & Hg1);
    [rewrite requestedGenerated_length; lia |].
  destruct (0 <? _) eqn:Hpos; [apply Z.ltb_lt in Hpos | lia].
  apply percent_range; [assumption | assumption |].
  now apply inject_pos.
Qed.

Lemma hookPoints_range (hook : string) : 0 <= hookPoints hook <= 25.
Proof.
  unfold hookPoints. cbv zeta.
  destruct ((20 <=? strlen hook) && (strlen hook <=? 100));
    [| destruct (strlen hook <? 20)];
    destruct (includes hook "?"), (existsb_char is_digit hook),
      (existsb _ emotionWords), (test_word "you" hook); lia.
Qed.

Lemma fold_hookPoints_range (hooks : list string) (start : Z) :
  start <= fold_left (fun score hook => score + hookPoints hook) hooks start
        <= start + 25 * lengthZ hooks.
Proof.
  revert start. induction hooks as [|h hooks IH]; intros start.
  - unfold lengthZ. simpl. lia.
  - simpl fold_left. specialize (IH (start + hookPoints h)).
    pose proof (hookPoints_range h).
    unfold lengthZ in *. rewrite length_cons. lia.
Qed.

Lemma analyzeHookQuality_range blueprint : 0 <= analyzeHookQuality blueprint <= 100.
Proof.
  unfold analyzeHookQuality. cbv zeta.
  set (hs := orEmpty (hooks (narrative_pack blueprint))).
  destruct (lengthZ hs =? 0) eqn:Hlen; [lia | apply Z.eqb_neq in Hlen].
  pose proof (lengthZ_nonneg hs) as Hnn.
  pose proof (fold_hookPoints_range hs 0) as [Hlo _].
  set (score := fold_left _ hs 0) in *.
  assert (Hs : (0 <= inject_Z score)%Q) by (now apply inject_nonneg).
  assert (Hl : (0 < inject_Z (lengthZ hs))%Q) by (apply inject_pos; lia).
  assert (Hq : (0 <= num_div (inject_Z score) (inject_Z (lengthZ hs)))%Q).
  { unfold num_div. apply double_nonneg. apply Qle_shift_div_l; [assumption | lra]. }
  assert (0 <= Math_round (num_mul (num_div (inject_Z score) (inject_Z (lengthZ hs))) 4)).
  { rewrite <- (Math_round_inject 0). apply Math_round_mono.
    change (inject_Z 0) with 0%Q. unfold num_mul. apply double_nonneg. lra. }
  lia.
Qed.

Lemma analyzeCtaClarity_range blueprint : 0 <= analyzeCtaClarity blueprint <= 100.
Proof.
  unfold analyzeCtaClarity. cbv zeta.
  set (ctas := orEmpty (cta_variants (narrative_pack blueprint))).
  destruct (lengthZ ctas =? 0); [lia |].
  destruct (3 <=? lengthZ ctas), (2 <=? lengthZ ctas),
    (someIncludes ctas actionWords), (someIncludes ctas urgencyWords); lia.
Qed.

Lemma filter_lengthZ {A : Type} (f : A -> bool) (xs : list A) :
  0 <= lengthZ (List.filter f xs) <= lengthZ xs.
Proof.
  unfold lengthZ. pose proof (List.filter_length_le f xs). lia.
Qed.

Lemma analyzePillarAlignment_range brief blueprint :
  0 <= analyzePillarAlignment brief blueprint <= 100.
Proof.
  unfold analyzePillarAlignment. cbv zeta.
  set (req := orEmpty (pillars (meta brief))).
  set (gen := orEmpty (summary_pillars (campaign_summary blueprint))).
  destruct (lengthZ req =? 0) eqn:Hlen; [lia | apply Z.eqb_neq in Hlen].
  pose proof (lengthZ_nonneg req).
  pose proof (filter_lengthZ (pillarMatched gen) req) as [Hm0 Hm1].
  apply percent_range.
  - now apply inject_nonneg.
  - now apply inject_le.
  - apply inject_pos. lia.
Qed.

Lemma breakdownOf_range brief blueprint : breakdownInRange (breakdownOf brief blueprint).
Proof.
  unfold breakdownInRange, breakdownOf. simpl.
  pose proof (analyzeNarrativeStrength_range blueprint).
  pose proof (analyzeEmotionalBalance_range brief blueprint).
  pose proof (analyzeAssetCoverage_range brief blueprint).
  pose proof (analyzeHookQuality_range blueprint).
  pose proof (analyzeCtaClarity_range blueprint).
  pose proof (analyzePillarAlignment_range brief blueprint).
  tauto.
Qed.

Lemma weights_nonneg :
  (0 <= w_narrativeStrength weights)%Q /\ (0 <= w_emotionalBalance weights)%Q /\
  (0 <= w_assetCoverage weights)%Q /\ (0 <= w_hookQuality weights)%Q /\
  (0 <= w_ctaClarity weights)%Q /\ (0 <= w_pillarAlignment weights)%Q.
Proof. repeat split; apply double_nonneg; lra. Qed.

(** The weighted sum of the code does not decrease when a sub-score
    increases. *)
Lemma weightedSum_mono (b1 b2 : Breakdown) :
  breakdownLe b1 b2 -> (weightedSum b1 weights <= weightedSum b2 weights)%Q.
Proof.
  intros (Hn & He & Ha & Hh & Hc & Hp).
  destruct weights_nonneg as (Wn & We & Wa & Wh & Wc & Wp).
  unfold weightedSum.
  apply inject_le in Hn, He, Ha, Hh, Hc, Hp.
  repeat apply num_add_mono; apply num_mul_mono; assumption.
Qed.

Lemma weightedSum_zero :
  (weightedSum {| narrativeStrength := 0; emotionalBalance := 0; assetCoverage := 0;
                  hookQuality := 0; ctaClarity := 0; pillarAlignment := 0 |} weights
   == 0)%Q.
Proof. reflexivity. Qed.

Lemma weightedSum_hundred :
  (weightedSum {| narrativeStrength := 100; emotionalBalance := 100; assetCoverage := 100;
                  hookQuality := 100; ctaClarity := 100; pillarAlignment := 100 |} weights
   == 100)%Q.
Proof. vm_compute. reflexivity. Qed.

(** The weighted combination of sub-scores of [0, 100] stays in [0, 100]. *)
Lemma weightedSum_range (b : Breakdown) :
  breakdownInRange b ->
  (0 <= weightedSum b weights)%Q /\ (weightedSum b weights <= 100)%Q.
Proof.
  intros (Hn & He & Ha & Hh & Hc & Hp). split.
  - rewrite <- weightedSum_zero. apply weightedSum_mono.
    unfold breakdownLe. simpl. lia.
  - rewrite <- weightedSum_hundred. apply weightedSum_mono.
    unfold breakdownLe. simpl. lia.
Qed.

(** C1: for every brief and blueprint the overall health score is an integer
    of [0, 100], and so is each of the six sub-scores of the breakdown. *)
Theorem analyzeHealthScore_range (brief : CampaignBrief) (blueprint : CampaignBlueprint) :
  0 <= overall (analyzeHealthScore brief blueprint) <= 100 /\
  breakdownInRange (breakdown (analyzeHealthScore brief blueprint)).
Proof.
  unfold analyzeHealthScore. cbv zeta. simpl.
  pose proof (breakdownOf_range brief blueprint) as Hb.
  split; [| exact Hb].
  destruct (weightedSum_range _ Hb) as [H0 H1].
  apply Math_round_between; assumption.
Qed.

(** *** The rubric *)

(** The bounds [double_error] gives for a number of [[0, 2^k)], with the
    powers of two computed. *)
Ltac round_bounds x k :=
  let Hlo := fresh "Hlo" in
  let Hhi := fresh "Hhi" in
  let Hnn := fresh "Hnn" in
  let p := eval vm_compute in (pow2 k) in
  let q := eval vm_compute in (pow2 (k - 54)) in
  assert (Hnn : (0 <= double x)%Q) by (apply double_nonneg; lra);
  destruct (double_error x k) as [Hlo Hhi];
  [ lia | lra | change (pow2 k) with p; lra
  | change (pow2 (k - 54)) with q in Hlo, Hhi ].

Lemma rubricSum_hundredths (b : Breakdown) :
  (rubricSum b == inject_Z (hundredths b) / inject_Z 100)%Q.
Proof.
  unfold rubricSum, rubric, hundredths. cbn [fold_right fst snd].
  rewrite !inject_Z_plus, !inject_Z_mult.
  change (inject_Z 20) with 20%Q. change (inject_Z 15) with 15%Q.
  change (inject_Z 10) with 10%Q. change (inject_Z 100) with 100%Q.
  field.
Qed.

(** The rubric of the specification, in integer arithmetic. *)
Lemma rubricScore_hundredths (b : Breakdown) :
  rubricScore b = (hundredths b + 50) / 100.
Proof.
  unfold rubricScore.
  rewrite (Math_round_comp _ _ (rubricSum_hundredths b)).
  rewrite Math_round_div by lia.
  replace (2 * hundredths b + 100) with (2 * (hundredths b + 50)) by lia.
  apply Z.div_mul_cancel_l; lia.
Qed.

(** The sum that the code computes in doubles is within [2^-44] of the
    exact weighted sum. *)
Lemma weightedSum_near (b : Breakdown) :
  breakdownInRange b ->
  (inject_Z (hundredths b) / inject_Z 100 - pow2 (-44) <= weightedSum b weights)%Q /\
  (weightedSum b weights <= inject_Z (hundredths b) / inject_Z 100 + pow2 (-44))%Q.
Proof.
  intros (Hn & He & Ha & Hh & Hc & Hp).
  rewrite <- rubricSum_hundredths.
  unfold rubricSum, rubric. cbn [fold_right fst snd].
  unfold weightedSum, weights, num_add, num_mul.
  cbn [w_narrativeStrength w_emotionalBalance w_assetCoverage
       w_hookQuality w_ctaClarity w_pillarAlignment].
  let v := eval vm_compute in (double 0.20) in change (double 0.20) with v.
  let v := eval vm_compute in (double 0.15) in change (double 0.15) with v.
  let v := eval vm_compute in (double 0.10) in change (double 0.10) with v.
  let v := eval vm_compute in (pow2 (-44)) in change (pow2 (-44)) with v.
  repeat match goal with
         | H : _ <= _ <= _ |- _ =>
             let H1 := fresh in let H2 := fresh in
             destruct H as [H1 H2];
             apply inject_le in H1; apply inject_le in H2
         end.
  change (inject_Z 0) with 0%Q in *. change (inject_Z 100) with 100%Q in *.
  set (n := inject_Z (narrativeStrength b)) in *.
  set (e := inject_Z (emotionalBalance b)) in *.
  set (a := inject_Z (assetCoverage b)) in *.
  set (h := inject_Z (hookQuality b)) in *.
  set (c := inject_Z (ctaClarity b)) in *.
  set (p := inject_Z (pillarAlignment b)) in *.
  clearbody n e a h c p.
  match goal with
  | |- context [double (n * ?w)] => round_bounds (n * w)%Q 5; set (t1 := double (n * w)) in *
  end.
  match goal with
  | |- context [double (e * ?w)] => round_bounds (e * w)%Q 5; set (t2 := double (e * w)) in *
  end.
  match goal with
  | |- context [double (a * ?w)] => round_bounds (a * w)%Q 5; set (t3 := double (a * w)) in *
  end.
  match goal with
  | |- context [double (h * ?w)] => round_bounds (h * w)%Q 5; set (t4 := double (h * w)) in *
  end.
  match goal with
  | |- context [double (c * ?w)] => round_bounds (c * w)%Q 5; set (t5 := double (c * w)) in *
  end.
  match goal with
  | |- context [double (p * ?w)] => round_bounds (p * w)%Q 5; set (t6 := double (p * w)) in *
  end.
  clearbody t1 t2 t3 t4 t5 t6.
  round_bounds (t1 + t2)%Q 7. set (s2 := double (t1 + t2)) in *. clearbody s2.
  round_bounds (s2 + t3)%Q 7. set (s3 := double (s2 + t3)) in *. clearbody s3.
  round_bounds (s3 + t4)%Q 7. set (s4 := double (s3 + t4)) in *. clearbody s4.
  round_bounds (s4 + t5)%Q 7. set (s5 := double (s4 + t5)) in *. clearbody s5.
  round_bounds (s5 + t6)%Q 7. set (s6 := double (s5 + t6)) in *. clearbody s6.
  split; lra.
Qed.

(** The weighted sum in hundredths is a multiple of 5 between 0 and 10000. *)
Lemma hundredths_range (b : Breakdown) :
  breakdownInRange b ->
  0 <= hundredths b <= 10000 /\ exists m : Z, hundredths b = 5 * m.
Proof.
  intros (Hn & He & Ha & Hh & Hc & Hp). unfold hundredths. split; [lia |].
  exists (4 * narrativeStrength b + 3 * emotionalBalance b + 4 * assetCoverage b
          + 4 * hookQuality b + 3 * ctaClarity b + 2 * pillarAlignment b). lia.
Qed.

(** Rounding a number that is within [2^-44] of [N / 100], [N] a multiple
    of 5: the result is the rounded [N / 100], except when [N / 100] lies
    half-way between two integers, where it can be the integer below. *)
Lemma Math_round_near (x : Q) (N : Z) :
  (exists m : Z, N = 5 * m) ->
  (inject_Z N / inject_Z 100 - pow2 (-44) <= x)%Q ->
  (x <= inject_Z N / inject_Z 100 + pow2 (-44))%Q ->
  (N mod 100 <> 50 -> Math_round x = (N + 50) / 100) /\
  (Math_round x = (N + 50) / 100 \/ Math_round x = (N + 50) / 100 - 1).
Proof.
  intros [m Hm] Hlo Hhi.
  let v := eval vm_compute in (pow2 (-44)) in change (pow2 (-44)) with v in Hlo, Hhi.
  pose proof (Z.div_mod (N + 50) 100 ltac:(lia)) as Hdiv.
  pose proof (Z.mod_pos_bound (N + 50) 100 ltac:(lia)) as Hmod.
  pose proof (Z.div_mod N 100 ltac:(lia)) as Hdiv'.
  pose proof (Z.mod_pos_bound N 100 ltac:(lia)) as Hmod'.
  set (R := (N + 50) / 100) in *. set (r := (N + 50) mod 100) in *.
  clearbody R r.
  assert (HN : (inject_Z N / inject_Z 100 + (1 # 2)
                == inject_Z R + inject_Z r * (1 # 100))%Q).
  { assert (HNq : (inject_Z N + 50 == 100 * inject_Z R + inject_Z r)%Q).
    { change 50%Q with (inject_Z 50). change 100%Q with (inject_Z 100).
      rewrite <- inject_Z_plus, <- inject_Z_mult, <- inject_Z_plus. now rewrite Hdiv. }
    change (inject_Z 100) with 100%Q.
    setoid_replace (inject_Z N / 100 + (1 # 2))%Q with ((inject_Z N + 50) / 100)%Q
      using relation Qeq by field.
    rewrite HNq. field. }
  change (inject_Z 100) with 100%Q in *.
  assert (Hr : (0 <= inject_Z r)%Q /\ (inject_Z r <= 95)%Q).
  { split; [apply inject_nonneg; lia |].
    change 95%Q with (inject_Z 95). apply inject_le. lia. }
  assert (HR1 : (inject_Z (R + 1) == inject_Z R + 1)%Q) by (now rewrite inject_Z_plus).
  assert (HR0 : (inject_Z (R - 1 + 1) == inject_Z R)%Q)
    by (now replace (R - 1 + 1) with R by lia).
  assert (HRm : (inject_Z (R - 1) == inject_Z R - 1)%Q).
  { unfold Zminus. now rewrite inject_Z_plus. }
  unfold Math_round.
  destruct (Z.eq_dec r 0) as [Hr0 | Hr0].
  - split; [intros Hne; exfalso; lia |].
    rewrite Hr0 in HN. change (inject_Z 0) with 0%Q in HN.
    destruct (Qlt_le_dec (x + (1 # 2)) (inject_Z R)) as [Hbelow | Habove].
    + right. apply Qfloor_unique; lra.
    + left. apply Qfloor_unique; lra.
  - assert (Hr5 : (5 <= inject_Z r)%Q).
    { change 5%Q with (inject_Z 5). apply inject_le. lia. }
    assert (Hfloor : Qfloor (x + (1 # 2)) = R) by (apply Qfloor_unique; lra).
    split; [intros _; exact Hfloor | left; exact Hfloor].
Qed.

(** C2 (as amended): the overall score is [Math.round] of the weighted sum
    of the six sub-scores, with the weights 0.20, 0.15, 0.20, 0.20, 0.15 and
    0.10, which add up to 1; the sum is computed in doubles, so the score
    is the rounded exact weighted sum whenever that sum is not half-way
    between two integers, and is that or the integer below when it is. *)
Theorem analyzeHealthScore_rubric (brief : CampaignBrief) (blueprint : CampaignBlueprint) :
  let r := analyzeHealthScore brief blueprint in
  breakdown r =
    {| narrativeStrength := analyzeNarrativeStrength blueprint;
       emotionalBalance := analyzeEmotionalBalance brief blueprint;
       assetCoverage := analyzeAssetCoverage brief blueprint;
       hookQuality := analyzeHookQuality blueprint;
       ctaClarity := analyzeCtaClarity blueprint;
       pillarAlignment := analyzePillarAlignment brief blueprint |} /\
  (rubricTotalWeight == 1)%Q /\
  rubricScore (breakdown r) = (hundredths (breakdown r) + 50) / 100 /\
  (hundredths (breakdown r) mod 100 <> 50 -> overall r = rubricScore (breakdown r)) /\
  (overall r = rubricScore (breakdown r) \/ overall r = rubricScore (breakdown r) - 1).
Proof.
  cbv zeta. unfold analyzeHealthScore. cbv zeta.
  cbn [overall breakdown].
  pose proof (breakdownOf_range brief blueprint) as Hrange.
  fold (breakdownOf brief blueprint).
  set (b := breakdownOf brief blueprint) in *.
  split; [reflexivity |].
  split; [reflexivity |].
  split; [apply rubricScore_hundredths |].
  rewrite rubricScore_hundredths.
  destruct (weightedSum_near b Hrange) as [Hlo Hhi].
  destruct (hundredths_range b Hrange) as [_ Hfive].
  exact (Math_round_near _ _ Hfive Hlo Hhi).
Qed.

Lemma analyzeEmotionalBalance_agree b1 b2 p1 p2 :
  briefAgree b1 b2 -> blueprintAgree p1 p2 ->
  analyzeEmotionalBalance b1 p1 = analyzeEmotionalBalance b2 p2.
Proof.
  intros (_ & Hf & _) (Hs & _). unfold analyzeEmotionalBalance.
  now rewrite Hf, Hs.
Qed.

Lemma analyzeAssetCoverage_agree b1 b2 p1 p2 :
  briefAgree b1 b2 -> blueprintAgree p1 p2 ->
  analyzeAssetCoverage b1 p1 = analyzeAssetCoverage b2 p2.
Proof.
  intros (_ & _ & Hq) (_ & _ & Hm & Hb & Hv & Hu & Hc).
  unfold analyzeAssetCoverage, requestedGenerated.
  now rewrite Hq, Hm, Hb, Hv, Hu, Hc.
Qed.

Lemma analyzePillarAlignment_agree b1 b2 p1 p2 :
  briefAgree b1 b2 -> blueprintAgree p1 p2 ->
  analyzePillarAlignment b1 p1 = analyzePillarAlignment b2 p2.
Proof.
  intros (Hp & _) (Hs & _). unfold analyzePillarAlignment.
  now rewrite Hp, Hs.
Qed.

Lemma breakdownOf_agree b1 b2 p1 p2 :
  briefAgree b1 b2 -> blueprintAgree p1 p2 -> breakdownOf b1 p1 = breakdownOf b2 p2.
Proof.
  intros Hb Hp. unfold breakdownOf.
  rewrite (analyzeEmotionalBalance_agree b1 b2 p1 p2 Hb Hp).
  rewrite (analyzeAssetCoverage_agree b1 b2 p1 p2 Hb Hp).
  rewrite (analyzePillarAlignment_agree b1 b2 p1 p2 Hb Hp).
  destruct Hp as (Hs & Hn & _).
  unfold analyzeNarrativeStrength, analyzeHookQuality, analyzeCtaClarity.
  now rewrite Hs, Hn.
Qed.

(** C3: the result of the health score is a function of the brief and the
    blueprint it is given, and of nothing else: two invocations on briefs
    and blueprints that agree on what the score reads of them (in
    particular on the same brief and the same blueprint) return the same
    overall score, breakdown, insights and recommendations. *)
Theorem analyzeHealthScore_deterministic
    (brief1 brief2 : CampaignBrief) (blueprint1 blueprint2 : CampaignBlueprint) :
  briefAgree brief1 brief2 ->
  blueprintAgree blueprint1 blueprint2 ->
  analyzeHealthScore brief1 blueprint1 = analyzeHealthScore brief2 blueprint2.
Proof.
  intros Hb Hp. unfold analyzeHealthScore. cbv zeta.
  rewrite (breakdownOf_agree _ _ _ _ Hb Hp). reflexivity.
Qed.

(** *** Asset coverage *)

Lemma credit_range (rg : Z * Z) : 0 < fst rg -> (0 <= credit rg <= 1)%Q.
Proof.
  destruct rg as [req gen]. simpl. intros Hreq.
  destruct (req <=? gen) eqn:Hfull; [lra | apply Z.leb_gt in Hfull].
  destruct (0 <? gen) eqn:Hgen; [apply Z.ltb_lt in Hgen | lra].
  apply ratio_unit; lia.
Qed.

Lemma credit_under (rg : Z * Z) : underDelivered rg -> (credit rg < 1)%Q.
Proof.
  destruct rg as [req gen]. unfold underDelivered. simpl. intros [Hreq Hlt].
  destruct (req <=? gen) eqn:Hfull; [apply Z.leb_le in Hfull; lia |].
  destruct (0 <? gen) eqn:Hgen; [| lra].
  apply Qlt_shift_div_r; [now apply inject_pos |].
  rewrite Qmult_1_l. unfold Qlt. simpl. lia.
Qed.

Lemma credit_full (rg : Z * Z) : fst rg <= snd rg -> credit rg = 1%Q.
Proof.
  destruct rg as [req gen]. simpl. intros H.
  now apply Z.leb_le in H as ->.
Qed.

Lemma totalCredit_cons (rg : Z * Z) (rgs : list (Z * Z)) :
  totalCredit (rg :: rgs)
  = if 0 <? fst rg then (credit rg + totalCredit rgs)%Q else totalCredit rgs.
Proof.
  unfold totalCredit, requestedTypes. simpl List.filter.
  now destruct (0 <? fst rg).
Qed.

Lemma requested_cons (rg : Z * Z) (rgs : list (Z * Z)) :
  lengthZ (requestedTypes (rg :: rgs))
  = if 0 <? fst rg then 1 + lengthZ (requestedTypes rgs)
    else lengthZ (requestedTypes rgs).
Proof.
  unfold requestedTypes, lengthZ. simpl List.filter.
  destruct (0 <? fst rg); [rewrite length_cons; lia | reflexivity].
Qed.

Lemma totalCredit_le (rgs : list (Z * Z)) :
  (0 <= totalCredit rgs)%Q /\
  (totalCredit rgs <= inject_Z (lengthZ (requestedTypes rgs)))%Q.
Proof.
  induction rgs as [|rg rgs [IH0 IH1]].
  - unfold totalCredit, lengthZ. split; unfold Qle; simpl; lia.
  - rewrite totalCredit_cons, requested_cons.
    destruct (0 <? fst rg) eqn:Hreq; [apply Z.ltb_lt in Hreq | now split].
    destruct (credit_range rg Hreq) as [Hc0 Hc1].
    rewrite inject_Z_plus. change (inject_Z 1) with 1%Q. split; lra.
Qed.

Lemma totalCredit_full (rgs : list (Z * Z)) :
  Forall (fun rg => 0 < fst rg -> fst rg <= snd rg) rgs ->
  (totalCredit rgs == inject_Z (lengthZ (requestedTypes rgs)))%Q.
Proof.
  induction 1 as [|rg rgs Hrg _ IH].
  - unfold totalCredit, lengthZ. simpl. reflexivity.
  - rewrite totalCredit_cons, requested_cons.
    destruct (0 <? fst rg) eqn:Hreq; [apply Z.ltb_lt in Hreq | exact IH].
    rewrite (credit_full rg (Hrg Hreq)), IH, inject_Z_plus.
    change (inject_Z 1) with 1%Q. ring.
Qed.

Lemma totalCredit_under (rgs : list (Z * Z)) :
  Exists underDelivered rgs ->
  (totalCredit rgs < inject_Z (lengthZ (requestedTypes rgs)))%Q.
Proof.
  induction 1 as [rg rgs Hrg | rg rgs _ IH];
    rewrite totalCredit_cons, requested_cons.
  - pose proof (credit_under rg Hrg) as Hc. destruct Hrg as [Hreq _].
    apply Z.ltb_lt in Hreq as ->.
    destruct (totalCredit_le rgs) as [_ Hle].
    rewrite inject_Z_plus. change (inject_Z 1) with 1%Q. lra.
  - destruct (0 <? fst rg) eqn:Hreq; [apply Z.ltb_lt in Hreq | exact IH].
    destruct (credit_range rg Hreq) as [_ Hc1].
    rewrite inject_Z_plus. change (inject_Z 1) with 1%Q. lra.
Qed.

Lemma credit_short (rg : Z * Z) : shortOfFew rg -> (credit rg <= 38 # 39)%Q.
Proof.
  destruct rg as [req gen]. unfold shortOfFew, underDelivered. simpl.
  intros [[Hreq Hlt] Hfew].
  destruct (req <=? gen) eqn:Hfull; [apply Z.leb_le in Hfull; lia |].
  destruct (0 <? gen) eqn:Hgen; [| unfold Qle; simpl; lia].
  apply Qle_shift_div_r; [now apply inject_pos |].
  unfold Qle. simpl. lia.
Qed.

Lemma totalCredit_short (rgs : list (Z * Z)) :
  Exists shortOfFew rgs ->
  (totalCredit rgs <= inject_Z (lengthZ (requestedTypes rgs)) - (1 # 39))%Q.
Proof.
  induction 1 as [rg rgs Hrg | rg rgs _ IH];
    rewrite totalCredit_cons, requested_cons.
  - pose proof (credit_short rg Hrg) as Hc. destruct Hrg as [[Hreq _] _].
    apply Z.ltb_lt in Hreq as ->.
    destruct (totalCredit_le rgs) as [_ Hle].
    rewrite inject_Z_plus. change (inject_Z 1) with 1%Q. lra.
  - destruct (0 <? fst rg) eqn:Hreq; [apply Z.ltb_lt in Hreq | exact IH].
    destruct (credit_range rg Hreq) as [_ Hc1].
    rewrite inject_Z_plus. change (inject_Z 1) with 1%Q. lra.
Qed.

Lemma requested_at_most_five brief blueprint :
  lengthZ (requestedTypes (requestedGenerated brief blueprint)) <= 5.
Proof.
  unfold requestedTypes.
  pose proof (filter_lengthZ (fun rg : Z * Z => 0 <? fst rg)
                (requestedGenerated brief blueprint)) as [_ H].
  exact H.
Qed.

Lemma requested_none (rgs : list (Z * Z)) :
  Forall (fun rg => fst rg <= 0) rgs -> lengthZ (requestedTypes rgs) = 0.
Proof.
  induction 1 as [|rg rgs Hrg _ IH]; [reflexivity |].
  rewrite requested_cons.
  destruct (0 <? fst rg) eqn:Hreq; [apply Z.ltb_lt in Hreq; lia | exact IH].
Qed.

(** The counters of the code against the exact credits: each requested
    type adds an error of at most [2^-50] to the running total. *)
Lemma coverageStep_near (acc : Coverage) (rg : Z * Z) (c : Q) :
  0 <= totalRequested acc <= 4 ->
  (0 <= c)%Q -> (c <= inject_Z (totalRequested acc))%Q ->
  (0 <= totalGenerated acc)%Q ->
  (c - inject_Z (totalRequested acc) * pow2 (-50) <= totalGenerated acc)%Q ->
  (totalGenerated acc <= c + inject_Z (totalRequested acc) * pow2 (-50))%Q ->
  let acc' := coverageStep acc rg in
  let c' := if 0 <? fst rg then (c + credit rg)%Q else c in
  totalRequested acc' = totalRequested acc + (if 0 <? fst rg then 1 else 0) /\
  (0 <= totalGenerated acc')%Q /\
  (c' - inject_Z (totalRequested acc') * pow2 (-50) <= totalGenerated acc')%Q /\
  (totalGenerated acc' <= c' + inject_Z (totalRequested acc') * pow2 (-50))%Q.
Proof.
  intros Hk Hc0 Hck Ht0 Hlo Hhi. cbv zeta.
  destruct rg as [req gen]. unfold coverageStep, credit. cbn [fst].
  let v := eval vm_compute in (pow2 (-50)) in change (pow2 (-50)) with v in *.
  set (k := totalRequested acc) in *. set (t := totalGenerated acc) in *.
  assert (Hk4 : (inject_Z k <= 4)%Q) by (change 4%Q with (inject_Z 4); apply inject_le; lia).
  assert (Hk0 : (0 <= inject_Z k)%Q) by (apply inject_nonneg; lia).
  destruct (0 <? req) eqn:Hreq; [apply Z.ltb_lt in Hreq | ].
  2: { split; [lia |]. fold k t. repeat split; assumption. }
  assert (Hk1 : (inject_Z (k + 1) == inject_Z k + 1)%Q) by (now rewrite inject_Z_plus).
  destruct (req <=? gen) eqn:Hfull; [apply Z.leb_le in Hfull | apply Z.leb_gt in Hfull].
  - cbn [totalRequested totalGenerated]. fold k t. unfold num_add.
    split; [reflexivity |].
    clearbody k t. round_bounds (t + 1)%Q 3.
    repeat split; lra.
  - destruct (0 <? gen) eqn:Hgen; [apply Z.ltb_lt in Hgen | ].
    + cbn [totalRequested totalGenerated]. fold k t. unfold num_add, num_div.
      split; [reflexivity |].
      destruct (ratio_unit gen req) as [Hq0 Hq1]; [lia | lia |].
      assert (Hq : (inject_Z gen / inject_Z req < 1)%Q).
      { apply Qlt_shift_div_r; [apply inject_pos; lia |].
        rewrite Qmult_1_l. unfold Qlt. simpl. lia. }
      set (q := (inject_Z gen / inject_Z req)%Q) in *.
      clearbody k t q. round_bounds q 0.
      set (d := double q) in *. clearbody d.
      round_bounds (t + d)%Q 3.
      repeat split; lra.
    + cbn [totalRequested totalGenerated]. fold k t.
      split; [reflexivity |]. repeat split; lra.
Qed.

Lemma fold_coverage_near (rgs : list (Z * Z)) (acc : Coverage) (c : Q) :
  0 <= totalRequested acc ->
  totalRequested acc + lengthZ (requestedTypes rgs) <= 5 ->
  (0 <= c)%Q -> (c <= inject_Z (totalRequested acc))%Q ->
  (0 <= totalGenerated acc)%Q ->
  (c - inject_Z (totalRequested acc) * pow2 (-50) <= totalGenerated acc)%Q ->
  (totalGenerated acc <= c + inject_Z (totalRequested acc) * pow2 (-50))%Q ->
  let final := fold_left coverageStep rgs acc in
  totalRequested final = totalRequested acc + lengthZ (requestedTypes rgs) /\
  (0 <= totalGenerated final)%Q /\
  (c + totalCredit rgs - inject_Z (totalRequested final) * pow2 (-50)
   <= totalGenerated final)%Q /\
  (totalGenerated final
   <= c + totalCredit rgs + inject_Z (totalRequested final) * pow2 (-50))%Q.
Proof.
  cbv zeta. revert acc c.
  induction rgs as [|rg rgs IH]; intros acc c Hk0 Hk Hc0 Hck Ht0 Hlo Hhi.
  - change (fold_left coverageStep [] acc) with acc.
    change (totalCredit []) with 0%Q.
    change (lengthZ (requestedTypes [])) with 0. rewrite Z.add_0_r.
    repeat split; lra.
  - simpl fold_left. rewrite totalCredit_cons, requested_cons in *.
    pose proof (lengthZ_nonneg (requestedTypes rgs)) as Hnn.
    destruct (0 <? fst rg) eqn:Hreq.
    + destruct (coverageStep_near acc rg c) as (Hr & H0 & H1 & H2);
        try assumption; [lia |].
      cbv zeta in Hr, H1, H2. rewrite Hreq in Hr, H1, H2.
      apply Z.ltb_lt in Hreq. destruct (credit_range rg Hreq) as [Hcr0 Hcr1].
      destruct (IH (coverageStep acc rg) (c + credit rg)%Q) as (IHr & IH0 & IH1 & IH2);
        try assumption; try lia; try lra.
      { rewrite Hr, inject_Z_plus. change (inject_Z 1) with 1%Q. lra. }
      split; [lia |]. repeat split; lra.
    + assert (Hsame : coverageStep acc rg = acc).
      { destruct rg as [req gen]. unfold coverageStep. simpl in Hreq. now rewrite Hreq. }
      rewrite Hsame. now apply IH.
Qed.

Lemma coverageOf_near (rgs : list (Z * Z)) :
  lengthZ (requestedTypes rgs) <= 5 ->
  totalRequested (coverageOf rgs) = lengthZ (requestedTypes rgs) /\
  (0 <= totalGenerated (coverageOf rgs))%Q /\
  (totalCredit rgs - 5 * pow2 (-50) <= totalGenerated (coverageOf rgs))%Q /\
  (totalGenerated (coverageOf rgs) <= totalCredit rgs + 5 * pow2 (-50))%Q.
Proof.
  intros Hfive.
  pose proof (fold_coverage_near rgs {| totalRequested := 0; totalGenerated := 0%Q |} 0%Q)
    as H.
  cbv zeta in H. cbn [totalRequested totalGenerated] in H.
  change (inject_Z 0) with 0%Q in H.
  destruct H as (Hr & H0 & H1 & H2); [lia | lia | lra | lra | lra | lra | lra |].
  fold (coverageOf rgs) in *. rewrite Z.add_0_l in Hr.
  pose proof (lengthZ_nonneg (requestedTypes rgs)) as Hnn.
  assert (Hn5 : (inject_Z (totalRequested (coverageOf rgs)) <= 5)%Q)
    by (change 5%Q with (inject_Z 5); apply inject_le; lia).
  assert (Hn0 : (0 <= inject_Z (totalRequested (coverageOf rgs)))%Q)
    by (apply inject_nonneg; lia).
  pose proof (pow2_pos (-50)) as Hp.
  split; [exact Hr |]. split; [exact H0 |].
  set (n := inject_Z (totalRequested (coverageOf rgs))) in *.
  set (e := pow2 (-50)) in *.
  assert (n * e <= 5 * e)%Q by (apply Qmult_le_compat_r; lra).
  split; lra.
Qed.

(** The percentage that the code computes from the two counters is within
    [2^-40] of the exact one. *)
Lemma mean_near (t c : Q) (n : Z) :
  1 <= n <= 5 ->
  (0 <= t)%Q -> (0 <= c)%Q -> (c <= inject_Z n)%Q ->
  (c - 5 * pow2 (-50) <= t)%Q -> (t <= c + 5 * pow2 (-50))%Q ->
  (c / inject_Z n * 100 - pow2 (-40) <= num_mul (num_div t (inject_Z n)) 100)%Q /\
  (num_mul (num_div t (inject_Z n)) 100 <= c / inject_Z n * 100 + pow2 (-40))%Q.
Proof.
  intros Hn Ht0 Hc0 Hcn Hlo Hhi. unfold num_mul, num_div.
  let v := eval vm_compute in (pow2 (-50)) in change (pow2 (-50)) with v in *.
  let v := eval vm_compute in (pow2 (-40)) in change (pow2 (-40)) with v in *.
  assert (Hcases : n = 1 \/ n = 2 \/ n = 3 \/ n = 4 \/ n = 5) by lia.
  destruct Hcases as [-> | [-> | [-> | [-> | ->]]]];
    match goal with
    | |- context [inject_Z ?k] =>
        let q := eval vm_compute in (/ inject_Z k)%Q in
        let m := eval vm_compute in (inject_Z k) in
        change (inject_Z k) with m in *;
        rewrite (double_comp (t / m) (t * q)) by (field; discriminate);
        setoid_replace (c / m * 100)%Q with (c * q * 100)%Q using relation Qeq
          by (field; discriminate);
        round_bounds (t * q)%Q 1;
        set (d := double (t * q)) in *; clearbody d;
        round_bounds (d * 100)%Q 8;
        split; lra
    end.
Qed.

Lemma analyzeAssetCoverage_near brief blueprint :
  let rgs := requestedGenerated brief blueprint in
  0 < lengthZ (requestedTypes rgs) ->
  (meanCreditPercent rgs - (1 # 2) - pow2 (-40)
   <= inject_Z (analyzeAssetCoverage brief blueprint))%Q /\
  (inject_Z (analyzeAssetCoverage brief blueprint)
   <= meanCreditPercent rgs + (1 # 2) + pow2 (-40))%Q.
Proof.
  cbv zeta. intros Hn. unfold analyzeAssetCoverage, meanCreditPercent. cbv zeta.
  pose proof (requested_at_most_five brief blueprint) as Hfive.
  set (rgs := requestedGenerated brief blueprint) in *.
  destruct (coverageOf_near rgs Hfive) as (Hr & H0 & H1 & H2).
  destruct (totalCredit_le rgs) as [Hc0 Hc1].
  rewrite Hr. apply Z.ltb_lt in Hn as Hn'. rewrite Hn'.
  destruct (mean_near (totalGenerated (coverageOf rgs)) (totalCredit rgs)
              (lengthZ (requestedTypes rgs))) as [Hlo Hhi];
    try assumption; [lia |].
  set (y := num_mul _ 100) in *.
  unfold Math_round.
  pose proof (Qfloor_le (y + (1 # 2))) as Hfl.
  pose proof (Qlt_floor (y + (1 # 2))) as Hfu.
  rewrite inject_Z_plus in Hfu. change (inject_Z 1) with 1%Q in Hfu.
  split; lra.
Qed.

(** C6 (as amended): the coverage score is 100 when no asset type is
    requested and when every requested type is generated in at least the
    requested quantity; it never exceeds 100; otherwise it is the mean
    credit of the requested types, in percent and rounded to an integer
    (the mean being computed in doubles, within [2^-40] of the exact one),
    an under-delivered type being credited generated/requested; with an
    under-delivered type the mean credit is strictly below 1, that is,
    strictly below that of full delivery before rounding; and when fewer
    than 40 were requested of an under-delivered type, the score itself is
    strictly below 100. *)
Theorem analyzeAssetCoverage_spec (brief : CampaignBrief) (blueprint : CampaignBlueprint) :
  let rgs := requestedGenerated brief blueprint in
  let n := lengthZ (requestedTypes rgs) in
  (Forall (fun rg => fst rg <= 0) rgs -> analyzeAssetCoverage brief blueprint = 100) /\
  (Forall (fun rg => 0 < fst rg -> fst rg <= snd rg) rgs ->
     analyzeAssetCoverage brief blueprint = 100) /\
  analyzeAssetCoverage brief blueprint <= 100 /\
  (0 < n ->
     (meanCreditPercent rgs - (1 # 2) - pow2 (-40)
      <= inject_Z (analyzeAssetCoverage brief blueprint))%Q /\
     (inject_Z (analyzeAssetCoverage brief blueprint)
      <= meanCreditPercent rgs + (1 # 2) + pow2 (-40))%Q) /\
  (Exists underDelivered rgs -> (totalCredit rgs / inject_Z n < 1)%Q) /\
  (Exists shortOfFew rgs -> analyzeAssetCoverage brief blueprint < 100).
Proof.
  cbv zeta. pose proof (analyzeAssetCoverage_near brief blueprint) as Hnear.
  cbv zeta in Hnear.
  pose proof (requested_at_most_five brief blueprint) as Hfive.
  pose proof (analyzeAssetCoverage_range brief blueprint) as Hrange.
  set (rgs := requestedGenerated brief blueprint) in *.
  set (n := lengthZ (requestedTypes rgs)) in *.
  pose proof (lengthZ_nonneg (requestedTypes rgs)) as Hnn. fold n in Hnn.
  let v := eval vm_compute in (pow2 (-40)) in change (pow2 (-40)) with v in *.
  split; [| split; [| split; [| split; [| split]]]].
  - intros H. unfold analyzeAssetCoverage. cbv zeta. fold rgs.
    destruct (coverageOf_near rgs Hfive) as (Hr & _). rewrite Hr.
    now rewrite (requested_none rgs H).
  - intros H. destruct (Z_lt_le_dec 0 n) as [Hn | Hn].
    + destruct (Hnear Hn) as [Hlo Hhi]. unfold meanCreditPercent in Hlo. fold n in Hlo.
      pose proof (totalCredit_full rgs H) as Hfull. fold n in Hfull.
      pose proof (inject_pos n Hn) as Hn'.
      assert (Hp : (totalCredit rgs / inject_Z n * 100 == 100)%Q)
        by (rewrite Hfull; field; lra).
      assert (H99 : (inject_Z 99 < inject_Z (analyzeAssetCoverage brief blueprint))%Q)
        by (change (inject_Z 99) with 99%Q; lra).
      rewrite <- Zlt_Qlt in H99. lia.
    + unfold analyzeAssetCoverage. cbv zeta. fold rgs.
      destruct (coverageOf_near rgs Hfive) as (Hr & _). rewrite Hr. fold n.
      assert (E : (0 <? n) = false) by (apply Z.ltb_ge; lia). now rewrite E.
  - lia.
  - exact Hnear.
  - intros H. pose proof (totalCredit_under rgs H) as Hlt. fold n in Hlt.
    destruct (totalCredit_le rgs) as [H0 _].
    apply Qlt_shift_div_r; lra.
  - intros H. pose proof (totalCredit_short rgs H) as Hle. fold n in Hle.
    destruct (totalCredit_le rgs) as [H0 _].
    assert (Hn : 0 < n).
    { destruct (Z_lt_le_dec 0 n) as [Hpos | Hneg]; [assumption |].
      apply inject_le in Hneg. change (inject_Z 0) with 0%Q in Hneg. lra. }
    pose proof (inject_pos n Hn) as Hn'.
    apply inject_le in Hfive. fold n in Hfive. change (inject_Z 5) with 5%Q in Hfive.
    destruct (Hnear Hn) as [_ Hhi]. unfold meanCreditPercent in Hhi. fold n in Hhi.
    assert (Hq : (totalCredit rgs / inject_Z n <= 194 # 195)%Q)
      by (apply Qle_shift_div_r; lra).
    rewrite Zlt_Qlt. change (inject_Z 100) with 100%Q. lra.
Qed.

(** *** Pillar alignment *)

Lemma pillarMatched_iff (generatedPillars : list string) (p : string) :
  pillarMatched generatedPillars p = true <-> pillarHit generatedPillars p.
Proof.
  unfold pillarMatched, pillarHit, containsIgnoringCase.
  rewrite existsb_exists. split.
  - intros (gp & Hin & H). exists gp. split; [assumption | now apply includes_iff].
  - intros (gp & Hin & H). exists gp. split; [assumption | now apply includes_iff].
Qed.

(** The percentage of [m] out of [n] as the code computes it. *)
Lemma percent_mono (m m' n : Z) :
  0 < n -> m <= m' ->
  Math_round (num_mul (num_div (inject_Z m) (inject_Z n)) 100)
  <= Math_round (num_mul (num_div (inject_Z m') (inject_Z n)) 100).
Proof.
  intros Hn Hm. apply Math_round_mono. apply num_mul_mono; [lra |].
  apply num_div_mono; [now apply inject_pos | now apply inject_le].
Qed.

Lemma percent_full (n : Z) :
  0 < n -> Math_round (num_mul (num_div (inject_Z n) (inject_Z n)) 100) = 100.
Proof.
  intros Hn. pose proof (inject_pos n Hn) as Hn'.
  unfold num_mul, num_div.
  rewrite (double_comp (inject_Z n / inject_Z n) 1) by (field; lra).
  reflexivity.
Qed.

(** The percentage computed in doubles is within [2^-45] of the exact
    one. *)
Lemma percent_near (m n : Z) :
  0 <= m <= n -> 0 < n ->
  (inject_Z m / inject_Z n * 100 - pow2 (-45)
   <= num_mul (num_div (inject_Z m) (inject_Z n)) 100)%Q /\
  (num_mul (num_div (inject_Z m) (inject_Z n)) 100
   <= inject_Z m / inject_Z n * 100 + pow2 (-45))%Q.
Proof.
  intros Hm Hn. destruct (ratio_unit m n Hm Hn) as [H0 H1].
  unfold num_mul, num_div.
  let v := eval vm_compute in (pow2 (-45)) in change (pow2 (-45)) with v.
  set (q := (inject_Z m / inject_Z n)%Q) in *. clearbody q.
  round_bounds q 1. set (d := double q) in *. clearbody d.
  round_bounds (d * 100)%Q 8.
  split; lra.
Qed.

(** A number within [2^-45] of a percentage that is not half-way between
    two integers rounds as the percentage does. *)
Lemma Math_round_off_tie (x : Q) (m n : Z) :
  0 <= m <= n -> 0 < n < 2 ^ 40 ->
  (inject_Z m / inject_Z n * 100 - pow2 (-45) <= x)%Q ->
  (x <= inject_Z m / inject_Z n * 100 + pow2 (-45))%Q ->
  (forall k : Z, 200 * m <> (2 * k + 1) * n) ->
  Math_round x = roundedPercentage m n.
Proof.
  intros Hm Hn Hlo Hhi Htie.
  let v := eval vm_compute in (pow2 (-45)) in change (pow2 (-45)) with v in Hlo, Hhi.
  pose proof (Z.div_mod (200 * m + n) (2 * n) ltac:(lia)) as Hdiv.
  pose proof (Z.mod_pos_bound (200 * m + n) (2 * n) ltac:(lia)) as Hmod.
  set (K := (200 * m + n) / (2 * n)) in *. set (r := (200 * m + n) mod (2 * n)) in *.
  clearbody K r.
  assert (Hr : 1 <= r <= 2 * n - 1).
  { destruct (Z.eq_dec r 0) as [H0 | H0]; [exfalso | lia].
    apply (Htie (K - 1)). lia. }
  set (u := (/ inject_Z (2 * n))%Q).
  assert (HD : (0 < inject_Z (2 * n))%Q) by (change 0%Q with (inject_Z 0); rewrite <- Zlt_Qlt; lia).
  assert (Hone : (inject_Z (2 * n) * u == 1)%Q) by (unfold u; field; lra).
  assert (Hu : ((1 # 2199023255552) < u)%Q).
  { apply (Qmult_lt_l _ _ (inject_Z (2 * n)) HD). rewrite Hone.
    assert (Hb : (inject_Z (2 * n) < inject_Z (2 ^ 41))%Q) by (rewrite <- Zlt_Qlt; lia).
    change (inject_Z (2 ^ 41)) with 2199023255552%Q in Hb. lra. }
  assert (Hexact : (inject_Z m / inject_Z n * 100 + (1 # 2)
                    == inject_Z K + inject_Z r * u)%Q).
  { assert (HN : (200 * inject_Z m + inject_Z n
                  == inject_Z (2 * n) * inject_Z K + inject_Z r)%Q).
    { assert (HZ : inject_Z (200 * m + n) = inject_Z (2 * n * K + r)) by (now f_equal).
      rewrite !inject_Z_plus, !inject_Z_mult in HZ.
      rewrite inject_Z_mult. change 200%Q with (inject_Z 200). now rewrite HZ. }
    assert (Hn0 : ~ (inject_Z n == 0)%Q).
    { change 0%Q with (inject_Z 0). rewrite inject_Z_injective. lia. }
    setoid_replace (inject_Z m / inject_Z n * 100 + (1 # 2))%Q
      with ((200 * inject_Z m + inject_Z n) * u)%Q using relation Qeq.
    - rewrite HN. rewrite Qmult_plus_distr_l.
      setoid_replace (inject_Z (2 * n) * inject_Z K * u)%Q
        with (inject_Z K * (inject_Z (2 * n) * u))%Q using relation Qeq by ring.
      rewrite Hone. ring.
    - unfold u. rewrite inject_Z_mult. change (inject_Z 2) with 2%Q. field. assumption. }
  assert (Hru : (u <= inject_Z r * u)%Q /\ (inject_Z r * u <= 1 - u)%Q).
  { assert (Hu0 : (0 <= u)%Q) by lra.
    split.
    - setoid_replace u with (1 * u)%Q using relation Qeq at 1 by ring.
      apply Qmult_le_compat_r; [| assumption].
      change 1%Q with (inject_Z 1). rewrite <- Zle_Qle. lia.
    - assert (Hrest : ((inject_Z (2 * n) - 1) * u == 1 - u)%Q).
      { setoid_replace ((inject_Z (2 * n) - 1) * u)%Q
          with (inject_Z (2 * n) * u - u)%Q using relation Qeq by ring.
        now rewrite Hone. }
      rewrite <- Hrest.
      apply Qmult_le_compat_r; [| assumption].
      change 1%Q with (inject_Z 1). unfold Qminus. rewrite <- inject_Z_opp, <- inject_Z_plus.
      rewrite <- Zle_Qle. lia. }
  set (t := (inject_Z r * u)%Q) in *. clearbody t. clearbody u.
  assert (HK1 : (inject_Z (K + 1) == inject_Z K + 1)%Q) by (now rewrite inject_Z_plus).
  assert (HrP : roundedPercentage m n = K).
  { unfold roundedPercentage, Math_round. apply Qfloor_unique; rewrite Hexact; lra. }
  rewrite HrP. unfold Math_round.
  set (p := (inject_Z m / inject_Z n * 100)%Q) in *. clearbody p.
  apply Qfloor_unique; lra.
Qed.

(** Unless the exact percentage is half-way between two integers, the
    doubles give the rounded percentage that exact arithmetic gives. *)
Lemma percent_off_tie (m n : Z) :
  0 <= m <= n -> 0 < n < 2 ^ 40 ->
  (forall k : Z, 200 * m <> (2 * k + 1) * n) ->
  Math_round (num_mul (num_div (inject_Z m) (inject_Z n)) 100) = roundedPercentage m n.
Proof.
  intros Hm Hn Htie. destruct (percent_near m n Hm ltac:(lia)) as [Hlo Hhi].
  now apply Math_round_off_tie.
Qed.

(** With at most three requested pillars the doubles give the percentage
    that exact arithmetic gives. *)
Lemma percent_exact (m n : Z) :
  0 <= m <= n -> 0 < n <= 3 ->
  Math_round (num_mul (num_div (inject_Z m) (inject_Z n)) 100) = roundedPercentage m n.
Proof.
  intros Hm Hn.
  assert (Hcases : (n = 1 /\ (m = 0 \/ m = 1)) \/
                   (n = 2 /\ (m = 0 \/ m = 1 \/ m = 2)) \/
                   (n = 3 /\ (m = 0 \/ m = 1 \/ m = 2 \/ m = 3))) by lia.
  destruct Hcases as [[-> Hc] | [[-> Hc] | [-> Hc]]];
    repeat (destruct Hc as [-> | Hc]); try subst m; vm_compute; reflexivity.
Qed.

(** Below 200 requested pillars, one unmatched pillar keeps the score
    under 100. *)
Lemma percent_100 (m n : Z) :
  0 <= m <= n -> 0 < n < 200 ->
  Math_round (num_mul (num_div (inject_Z m) (inject_Z n)) 100) = 100 -> m = n.
Proof.
  intros Hm Hn H100.
  destruct (Z.eq_dec m n) as [Heq | Hne]; [assumption | exfalso].
  destruct (percent_near m n Hm ltac:(lia)) as [_ Hhi].
  let v := eval vm_compute in (pow2 (-45)) in change (pow2 (-45)) with v in Hhi.
  assert (Hq : (inject_Z m / inject_Z n <= 198 # 199)%Q).
  { apply Qle_shift_div_r; [apply inject_pos; lia |].
    unfold Qle. simpl. lia. }
  set (y := num_mul _ 100) in *.
  assert (Hlt : Math_round y < 100).
  { apply Math_round_below. change (inject_Z 100) with 100%Q. lra. }
  lia.
Qed.

(** C7: pillar alignment is 100 when the brief lists no pillar; otherwise
    it is the rounded percentage of the requested pillars that some pillar
    of the blueprint summary contains, letter case ignored: the percentage
    computed in doubles is within [2^-45] of the exact one before rounding,
    and the two round to the same integer for the at most three pillars of
    a brief, and for any number of pillars unless the exact percentage is
    half-way between two integers. The score does not decrease when more
    requested pillars are matched; it is 100 when every requested pillar
    is matched, and, with fewer than 200 requested pillars, only then. *)
Theorem analyzePillarAlignment_spec (brief : CampaignBrief) (blueprint : CampaignBlueprint) :
  let requested := orEmpty (pillars (meta brief)) in
  let generated := orEmpty (summary_pillars (campaign_summary blueprint)) in
  let matched := List.filter (pillarMatched generated) requested in
  (forall p, pillarMatched generated p = true <-> pillarHit generated p) /\
  (requested = [] -> analyzePillarAlignment brief blueprint = 100) /\
  (requested <> [] ->
     (inject_Z (lengthZ matched) / inject_Z (lengthZ requested) * 100
      - (1 # 2) - pow2 (-45)
      <= inject_Z (analyzePillarAlignment brief blueprint))%Q /\
     (inject_Z (analyzePillarAlignment brief blueprint)
      <= inject_Z (lengthZ matched) / inject_Z (lengthZ requested) * 100
         + (1 # 2) + pow2 (-45))%Q) /\
  (requested <> [] -> lengthZ requested <= 3 ->
     analyzePillarAlignment brief blueprint
     = roundedPercentage (lengthZ matched) (lengthZ requested)) /\
  (requested <> [] -> lengthZ requested < 2 ^ 40 ->
     (forall k : Z, 200 * lengthZ matched <> (2 * k + 1) * lengthZ requested) ->
     analyzePillarAlignment brief blueprint
     = roundedPercentage (lengthZ matched) (lengthZ requested)) /\
  (forall blueprint',
     (forall p, In p requested -> pillarHit generated p ->
                pillarHit (orEmpty (summary_pillars (campaign_summary blueprint'))) p) ->
     analyzePillarAlignment brief blueprint <= analyzePillarAlignment brief blueprint') /\
  (Forall (pillarHit generated) requested -> analyzePillarAlignment brief blueprint = 100) /\
  (lengthZ requested < 200 ->
     analyzePillarAlignment brief blueprint = 100 ->
     Forall (pillarHit generated) requested).
Proof.
  cbv zeta. unfold analyzePillarAlignment. cbv zeta.
  set (requested := orEmpty (pillars (meta brief))).
  set (generated := orEmpty (summary_pillars (campaign_summary blueprint))).
  pose proof (lengthZ_nonneg requested) as Hnn.
  pose proof (filter_lengthZ (pillarMatched generated) requested) as Hm.
  assert (Hempty : lengthZ requested = 0 <-> requested = []).
  { split; [| now intros ->]. destruct requested; [reflexivity |].
    unfold lengthZ. simpl. lia. }
  split; [intros p; apply pillarMatched_iff |].
  split; [| split; [| split; [| split; [| split; [| split]]]]].
  - intros H. now rewrite H.
  - intros H. destruct (lengthZ requested =? 0) eqn:Hn;
      [apply Z.eqb_eq in Hn; tauto | apply Z.eqb_neq in Hn].
    destruct (percent_near (lengthZ (List.filter (pillarMatched generated) requested))
                (lengthZ requested)) as [Hlo Hhi]; [lia | lia |].
    set (y := num_mul _ 100) in *. unfold Math_round.
    pose proof (Qfloor_le (y + (1 # 2))) as Hfl.
    pose proof (Qlt_floor (y + (1 # 2))) as Hfu.
    rewrite inject_Z_plus in Hfu. change (inject_Z 1) with 1%Q in Hfu.
    split; lra.
  - intros H Hthree. destruct (lengthZ requested =? 0) eqn:Hn;
      [apply Z.eqb_eq in Hn; tauto | apply Z.eqb_neq in Hn].
    apply percent_exact; lia.
  - intros H Hsmall Htie. destruct (lengthZ requested =? 0) eqn:Hn;
      [apply Z.eqb_eq in Hn; tauto | apply Z.eqb_neq in Hn].
    apply percent_off_tie; [lia | lia | exact Htie].
  - intros blueprint' Hmono.
    destruct (lengthZ requested =? 0) eqn:Hn; [lia | apply Z.eqb_neq in Hn].
    apply percent_mono; [lia |].
    unfold lengthZ. apply inj_le. apply filter_length_mono.
    intros p Hin Hp. apply pillarMatched_iff. apply Hmono; [assumption |].
    now apply pillarMatched_iff.
  - intros Hall.
    destruct (lengthZ requested =? 0) eqn:Hn; [reflexivity | apply Z.eqb_neq in Hn].
    assert (Hlen : lengthZ (List.filter (pillarMatched generated) requested)
                   = lengthZ requested).
    { unfold lengthZ. f_equal. apply filter_all_length.
      eapply List.Forall_impl; [| exact Hall]. intros p Hp. now apply pillarMatched_iff. }
    rewrite Hlen. apply percent_full. lia.
  - intros Hsmall H100.
    destruct (lengthZ requested =? 0) eqn:Hn.
    + apply Z.eqb_eq in Hn. apply Hempty in Hn. rewrite Hn. constructor.
    + apply Z.eqb_neq in Hn.
      apply percent_100 in H100; [| lia | lia].
      assert (Hlen : List.length (List.filter (pillarMatched generated) requested)
                     = List.length requested)
        by (unfold lengthZ in *; lia).
      apply filter_all_length in Hlen.
      eapply List.Forall_impl; [| exact Hlen]. intros p Hp. now apply pillarMatched_iff.
Qed.

End WithHost.

(** *** At concrete briefs and blueprints

    The texts below are ASCII, on which [toLowerCase] lowers the letters
    A-Z. *)

#[local] Existing Instance asciiHost.

(** Two hooks and a whole blueprint, scored by hand and by the embedding. *)
Example hookPoints_question : hookPoints "Why do 9 out of 10 plans fail you?" = 25.
Proof. reflexivity. Qed.

Example hookPoints_short : hookPoints "youth is yours" = 5.
Proof. reflexivity. Qed.

Example analyzeHealthScore_sample :
  let r := analyzeHealthScore (briefWith "spring" ["moments"; "animator_shift"]
                                         (quantitiesOf 3 1 0 0 0))
                              (blueprintWith ["Moments"] 2 1) in
  breakdown r = {| narrativeStrength := 44; emotionalBalance := 100;
                   assetCoverage := 83; hookQuality := 70;
                   ctaClarity := 100; pillarAlignment := 50 |} /\
  overall r = 74.
Proof. vm_compute. split; reflexivity. Qed.

(** The claim as first stated has the score equal the rounded weighted sum:
    for a blueprint of four short hooks with a number, one tagline, one
    call to action and one pillar of three, the weighted sum is 61.5, which
    rounds to 62, and the sum of the six products in doubles is
    61.49999999999999, so that the score is 61. *)
Lemma analyzeHealthScore_halfway :
  let r := analyzeHealthScore (briefWith "spring" threePillars (quantitiesOf 0 0 0 0 0))
                              halfwayBlueprint in
  breakdown r = {| narrativeStrength := 24; emotionalBalance := 100;
                   assetCoverage := 100; hookQuality := 32;
                   ctaClarity := 80; pillarAlignment := 33 |} /\
  hundredths (breakdown r) = 6150 /\
  rubricScore (breakdown r) = 62 /\
  overall r = 61 /\
  overall r <> rubricScore (breakdown r).
Proof.
  cbv zeta. split; [vm_compute; reflexivity |].
  split; [vm_compute; reflexivity |].
  split; [vm_compute; reflexivity |].
  split; [vm_compute; reflexivity |].
  vm_compute. discriminate.
Qed.

(** The amended statement at a blueprint whose weighted sum is not
    half-way between two integers. *)
Lemma analyzeHealthScore_rubric_witness :
  overall (analyzeHealthScore (briefWith "spring" ["moments"] (quantitiesOf 3 1 0 0 0))
                              (blueprintWith ["Moments"] 2 1))
  = rubricScore (breakdown (analyzeHealthScore
                              (briefWith "spring" ["moments"] (quantitiesOf 3 1 0 0 0))
                              (blueprintWith ["Moments"] 2 1))).
Proof.
  apply (analyzeHealthScore_rubric
           (briefWith "spring" ["moments"] (quantitiesOf 3 1 0 0 0))
           (blueprintWith ["Moments"] 2 1)).
  vm_compute. discriminate.
Defined.

(** Two invocations on different briefs and blueprints that the score
    cannot tell apart. *)
Lemma analyzeHealthScore_deterministic_witness :
  analyzeHealthScore
    (briefWith "spring" ["moments"] (quantitiesOf 2 1 0 0 0))
    (blueprintWith ["Moments"] 2 1)
  = analyzeHealthScore
      (briefWith "autumn" ["moments"] (quantitiesOf 2 1 0 0 0))
      {| campaign_summary := aSummary ["Moments"];
         narrative_pack := aNarrative;
         memes := Some [aMeme; aMeme];
         static_banners := Some [aBanner];
         short_videos := None;
         ugc_scripts := Some [];
         carousels := None;
         moments_mapping := [] |}.
Proof.
  apply analyzeHealthScore_deterministic.
  - unfold briefAgree. simpl. repeat split; reflexivity.
  - unfold blueprintAgree. simpl. repeat split; reflexivity.
Defined.

(** The claim as first stated also promises a strictly smaller score for
    any partial delivery: with 201 memes requested, 200 generated memes
    already round to the score 100 of a full delivery. *)
Lemma analyzeAssetCoverage_partial_not_smaller :
  Exists underDelivered
    (requestedGenerated (briefWith "spring" [] (quantitiesOf 201 0 0 0 0))
                        (blueprintWith [] 200 0)) /\
  analyzeAssetCoverage (briefWith "spring" [] (quantitiesOf 201 0 0 0 0))
                       (blueprintWith [] 200 0) = 100 /\
  analyzeAssetCoverage (briefWith "spring" [] (quantitiesOf 201 0 0 0 0))
                       (blueprintWith [] 201 0) = 100 /\
  ~ (analyzeAssetCoverage (briefWith "spring" [] (quantitiesOf 201 0 0 0 0))
                          (blueprintWith [] 200 0)
     < analyzeAssetCoverage (briefWith "spring" [] (quantitiesOf 201 0 0 0 0))
                            (blueprintWith [] 201 0)).
Proof.
  split; [| split; [| split]].
  - apply Exists_cons_hd. unfold underDelivered. vm_compute. split; reflexivity.
  - vm_compute. reflexivity.
  - vm_compute. reflexivity.
  - vm_compute. discriminate.
Qed.

(** The amended statement at three briefs: nothing requested; two memes and
    a banner requested and delivered; three memes requested and two
    delivered, where the score, 83, is the mean credit of 83.33 per cent
    rounded. *)
Lemma analyzeAssetCoverage_spec_witness :
  analyzeAssetCoverage (briefWith "spring" [] (quantitiesOf 0 0 0 0 0))
                       (blueprintWith [] 2 1) = 100 /\
  analyzeAssetCoverage (briefWith "spring" [] (quantitiesOf 2 1 0 0 0))
                       (blueprintWith [] 2 1) = 100 /\
  analyzeAssetCoverage (briefWith "spring" [] (quantitiesOf 3 1 0 0 0))
                       (blueprintWith [] 2 1) < 100 /\
  (meanCreditPercent (requestedGenerated (briefWith "spring" [] (quantitiesOf 3 1 0 0 0))
                                         (blueprintWith [] 2 1))
   <= inject_Z (analyzeAssetCoverage (briefWith "spring" [] (quantitiesOf 3 1 0 0 0))
                                     (blueprintWith [] 2 1))
      + (1 # 2) + pow2 (-40))%Q /\
  (totalCredit (requestedGenerated (briefWith "spring" [] (quantitiesOf 3 1 0 0 0))
                                   (blueprintWith [] 2 1))
   / inject_Z (lengthZ (requestedTypes
       (requestedGenerated (briefWith "spring" [] (quantitiesOf 3 1 0 0 0))
                           (blueprintWith [] 2 1)))) < 1)%Q.
Proof.
  pose proof (analyzeAssetCoverage_spec
                (briefWith "spring" [] (quantitiesOf 0 0 0 0 0))
                (blueprintWith [] 2 1)) as (Hnone & _).
  pose proof (analyzeAssetCoverage_spec
                (briefWith "spring" [] (quantitiesOf 2 1 0 0 0))
                (blueprintWith [] 2 1)) as (_ & Hfull & _).
  pose proof (analyzeAssetCoverage_spec
                (briefWith "spring" [] (quantitiesOf 3 1 0 0 0))
                (blueprintWith [] 2 1)) as (_ & _ & _ & Hnear & Hunder & Hshort).
  cbv zeta in *.
  split; [| split; [| split; [| split]]].
  - apply Hnone. repeat constructor; simpl; lia.
  - apply Hfull. repeat constructor; simpl; unfold lengthZ; simpl; lia.
  - apply Hshort. apply Exists_cons_hd.
    unfold shortOfFew, underDelivered. vm_compute. repeat split; reflexivity.
  - destruct Hnear as [Hlo _]; [vm_compute; reflexivity |]. lra.
  - apply Hunder. apply Exists_cons_hd.
    unfold underDelivered. vm_compute. split; reflexivity.
Defined.

(** The statement at a brief without pillars, at a brief with two pillars
    of which one, then both, are matched. *)
Lemma analyzePillarAlignment_spec_witness :
  analyzePillarAlignment (briefWith "spring" [] (quantitiesOf 0 0 0 0 0))
                         (blueprintWith ["Moments"] 0 0) = 100 /\
  analyzePillarAlignment (briefWith "spring" ["moments"; "animator_shift"]
                                    (quantitiesOf 0 0 0 0 0))
                         (blueprintWith ["Moments"] 0 0) = 50 /\
  analyzePillarAlignment (briefWith "spring" ["moments"; "animator_shift"]
                                    (quantitiesOf 0 0 0 0 0))
                         (blueprintWith ["Moments"] 0 0)
  <= analyzePillarAlignment (briefWith "spring" ["moments"; "animator_shift"]
                                       (quantitiesOf 0 0 0 0 0))
                            (blueprintWith ["Daily Moments"; "The Animator_Shift"] 0 0) /\
  analyzePillarAlignment (briefWith "spring" ["moments"; "animator_shift"]
                                    (quantitiesOf 0 0 0 0 0))
                         (blueprintWith ["Daily Moments"; "The Animator_Shift"] 0 0) = 100 /\
  Forall (pillarHit ["Daily Moments"; "The Animator_Shift"]) ["moments"; "animator_shift"].
Proof.
  pose proof (analyzePillarAlignment_spec
                (briefWith "spring" [] (quantitiesOf 0 0 0 0 0))
                (blueprintWith ["Moments"] 0 0)) as (_ & Hnone & _).
  pose proof (analyzePillarAlignment_spec
                (briefWith "spring" ["moments"; "animator_shift"] (quantitiesOf 0 0 0 0 0))
                (blueprintWith ["Moments"] 0 0)) as (_ & _ & _ & Hsome & _ & Hmono & _).
  pose proof (analyzePillarAlignment_spec
                (briefWith "spring" ["moments"; "animator_shift"] (quantitiesOf 0 0 0 0 0))
                (blueprintWith ["Daily Moments"; "The Animator_Shift"] 0 0))
    as (Hiff & _ & _ & _ & _ & _ & Hall & Honly).
  cbv zeta in *.
  assert (Hhits : Forall (pillarHit ["Daily Moments"; "The Animator_Shift"])
                         ["moments"; "animator_shift"]).
  { repeat constructor; apply Hiff; vm_compute; reflexivity. }
  split; [apply Hnone; reflexivity |].
  split; [rewrite Hsome; [vm_compute; reflexivity | discriminate | vm_compute; discriminate] |].
  split.
  { apply Hmono. intros p Hin _. rewrite List.Forall_forall in Hhits.
    now apply Hhits. }
  split; [apply Hall; exact Hhits |].
  apply Honly; [vm_compute; reflexivity | apply Hall; exact Hhits].
Defined.

End HealthScoreFacts.

(** ** Whispers *)

Module WhisperFacts.
Import JS Storage WhisperService WhisperSpec Samples.

Section Sorting.
Context {A : Type} (rank : A -> Z).

Lemma Forall_insertBy (P : A -> Prop) (x : A) (xs : list A) :
  P x -> List.Forall P xs -> List.Forall P (insertBy rank x xs).
Proof.
  intros Hx Hxs. induction Hxs as [|y ys Hy Hys IH]; simpl.
  - constructor; [assumption | constructor].
  - destruct (rank x <=? rank y).
    + constructor; [assumption |]. constructor; assumption.
    + constructor; assumption.
Qed.

Lemma insertBy_sorted (x : A) (xs : list A) :
  StronglySorted (byRank rank) xs -> StronglySorted (byRank rank) (insertBy rank x xs).
Proof.
  induction 1 as [|y ys Hsorted IH Hall]; simpl.
  - constructor; constructor.
  - destruct (rank x <=? rank y) eqn:Hxy.
    + apply Z.leb_le in Hxy. constructor.
      * constructor; assumption.
      * constructor; [exact Hxy |].
        eapply List.Forall_impl; [| exact Hall].
        intros z Hz. unfold byRank in *. lia.
    + apply Z.leb_gt in Hxy. constructor; [exact IH |].
      apply Forall_insertBy; [unfold byRank; lia | exact Hall].
Qed.

Lemma sortBy_sorted (xs : list A) : StronglySorted (byRank rank) (sortBy rank xs).
Proof.
  induction xs as [|x xs IH]; simpl; [constructor | now apply insertBy_sorted].
Qed.

Lemma Forall_slice0 (P : A -> Prop) (n : nat) (xs : list A) :
  List.Forall P xs -> List.Forall P (slice0 n xs).
Proof.
  intros H. revert n. induction H as [|x xs Hx Hxs IH]; intros [|n]; simpl;
    constructor; auto.
Qed.

Lemma slice0_sorted (n : nat) (xs : list A) :
  StronglySorted (byRank rank) xs -> StronglySorted (byRank rank) (slice0 n xs).
Proof.
  intros H. revert n. induction H as [|x xs Hsorted IH Hall]; intros [|n]; simpl;
    try constructor; [apply IH | now apply Forall_slice0].
Qed.

(** In a sorted array an element of smaller rank has the smaller index. *)
Lemma sorted_index_order (xs : list A) :
  StronglySorted (byRank rank) xs ->
  forall (i j : nat) (a b : A),
    xs !! i = Some a -> xs !! j = Some b -> rank a < rank b -> (i < j)%nat.
Proof.
  induction 1 as [|x xs Hsorted IH Hall]; intros i j a b Hi Hj Hlt.
  - discriminate.
  - destruct i as [|i], j as [|j]; simpl in Hi, Hj.
    + injection Hi as ->. injection Hj as ->. lia.
    + lia.
    + injection Hj as ->.
      pose proof (Forall_lookup_1 _ _ _ _ Hall Hi) as Hle.
      unfold byRank in Hle. lia.
    + apply ->Nat.succ_lt_mono. eapply IH; eassumption.
Qed.

Lemma insertBy_incl (x y : A) (xs : list A) :
  In y (insertBy rank x xs) -> y = x \/ In y xs.
Proof.
  induction xs as [|z zs IH]; simpl.
  - intros [<- | []]. now left.
  - destruct (rank x <=? rank z); simpl.
    + intros [<- | H]; [now left | now right].
    + intros [<- | H]; [right; now left |].
      destruct (IH H) as [-> | Hin]; [now left | right; now right].
Qed.

(** Sorting and cutting add no element. *)
Lemma sortBy_incl (y : A) (xs : list A) : In y (sortBy rank xs) -> In y xs.
Proof.
  induction xs as [|x xs IH]; simpl; [tauto |].
  intros H. apply insertBy_incl in H as [-> | H]; [now left | right; now apply IH].
Qed.

End Sorting.

Lemma slice0_incl {A : Type} (n : nat) (y : A) (xs : list A) :
  In y (slice0 n xs) -> In y xs.
Proof.
  unfold slice0. revert xs. induction n as [|n IH]; intros [|x xs]; simpl; try tauto.
  intros [<- | H]; [now left | right; now apply IH].
Qed.

Lemma outranks_order (p q : Priority) :
  outranks p q -> priorityOrder p < priorityOrder q.
Proof.
  intros [[-> ->] | [[-> ->] | [-> ->]]]; simpl; lia.
Qed.

(** C8: at most five whispers are returned, and among them every whisper of
    high priority comes before every whisper of medium priority, and every
    one of medium (and of high) priority before every one of low
    priority. *)
Theorem generateWhispers_limited_sorted (w : World) :
  (List.length (generateWhispers w) <= 5)%nat /\
  forall (i j : nat) (a b : Whisper),
    generateWhispers w !! i = Some a ->
    generateWhispers w !! j = Some b ->
    outranks (priority a) (priority b) ->
    (i < j)%nat.
Proof.
  unfold generateWhispers. split.
  - unfold slice0. apply List.firstn_le_length.
  - intros i j a b Hi Hj Hab.
    eapply (sorted_index_order (fun x => priorityOrder (priority x)));
      [| exact Hi | exact Hj | now apply outranks_order].
    apply slice0_sorted, sortBy_sorted.
Qed.

(** On a December Monday with two weak campaigns and three memes, seven
    whispers are gathered and five returned, the one of high priority
    first. *)
Lemma generateWhispers_limited_sorted_witness :
  exists a b : Whisper,
    generateWhispers decemberBusy !! 0%nat = Some a /\
    generateWhispers decemberBusy !! 4%nat = Some b /\
    title a = "Health Scores Trending Low" /\
    title b = "New Year Campaign Opportunity" /\
    outranks (priority a) (priority b) /\
    (0 < 4)%nat.
Proof.
  eexists. eexists.
  split; [vm_compute; reflexivity |].
  split; [vm_compute; reflexivity |].
  split; [reflexivity |].
  split; [reflexivity |].
  split; [left; split; reflexivity |].
  eapply (proj2 (generateWhispers_limited_sorted decemberBusy) 0%nat 4%nat).
  - vm_compute. reflexivity.
  - vm_compute. reflexivity.
  - left. split; reflexivity.
Defined.

(** With nothing stored, only [generateOpportunities] can add whispers. *)
Lemma gatherWhispers_empty (w : World) :
  getAllCampaigns w = Some [] -> getAllAssets w = Some [] ->
  gatherWhispers w = generateOpportunities w [] [].
Proof.
  intros Hc Ha. unfold gatherWhispers. rewrite Hc, Ha.
  change (analyzeAssetDistribution w []) with (@nil Whisper).
  change (analyzeCampaignPatterns w []) with (@nil Whisper).
  change (analyzeTimingPatterns w []) with (@nil Whisper).
  change (analyzePillarUsage w []) with (@nil Whisper).
  simpl app. apply app_nil_r.
Qed.

(** The claim as first stated has an empty history give no whisper: on a
    day of December the seasonal whisper is returned all the same. *)
Lemma generateWhispers_december_not_empty :
  getAllCampaigns decemberEmpty = Some [] /\
  getAllAssets decemberEmpty = Some [] /\
  List.length (generateWhispers decemberEmpty) = 1%nat /\
  generateWhispers decemberEmpty <> [] /\
  generateWhispers decemberEmpty <> generateWhispers marchEmpty.
Proof.
  split; [reflexivity |]. split; [reflexivity |].
  split; [vm_compute; reflexivity |].
  split; vm_compute; discriminate.
Qed.

(** Every whisper is gathered by one of the five analyses. *)
Lemma generateWhispers_gathered (w : World) (x : Whisper) :
  In x (generateWhispers w) -> In x (gatherWhispers w).
Proof.
  unfold generateWhispers. intros H.
  apply slice0_incl in H. apply sortBy_incl in H. exact H.
Qed.

Lemma generateOpportunities_origin
    (w : World) (campaigns : list StoredCampaign) (assets : list StoredAsset)
    (x : Whisper) :
  In x (generateOpportunities w campaigns assets) ->
  calendarWhisper w x \/
  (title x = "LinkedIn Carousel Opportunity" /\ campaigns <> []).
Proof.
  unfold generateOpportunities, calendarWhisper. cbv zeta.
  destruct ((month w =? 11) || (month w =? 0)) eqn:Hseason;
    destruct (dayOfWeek w =? 1) eqn:Hmonday;
    destruct ((_ <? 3) && (2 <? lengthZ campaigns)) eqn:Hcarousel;
    unfold push; simpl; intros Hin;
    repeat match goal with
           | H : _ \/ _ |- _ => destruct H as [H | H]
           | H : False |- _ => destruct H
           | H : _ = x |- _ => subst x; simpl
           end;
    try (left; left; split; [reflexivity |];
         apply orb_true_iff in Hseason; rewrite !Z.eqb_eq in Hseason; tauto);
    try (left; right; split; [reflexivity |]; now apply Z.eqb_eq);
    right; (split; [reflexivity |]);
    apply andb_true_iff in Hcarousel as [_ Hmany]; apply Z.ltb_lt in Hmany;
    intros ->; unfold lengthZ in Hmany; simpl in Hmany; lia.
Qed.

(** Where the gathered whispers come from. *)
Lemma gatherWhispers_origin (w : World) (x : Whisper) :
  In x (gatherWhispers w) -> calendarWhisper w x \/ historyWhisper w x.
Proof.
  unfold gatherWhispers, historyWhisper.
  destruct (getAllCampaigns w) as [campaigns|]; [| intros []].
  destruct (getAllAssets w) as [assets|]; [| intros []].
  rewrite !in_app_iff. intros [H | [H | [H | [H | H]]]].
  - right. exists campaigns, assets. split; [reflexivity |]. split; [reflexivity |].
    left. split; [| assumption]. intros ->. exact H.
  - right. exists campaigns, assets. split; [reflexivity |]. split; [reflexivity |].
    right. split; [intros ->; exact H | now left].
  - right. exists campaigns, assets. split; [reflexivity |]. split; [reflexivity |].
    right. split; [intros ->; exact H | right; now left].
  - destruct (generateOpportunities_origin w campaigns assets x H) as [Hc | [Ht Hne]];
      [now left |].
    right. exists campaigns, assets. split; [reflexivity |]. split; [reflexivity |].
    right. split; [assumption |]. right. right. right. now split.
  - right. exists campaigns, assets. split; [reflexivity |]. split; [reflexivity |].
    right. split; [intros ->; exact H | right; right; now left].
Qed.

(** *** What the analyses read of the history *)

Lemma fold_left_view {A B C : Type} (f : A -> B) (g : C -> B -> C) (l : list A) (start : C) :
  fold_left (fun acc a => g acc (f a)) l start = fold_left g (map f l) start.
Proof.
  revert start. induction l as [|a l IH]; intros start; simpl; [reflexivity | apply IH].
Qed.

Lemma filter_view {A B : Type} (f : A -> B) (p : B -> bool) (l : list A) :
  lengthZ (List.filter (fun a => p (f a)) l) = lengthZ (List.filter p (map f l)).
Proof.
  unfold lengthZ. f_equal.
  induction l as [|a l IH]; simpl; [reflexivity |].
  destruct (p (f a)); simpl; now rewrite IH.
Qed.

Lemma lengthZ_view {A B : Type} (f : A -> B) (l : list A) : lengthZ (map f l) = lengthZ l.
Proof. unfold lengthZ. now rewrite length_map. Qed.

Lemma view_map {A B C : Type} (view : A -> B) (f : A -> C) (g : B -> C) (l l' : list A) :
  (forall a, f a = g (view a)) -> map view l = map view l' -> map f l = map f l'.
Proof.
  intros Hf H.
  rewrite (map_ext _ _ Hf l), (map_ext _ _ Hf l'), <- !(map_map view g).
  now rewrite H.
Qed.

Lemma analyzeAssetDistribution_view (w w' : World) (assets assets' : list StoredAsset) :
  now w = now w' ->
  map Storage.type assets = map Storage.type assets' ->
  analyzeAssetDistribution w assets = analyzeAssetDistribution w' assets'.
Proof.
  intros Hnow Hview.
  assert (Hlen : lengthZ assets = lengthZ assets')
    by (rewrite <- (lengthZ_view Storage.type assets), Hview; apply lengthZ_view).
  assert (Hcount :
    fold_left (fun counts a => bump (Storage.type a) counts) assets []
    = fold_left (fun counts a => bump (Storage.type a) counts) assets' []).
  { rewrite !(fold_left_view Storage.type (fun counts key => bump key counts)).
    now rewrite Hview. }
  unfold analyzeAssetDistribution. cbv zeta.
  rewrite Hlen, Hcount, Hnow. reflexivity.
Qed.

Lemma analyzeCampaignPatterns_view (w w' : World) (campaigns campaigns' : list StoredCampaign) :
  now w = now w' ->
  map campaignView campaigns = map campaignView campaigns' ->
  analyzeCampaignPatterns w campaigns = analyzeCampaignPatterns w' campaigns'.
Proof.
  intros Hnow Hview.
  assert (Hlen : lengthZ campaigns = lengthZ campaigns')
    by (rewrite <- (lengthZ_view campaignView campaigns), Hview; apply lengthZ_view).
  assert (Hrecent : map healthOf (slice0 5 campaigns) = map healthOf (slice0 5 campaigns')).
  { unfold slice0. rewrite <- !firstn_map. f_equal.
    apply (view_map campaignView healthOf (fun v => snd (fst v))); [reflexivity | assumption]. }
  assert (Hn : lengthZ (slice0 5 campaigns) = lengthZ (slice0 5 campaigns'))
    by (rewrite <- (lengthZ_view healthOf (slice0 5 campaigns)), Hrecent; apply lengthZ_view).
  assert (Hsum :
    fold_left (fun sum c => sum + healthOf c) (slice0 5 campaigns) 0
    = fold_left (fun sum c => sum + healthOf c) (slice0 5 campaigns') 0).
  { rewrite !(fold_left_view healthOf Z.add). now rewrite Hrecent. }
  unfold analyzeCampaignPatterns. cbv zeta.
  rewrite Hlen, Hrecent, Hn, Hsum, Hnow. reflexivity.
Qed.

Lemma analyzeTimingPatterns_view (w w' : World) (campaigns campaigns' : list StoredCampaign) :
  now w = now w' ->
  map campaignView campaigns = map campaignView campaigns' ->
  analyzeTimingPatterns w campaigns = analyzeTimingPatterns w' campaigns'.
Proof.
  intros Hnow Hview.
  assert (Hweek : forall limit : Z,
    lengthZ (List.filter (fun c => limit <? Storage.createdAt c) campaigns)
    = lengthZ (List.filter (fun c => limit <? Storage.createdAt c) campaigns')).
  { intros limit.
    rewrite !(filter_view Storage.createdAt (fun t => limit <? t)). f_equal. f_equal.
    apply (view_map campaignView Storage.createdAt (fun v => fst (fst (fst v))));
      [reflexivity | assumption]. }
  unfold analyzeTimingPatterns. cbv zeta.
  destruct campaigns as [|c cs], campaigns' as [|c' cs']; try discriminate Hview;
    [reflexivity |].
  assert (Hupdated : updatedAt c = updatedAt c').
  { pose proof (view_map campaignView updatedAt (fun v => snd (fst (fst v)))
                  (c :: cs) (c' :: cs') (fun _ => eq_refl) Hview) as Hu.
    simpl in Hu. now injection Hu. }
  rewrite Hweek, Hupdated, Hnow. reflexivity.
Qed.

Lemma generateOpportunities_view
    (w w' : World) (campaigns campaigns' : list StoredCampaign)
    (assets assets' : list StoredAsset) :
  sameClock w w' ->
  map campaignView campaigns = map campaignView campaigns' ->
  map Storage.type assets = map Storage.type assets' ->
  generateOpportunities w campaigns assets = generateOpportunities w' campaigns' assets'.
Proof.
  intros (Hnow & Hmonth & Hday) Hview Htypes.
  assert (Hlen : lengthZ campaigns = lengthZ campaigns')
    by (rewrite <- (lengthZ_view campaignView campaigns), Hview; apply lengthZ_view).
  assert (Hcarousels :
    lengthZ (List.filter (fun a => String.eqb (Storage.type a) "carousel") assets)
    = lengthZ (List.filter (fun a => String.eqb (Storage.type a) "carousel") assets')).
  { rewrite !(filter_view Storage.type (fun t => String.eqb t "carousel")).
    now rewrite Htypes. }
  unfold generateOpportunities. cbv zeta.
  rewrite Hlen, Hcarousels, Hnow, Hmonth, Hday. reflexivity.
Qed.

Lemma analyzePillarUsage_view (w w' : World) (campaigns campaigns' : list StoredCampaign) :
  now w = now w' ->
  map campaignView campaigns = map campaignView campaigns' ->
  analyzePillarUsage w campaigns = analyzePillarUsage w' campaigns'.
Proof.
  intros Hnow Hview.
  assert (Hlen : lengthZ campaigns = lengthZ campaigns')
    by (rewrite <- (lengthZ_view campaignView campaigns), Hview; apply lengthZ_view).
  assert (Hcount :
    fold_left (fun counts c =>
      fold_left (fun counts p => bump p counts) (pillarsOf c) counts) campaigns []
    = fold_left (fun counts c =>
        fold_left (fun counts p => bump p counts) (pillarsOf c) counts) campaigns' []).
  { rewrite !(fold_left_view pillarsOf
                (fun counts ps => fold_left (fun counts p => bump p counts) ps counts)).
    f_equal.
    apply (view_map campaignView pillarsOf (fun v => snd v)); [reflexivity | assumption]. }
  unfold analyzePillarUsage. cbv zeta.
  rewrite Hlen, Hcount, Hnow. reflexivity.
Qed.

(** The gathered whispers are fixed by the reading of the clock and by what
    the analyses read of the stored campaigns and assets. *)
Lemma gatherWhispers_view (w w' : World) :
  sameClock w w' -> sameHistory w w' -> gatherWhispers w = gatherWhispers w'.
Proof.
  intros Hclock Hhistory. pose proof Hclock as (Hnow & _).
  unfold gatherWhispers, getAllCampaigns, getAllAssets.
  unfold sameHistory in Hhistory.
  destruct (database w) as [d|], (database w') as [d'|]; try tauto.
  destruct Hhistory as [Hc Ha].
  assert (Hc' : map campaignView (rev (campaigns d))
                = map campaignView (rev (campaigns d')))
    by (rewrite !map_rev; now rewrite Hc).
  assert (Ha' : map Storage.type (rev (assets d)) = map Storage.type (rev (assets d')))
    by (rewrite !map_rev; now rewrite Ha).
  rewrite (analyzeAssetDistribution_view w w' _ _ Hnow Ha').
  rewrite (analyzeCampaignPatterns_view w w' _ _ Hnow Hc').
  rewrite (analyzeTimingPatterns_view w w' _ _ Hnow Hc').
  rewrite (generateOpportunities_view w w' _ _ _ _ Hclock Hc' Ha').
  rewrite (analyzePillarUsage_view w w' _ _ Hnow Hc').
  reflexivity.
Qed.

(** C4 (as amended): every whisper is derived from the stored history or
    from the calendar: it is one of the two whispers the calendar triggers
    (the seasonal one in December and January, the Monday one) or it is
    drawn from the stored assets or campaigns, of which there is one at
    least. So, when no campaign and no asset is stored, only the calendar
    whispers are returned, and none on any other day. And the whispers
    depend on nothing but the reading of the clock and what the analyses
    read of the history: of a campaign when it was created and updated, its
    health score and its pillars, of an asset its type. *)
Theorem generateWhispers_origin (w : World) :
  (forall x : Whisper,
     In x (generateWhispers w) -> calendarWhisper w x \/ historyWhisper w x) /\
  (getAllCampaigns w = Some [] -> getAllAssets w = Some [] ->
     (forall x : Whisper, In x (generateWhispers w) -> calendarWhisper w x) /\
     (month w <> 11 -> month w <> 0 -> dayOfWeek w <> 1 -> generateWhispers w = [])) /\
  (forall w' : World,
     sameClock w w' -> sameHistory w w' -> generateWhispers w' = generateWhispers w).
Proof.
  assert (Horigin : forall x : Whisper,
            In x (generateWhispers w) -> calendarWhisper w x \/ historyWhisper w x).
  { intros x Hin. now apply gatherWhispers_origin, generateWhispers_gathered. }
  split; [exact Horigin |]. split.
  - intros Hc Ha.
    assert (Hcalendar : forall x : Whisper,
              In x (generateWhispers w) -> calendarWhisper w x).
    { intros x Hin. destruct (Horigin x Hin) as [H | H]; [assumption | exfalso].
      destruct H as (campaigns & assets & Hc' & Ha' & H).
      rewrite Hc in Hc'. rewrite Ha in Ha'.
      injection Hc' as <-. injection Ha' as <-. tauto. }
    split; [exact Hcalendar |].
    intros H11 H0 H1.
    destruct (generateWhispers w) as [|x rest] eqn:E; [reflexivity | exfalso].
    destruct (Hcalendar x (or_introl eq_refl)) as [[_ H] | [_ H]]; lia.
  - intros w' Hclock Hhistory. unfold generateWhispers.
    now rewrite (gatherWhispers_view w w' Hclock Hhistory).
Qed.

(** In March, on a Wednesday, an empty database gives no whisper; in
    December it gives the seasonal one; and a world whose campaigns carry
    other names and whose assets carry other prompts gives the whispers of
    the Monday of December. *)
Lemma generateWhispers_origin_witness :
  generateWhispers marchEmpty = [] /\
  (forall x : Whisper, In x (generateWhispers decemberEmpty) ->
                       calendarWhisper decemberEmpty x) /\
  generateWhispers
    {| now := now decemberBusy; month := 11; dayOfWeek := 1;
       database :=
         Some {| campaigns := [ aCampaign "first" 1765000000000 (Some 40);
                                aCampaign "second" 1765100000000 (Some 55) ];
                 assets := [ anAsset "x" "meme"; anAsset "y" "meme";
                             anAsset "z" "meme" ] |} |}
  = generateWhispers decemberBusy.
Proof.
  split; [| split].
  - apply (proj1 (proj2 (generateWhispers_origin marchEmpty)));
      try reflexivity; vm_compute; discriminate.
  - apply (proj1 (proj2 (generateWhispers_origin decemberEmpty))); reflexivity.
  - apply (proj2 (proj2 (generateWhispers_origin decemberBusy))).
    + repeat split.
    + split; reflexivity.
Defined.

End WhisperFacts.

(** ** Engagement rate *)

Module FeedbackFacts.
Import JS FeedbackService FeedbackSpec Samples JSFacts.

Lemma orElse_nonzero (a : option Z) (b : Z) : b <> 0 -> orElse a b <> 0.
Proof.
  intros Hb. destruct a as [n|]; simpl; [| assumption].
  destruct (n =? 0) eqn:Hn; [assumption | now apply Z.eqb_neq in Hn].
Qed.

Lemma reachOf_nonzero (metrics : PerformanceMetrics) : reachOf metrics <> 0.
Proof. unfold reachOf. repeat apply orElse_nonzero. discriminate. Qed.

Lemma reachOf_firstNonZero (metrics : PerformanceMetrics) :
  reachOf metrics
  = firstNonZero [reach metrics; impressions metrics; views metrics] 1.
Proof.
  unfold reachOf, orElse. simpl.
  destruct (reach metrics) as [r|]; [destruct (r =? 0); [| reflexivity] |];
    (destruct (impressions metrics) as [i|]; [destruct (i =? 0); [| reflexivity] |]);
    (destruct (views metrics) as [v|]; [destruct (v =? 0) |]); reflexivity.
Qed.

Lemma orElse_positive (a : option Z) (b : Z) :
  0 <= orZero a -> 0 < b -> 0 < orElse a b.
Proof.
  destruct a as [n|]; simpl; [| auto].
  intros Hn Hb. destruct (n =? 0) eqn:E; [assumption | apply Z.eqb_neq in E; lia].
Qed.

(** The claim as first stated promises a non-negative rate for every
    input: a metrics record with a negative counter gives a negative
    rate. *)
Lemma calculateEngagementRate_negative :
  exists q : Q,
    calculateEngagementRate (metricsOf (Some (-1)) None) = Some q /\ (q < 0)%Q.
Proof.
  exists (-100)%Q. split; [vm_compute; reflexivity | reflexivity].
Qed.

(** C9 (as amended): for every metrics record the divisor is the first of
    reach, impressions and views that is present and not zero, or 1, so it
    is never zero, and the function returns the number
    (likes + comments + shares + saves) / divisor * 100; that number is
    non-negative when no counter is negative. *)
Theorem calculateEngagementRate_total (metrics : PerformanceMetrics) :
  reachOf metrics = firstNonZero [reach metrics; impressions metrics; views metrics] 1 /\
  reachOf metrics <> 0 /\
  calculateEngagementRate metrics
    = Some (inject_Z (orZero (likes metrics) + orZero (comments metrics)
                      + orZero (shares metrics) + orZero (saves metrics))
            / inject_Z (reachOf metrics) * 100)%Q /\
  (nonNegative metrics ->
   exists q : Q, calculateEngagementRate metrics = Some q /\ (0 <= q)%Q).
Proof.
  pose proof (reachOf_nonzero metrics) as Hnz.
  assert (Hval : calculateEngagementRate metrics
                 = Some (inject_Z (engagementsOf metrics)
                         / inject_Z (reachOf metrics) * 100)%Q).
  { unfold calculateEngagementRate, divide. cbv zeta.
    apply Z.eqb_neq in Hnz. now rewrite Hnz. }
  split; [apply reachOf_firstNonZero |].
  split; [assumption |].
  split; [exact Hval |].
  intros (Hl & Hc & Hs & Hv & Hr & Hi & Hw).
  eexists. split; [exact Hval |].
  assert (Hpos : 0 < reachOf metrics).
  { unfold reachOf. repeat apply orElse_positive; try assumption. lia. }
  assert (He : 0 <= engagementsOf metrics) by (unfold engagementsOf; lia).
  pose proof (inject_pos _ Hpos). pose proof (inject_nonneg _ He).
  assert ((0 <= inject_Z (engagementsOf metrics) / inject_Z (reachOf metrics))%Q)
    by (apply Qle_shift_div_l; [assumption | lra]).
  lra.
Qed.

(** Five likes on two hundred views: a rate of 2.5. *)
Lemma calculateEngagementRate_total_witness :
  nonNegative (metricsOf (Some 5) (Some 200)) /\
  exists q : Q,
    calculateEngagementRate (metricsOf (Some 5) (Some 200)) = Some q /\ (0 <= q)%Q.
Proof.
  assert (H : nonNegative (metricsOf (Some 5) (Some 200)))
    by (unfold nonNegative; simpl; lia).
  split; [exact H |].
  exact (proj2 (proj2 (proj2
           (calculateEngagementRate_total (metricsOf (Some 5) (Some 200))))) H).
Defined.

End FeedbackFacts.

(** ** Publishing *)

Module PublishingFacts.
Import JS PublishingService PublishingSpec Samples JSFacts.

(** No publishing function writes the credentials. *)
Lemma publish_keeps_credentials (now : Z) (stored : gmap string PlatformCredentials)
    (request : PublishRequest) :
  snd (publish now stored request) = stored.
Proof.
  unfold publish, publishToMeta, publishToTikTok, publishToLinkedIn, publishToTwitter.
  repeat match goal with
         | |- context [if ?c then _ else _] => destruct c
         | |- context [match ?c with Some _ => _ | None => _ end] => destruct c
         end; reflexivity.
Qed.

(** C5: for each of the four platforms, publishing without stored
    credentials for it fails with an error message and no post id, and
    leaves the stored credentials as they were; for any other platform it
    fails with the error 'Unknown platform'. *)
Theorem publish_without_credentials (now : Z) (stored : gmap string PlatformCredentials)
    (request : PublishRequest) :
  (knownPlatform (platform request) ->
   getStoredCredentials stored (platform request) = None ->
   success (fst (publish now stored request)) = false /\
   (exists message : string, error (fst (publish now stored request)) = Some message) /\
   postId (fst (publish now stored request)) = None /\
   snd (publish now stored request) = stored) /\
  (~ knownPlatform (platform request) ->
   success (fst (publish now stored request)) = false /\
   error (fst (publish now stored request)) = Some "Unknown platform" /\
   postId (fst (publish now stored request)) = None /\
   snd (publish now stored request) = stored).
Proof.
  split.
  - intros Hknown Hnone. unfold getStoredCredentials in Hnone.
    unfold publish, publishToMeta, publishToTikTok, publishToLinkedIn, publishToTwitter,
      getStoredCredentials.
    destruct Hknown as [H | [H | [H | H]]]; rewrite H in *; simpl;
      rewrite Hnone; simpl; repeat split; eauto.
  - intros Hunknown. unfold publish.
    destruct (String.eqb (platform request) "meta") eqn:E1;
      [apply String.eqb_eq in E1; exfalso; apply Hunknown; unfold knownPlatform; tauto |].
    destruct (String.eqb (platform request) "tiktok") eqn:E2;
      [apply String.eqb_eq in E2; exfalso; apply Hunknown; unfold knownPlatform; tauto |].
    destruct (String.eqb (platform request) "linkedin") eqn:E3;
      [apply String.eqb_eq in E3; exfalso; apply Hunknown; unfold knownPlatform; tauto |].
    destruct (String.eqb (platform request) "twitter") eqn:E4;
      [apply String.eqb_eq in E4; exfalso; apply Hunknown; unfold knownPlatform; tauto |].
    simpl. repeat split.
Qed.

(** Publishing to LinkedIn with no credentials at all, and to a platform
    that does not exist. *)
Lemma publish_without_credentials_witness :
  success (fst (publish 1765368000000 ∅ (aRequest "linkedin" (Some "hello")))) = false /\
  snd (publish 1765368000000 ∅ (aRequest "linkedin" (Some "hello"))) = ∅ /\
  error (fst (publish 1765368000000 ∅ (aRequest "mastodon" (Some "hello"))))
    = Some "Unknown platform".
Proof.
  pose proof (publish_without_credentials 1765368000000 ∅
                (aRequest "linkedin" (Some "hello"))) as [Hknown _].
  pose proof (publish_without_credentials 1765368000000 ∅
                (aRequest "mastodon" (Some "hello"))) as [_ Hunknown].
  destruct Hknown as (Hs & _ & _ & Hkeep).
  { right. right. left. reflexivity. }
  { reflexivity. }
  destruct Hunknown as (_ & He & _).
  { intros [H | [H | [H | H]]]; discriminate H. }
  repeat split; assumption.
Defined.

(** C10: with credentials stored for twitter, a text longer than 280
    characters is refused with the error 'Tweet exceeds 280 character
    limit.' and no post id; 280 is the [maxTextLength] of the twitter
    configuration, and a text within it is published. *)
Theorem publishToTwitter_limit (now : Z) (stored : gmap string PlatformCredentials)
    (request : PublishRequest) (credentials : PlatformCredentials) (t : string) :
  getStoredCredentials stored "twitter" = Some credentials ->
  text (content request) = Some t ->
  PLATFORM_CONFIGS "twitter" = Some config_twitter /\
  maxTextLength config_twitter = 280 /\
  (maxTextLength config_twitter < strlen t ->
   success (fst (publishToTwitter now stored request)) = false /\
   error (fst (publishToTwitter now stored request))
     = Some "Tweet exceeds 280 character limit." /\
   postId (fst (publishToTwitter now stored request)) = None /\
   publish now stored {| platform := "twitter";
                         content := content request;
                         scheduling := scheduling request |}
     = publishToTwitter now stored request) /\
  (strlen t <= maxTextLength config_twitter ->
   success (fst (publishToTwitter now stored request)) = true).
Proof.
  intros Hcred Htext.
  split; [reflexivity |]. split; [reflexivity |].
  unfold publishToTwitter. rewrite Hcred. unfold tooLong. rewrite Htext.
  change (maxTextLength config_twitter) with 280.
  split.
  - intros Hlong.
    assert (Hne : String.eqb t "" = false).
    { destruct t; [unfold strlen in Hlong; simpl in Hlong; lia | reflexivity]. }
    apply Z.ltb_lt in Hlong. rewrite Hne, Hlong. simpl.
    repeat split.
    unfold publish, publishToTwitter. simpl. rewrite Hcred. unfold tooLong. simpl.
    rewrite Htext, Hne, Hlong. reflexivity.
  - intros Hshort. apply Z.ltb_ge in Hshort. rewrite Hshort.
    rewrite andb_false_r. reflexivity.
Qed.

(** A text of 281 characters is refused, one of 280 is published, and so
    is one of 200 accented letters, which is 200 characters long although
    it takes 400 bytes. *)
Lemma publishToTwitter_limit_witness :
  error (fst (publishToTwitter 1765368000000 {[ "twitter" := twitterCredentials ]}
                (aRequest "twitter" (Some longTweet))))
    = Some "Tweet exceeds 280 character limit." /\
  success (fst (publishToTwitter 1765368000000 {[ "twitter" := twitterCredentials ]}
                  (aRequest "twitter" (Some fullTweet)))) = true /\
  String.length accentedTweet = 400%nat /\
  strlen accentedTweet = 200 /\
  success (fst (publishToTwitter 1765368000000 {[ "twitter" := twitterCredentials ]}
                  (aRequest "twitter" (Some accentedTweet)))) = true.
Proof.
  split; [| split; [| split; [reflexivity | split; [reflexivity |]]]].
  - apply (publishToTwitter_limit 1765368000000 {[ "twitter" := twitterCredentials ]}
             (aRequest "twitter" (Some longTweet)) twitterCredentials longTweet).
    + apply lookup_singleton_eq.
    + reflexivity.
    + vm_compute. reflexivity.
  - apply (publishToTwitter_limit 1765368000000 {[ "twitter" := twitterCredentials ]}
             (aRequest "twitter" (Some fullTweet)) twitterCredentials fullTweet).
    + apply lookup_singleton_eq.
    + reflexivity.
    + vm_compute. discriminate.
  - apply (publishToTwitter_limit 1765368000000 {[ "twitter" := twitterCredentials ]}
             (aRequest "twitter" (Some accentedTweet)) twitterCredentials accentedTweet).
    + apply lookup_singleton_eq.
    + reflexivity.
    + vm_compute. discriminate.
Defined.

End PublishingFacts.

(** ** More on the health score: display, insights, recommendations *)

Module HealthScoreMoreFacts.
Import JS Types HealthScore Spec Samples JSFacts HealthScoreFacts.
Import HealthScoreDisplay HealthScoreNotes.

(** X1: the colour and the label of a score name the same four bands:
    emerald for Exceptional and Strong, gold for Good and Solid, amber for
    Fair and Needs Work, rose for Weak. *)
Theorem getScoreColor_matches_label (score : Z) :
  (getScoreColor score = "text-emerald-400"
   <-> getScoreLabel score = "Exceptional" \/ getScoreLabel score = "Strong") /\
  (getScoreColor score = "text-gold-400"
   <-> getScoreLabel score = "Good" \/ getScoreLabel score = "Solid") /\
  (getScoreColor score = "text-amber-400"
   <-> getScoreLabel score = "Fair" \/ getScoreLabel score = "Needs Work") /\
  (getScoreColor score = "text-rose-400" <-> getScoreLabel score = "Weak").
Proof.
  unfold getScoreColor, getScoreLabel.
  destruct (90 <=? score) eqn:H90; destruct (80 <=? score) eqn:H80;
    destruct (70 <=? score) eqn:H70; destruct (60 <=? score) eqn:H60;
    destruct (50 <=? score) eqn:H50; destruct (40 <=? score) eqn:H40;
    try (rewrite ?Z.leb_le, ?Z.leb_gt in *; lia);
    repeat split; intros; try discriminate; try tauto;
      repeat match goal with H : _ \/ _ |- _ => destruct H end; try discriminate.
Qed.

Lemma In_push {A : Type} (l : list A) (x i : A) : In i (push l x) <-> In i l \/ i = x.
Proof.
  unfold push. rewrite in_app_iff. simpl. intuition.
Qed.

Lemma length_push {A : Type} (l : list A) (x : A) :
  List.length (push l x) = S (List.length l).
Proof. unfold push. rewrite length_app. simpl. lia. Qed.

(** X2: there is always at least one recommendation and never more than
    five; the growth recommendation is given exactly when no sub-score is
    under its threshold, and then it is the only one. *)
Theorem generateRecommendations_never_empty
    (b : Breakdown) (found : list HealthInsight) :
  (1 <= List.length (generateRecommendations b found) <= 5)%nat /\
  (In growthRecommendation (generateRecommendations b found)
   <-> 70 <= hookQuality b /\ 60 <= emotionalBalance b /\ 60 <= narrativeStrength b
       /\ 60 <= ctaClarity b /\ 80 <= assetCoverage b) /\
  (In growthRecommendation (generateRecommendations b found) ->
   generateRecommendations b found = [growthRecommendation]).
Proof.
  assert (N1 : growthRecommendation <> hooksRecommendation) by discriminate.
  assert (N2 : growthRecommendation <> emotionRecommendation) by discriminate.
  assert (N3 : growthRecommendation <> narrativeRecommendation) by discriminate.
  assert (N4 : growthRecommendation <> ctaRecommendation) by discriminate.
  assert (N5 : growthRecommendation <> assetsRecommendation) by discriminate.
  unfold generateRecommendations. cbv zeta.
  fold hooksRecommendation emotionRecommendation narrativeRecommendation
       ctaRecommendation assetsRecommendation growthRecommendation.
  revert N1 N2 N3 N4 N5.
  generalize growthRecommendation hooksRecommendation emotionRecommendation
             narrativeRecommendation ctaRecommendation assetsRecommendation.
  intros g s1 s2 s3 s4 s5 N1 N2 N3 N4 N5.
  destruct (hookQuality b <? 70) eqn:Hh;
    destruct (emotionalBalance b <? 60) eqn:He;
    destruct (narrativeStrength b <? 60) eqn:Hn;
    destruct (ctaClarity b <? 60) eqn:Hc;
    destruct (assetCoverage b <? 80) eqn:Ha;
    rewrite ?Z.ltb_lt, ?Z.ltb_ge in *;
    unfold push; simpl;
    (split; [lia |]);
    (split; [| intros H; repeat destruct H as [H | H];
               first [congruence | reflexivity | contradiction]]);
    (split; [intros H; repeat destruct H as [H | H];
             first [congruence | contradiction | lia]
            | intros H; first [lia | left; reflexivity]]).
Qed.

Lemma push_if {A : Type} (c : bool) (l : list A) (x : A) :
  (if c then push l x else l) = (l ++ (if c then [x] else []))%list.
Proof. destruct c; [reflexivity | now rewrite app_nil_r]. Qed.

Lemma push_if2 {A : Type} (c1 c2 : bool) (l : list A) (x1 x2 : A) :
  (if c1 then push l x1 else if c2 then push l x2 else l)
  = (l ++ (if c1 then [x1] else if c2 then [x2] else []))%list.
Proof. destruct c1, c2; unfold push; now rewrite ?app_nil_r. Qed.

(** Rewrites a sequence of conditional pushes into one concatenation. *)
Ltac flatten_pushes :=
  cbv zeta; repeat first [rewrite push_if2 | rewrite push_if]; rewrite ?app_nil_l.

Ltac split_conditions :=
  repeat match goal with
         | |- context [if ?c then _ else _] => destruct c; cbv iota
         end.

(** X3: at most six insights are produced, and never two about the same
    category. *)
Theorem generateInsights_one_per_category
    (brief : CampaignBrief) (blueprint : CampaignBlueprint) (b : Breakdown) :
  (List.length (generateInsights brief blueprint b) <= 6)%nat /\
  NoDup (map category (generateInsights brief blueprint b)).
Proof.
  unfold generateInsights. flatten_pushes. split.
  - split_conditions; simpl; lia.
  - split_conditions; compute_done.
Qed.

Lemma In_when {A : Type} (c : bool) (x i : A) :
  In i (if c then [x] else []) <-> c = true /\ i = x.
Proof. destruct c; simpl; intuition congruence. Qed.

Lemma In_when2 {A : Type} (c1 c2 : bool) (x1 x2 i : A) :
  In i (if c1 then [x1] else if c2 then [x2] else [])
  <-> (c1 = true /\ i = x1) \/ (c1 = false /\ c2 = true /\ i = x2).
Proof. destruct c1, c2; simpl; intuition congruence. Qed.

(** Which insights can be produced, and when. *)
Lemma generateInsights_In brief blueprint (b : Breakdown) (i : HealthInsight) :
  In i (generateInsights brief blueprint b) ->
  (insightAbout strength "Narrative" i /\ 80 <= narrativeStrength b) \/
  (insightAbout warning "Narrative" i /\ narrativeStrength b < 50) \/
  (insightAbout strength "Emotion" i /\ 75 <= emotionalBalance b) \/
  (insightAbout warning "Emotion" i /\ emotionalBalance b < 50) \/
  (insightAbout warning "Assets" i /\ assetCoverage b < 80) \/
  (insightAbout strength "Hooks" i /\ 80 <= hookQuality b) \/
  (insightAbout opportunity "Hooks" i /\ hookQuality b < 50) \/
  (insightAbout strength "CTAs" i /\ 80 <= ctaClarity b) \/
  (insightAbout warning "Strategy" i /\ 0 < pillarAlignment b < 100).
Proof.
  unfold generateInsights. flatten_pushes.
  rewrite !in_app_iff, !In_when2, !In_when, andb_true_iff.
  rewrite ?Z.leb_le, ?Z.ltb_lt. unfold insightAbout, insight.
  intros H.
  repeat match goal with
         | H : _ \/ _ |- _ => destruct H as [H | H]
         | H : _ /\ _ |- _ => destruct H
         end; subst i; simpl; tauto.
Qed.

Lemma assets_warning_iff brief blueprint (b : Breakdown) :
  Exists (insightAbout warning "Assets") (generateInsights brief blueprint b)
  <-> assetCoverage b < 80.
Proof.
  rewrite List.Exists_exists. split.
  - intros (i & Hin & Ht & Hc).
    apply generateInsights_In in Hin. unfold insightAbout in Hin.
    repeat match goal with
           | H : _ \/ _ |- _ => destruct H as [H | H]
           | H : _ /\ _ |- _ => destruct H
           end; try assumption; congruence.
  - intros Ha. eexists. split.
    + unfold generateInsights. flatten_pushes.
      rewrite !in_app_iff, !In_when2, !In_when.
      left. left. left. right. split; [now apply Z.ltb_lt | reflexivity].
    + split; reflexivity.
Qed.

(** Which recommendations can be given, and when. *)
Lemma generateRecommendations_In (b : Breakdown) (found : list HealthInsight) (s : string) :
  In s (generateRecommendations b found) ->
  (s = hooksRecommendation /\ hookQuality b < 70) \/
  (s = emotionRecommendation /\ emotionalBalance b < 60) \/
  (s = narrativeRecommendation /\ narrativeStrength b < 60) \/
  (s = ctaRecommendation /\ ctaClarity b < 60) \/
  (s = assetsRecommendation /\ assetCoverage b < 80) \/
  s = growthRecommendation.
Proof.
  unfold generateRecommendations. flatten_pushes.
  rewrite !in_app_iff, !In_when. rewrite ?Z.ltb_lt.
  fold hooksRecommendation emotionRecommendation narrativeRecommendation
       ctaRecommendation assetsRecommendation growthRecommendation.
  tauto.
Qed.

Lemma assets_recommendation_iff (b : Breakdown) (found : list HealthInsight) :
  In assetsRecommendation (generateRecommendations b found) <-> assetCoverage b < 80.
Proof.
  split.
  - intros H. apply generateRecommendations_In in H.
    repeat match goal with
           | H : _ \/ _ |- _ => destruct H as [H | H]
           | H : _ /\ _ |- _ => destruct H
           end; try assumption; discriminate.
  - intros Ha. unfold generateRecommendations. flatten_pushes.
    rewrite !in_app_iff, !In_when.
    left. right. split; [now apply Z.ltb_lt | reflexivity].
Qed.

(** A strength is only reported from its threshold on. *)
Lemma strength_threshold brief blueprint (b : Breakdown) (c : string) :
  Exists (insightAbout strength c) (generateInsights brief blueprint b) ->
  (c = "Narrative" -> 80 <= narrativeStrength b) /\
  (c = "Emotion" -> 75 <= emotionalBalance b) /\
  (c = "Hooks" -> 80 <= hookQuality b) /\
  (c = "CTAs" -> 80 <= ctaClarity b).
Proof.
  intros Hex. apply List.Exists_exists in Hex as (i & Hi & Ht & Hc).
  apply generateInsights_In in Hi. unfold insightAbout in Hi.
  destruct Hi as [[[T C] H] | [[[T C] H] | [[[T C] H] | [[[T C] H] | [[[T C] H]
                | [[[T C] H] | [[[T C] H] | [[[T C] H] | [[T C] H]]]]]]]]];
    rewrite T in Ht; try discriminate Ht;
    rewrite C in Hc; subst c;
    (repeat split; intros E; first [discriminate E | exact H]).
Qed.

(** A recommendation is only given under its threshold. *)
Lemma recommendation_threshold (b : Breakdown) (found : list HealthInsight) :
  (In hooksRecommendation (generateRecommendations b found) -> hookQuality b < 70) /\
  (In emotionRecommendation (generateRecommendations b found) -> emotionalBalance b < 60) /\
  (In narrativeRecommendation (generateRecommendations b found)
   -> narrativeStrength b < 60) /\
  (In ctaRecommendation (generateRecommendations b found) -> ctaClarity b < 60).
Proof.
  repeat split; intros H; apply generateRecommendations_In in H;
    destruct H as [[E H] | [[E H] | [[E H] | [[E H] | [[E H] | E]]]]];
    first [exact H | discriminate E].
Qed.

(** X4: what the insights praise, the recommendations do not ask to fix: a
    strength about the narrative, the emotions, the hooks or the calls to
    action excludes the recommendation on the same subject; and the warning
    about assets is given exactly when the recommendation to regenerate
    is. *)
Theorem strengths_are_not_advised
    {host : Host} (brief : CampaignBrief) (blueprint : CampaignBlueprint) :
  let r := analyzeHealthScore brief blueprint in
  (Exists (insightAbout strength "Narrative") (insights r) ->
   ~ In narrativeRecommendation (recommendations r)) /\
  (Exists (insightAbout strength "Emotion") (insights r) ->
   ~ In emotionRecommendation (recommendations r)) /\
  (Exists (insightAbout strength "Hooks") (insights r) ->
   ~ In hooksRecommendation (recommendations r)) /\
  (Exists (insightAbout strength "CTAs") (insights r) ->
   ~ In ctaRecommendation (recommendations r)) /\
  (Exists (insightAbout warning "Assets") (insights r)
   <-> In assetsRecommendation (recommendations r)).
Proof.
  cbv zeta. unfold analyzeHealthScore. cbv zeta. cbn [insights recommendations].
  set (b := breakdownOf brief blueprint).
  pose proof (strength_threshold brief blueprint b) as Hs.
  pose proof (recommendation_threshold b (generateInsights brief blueprint b))
    as (Rh & Re & Rn & Rc).
  split; [intros H1 H2; apply Rn in H2;
          pose proof (proj1 (Hs _ H1) eq_refl); lia |].
  split; [intros H1 H2; apply Re in H2;
          pose proof (proj1 (proj2 (Hs _ H1)) eq_refl); lia |].
  split; [intros H1 H2; apply Rh in H2;
          pose proof (proj1 (proj2 (proj2 (Hs _ H1))) eq_refl); lia |].
  split; [intros H1 H2; apply Rc in H2;
          pose proof (proj2 (proj2 (proj2 (Hs _ H1))) eq_refl); lia |].
  rewrite assets_warning_iff, assets_recommendation_iff. reflexivity.
Qed.

Lemma fold_max_In (xs : list Z) (x : Z) : In (fold_left Z.max xs x) (x :: xs).
Proof.
  revert x. induction xs as [|y ys IH]; intros x; simpl; [now left |].
  destruct (IH (Z.max x y)) as [H | H]; [| now right; right].
  rewrite <- H. destruct (Z.max_spec x y) as [[_ E] | [_ E]]; rewrite E; auto.
Qed.

Lemma fold_min_In (xs : list Z) (x : Z) : In (fold_left Z.min xs x) (x :: xs).
Proof.
  revert x. induction xs as [|y ys IH]; intros x; simpl; [now left |].
  destruct (IH (Z.min x y)) as [H | H]; [| now right; right].
  rewrite <- H. destruct (Z.min_spec x y) as [[_ E] | [_ E]]; rewrite E; auto.
Qed.

Lemma analyzeEmotionalBalance_low {host : Host} brief blueprint :
  35 <= analyzeEmotionalBalance brief blueprint /\
  (analyzeEmotionalBalance brief blueprint < 50 ->
   7 < maxOf (frequenciesOf brief) - minOf (frequenciesOf brief)).
Proof.
  unfold analyzeEmotionalBalance, frequenciesOf, freqEntries. cbv zeta.
  cbn [map snd].
  set (spread := maxOf _ - minOf _).
  destruct ((2 <=? _) && (_ <=? 5)), (someIncludes _ positiveWords),
    (someIncludes _ tensionWords), (7 <? spread) eqn:Hs;
    rewrite ?Z.ltb_lt, ?Z.ltb_ge in Hs; lia.
Qed.

(** X5: emotional balance is never below 35, and the warning that the
    emotional frequencies are imbalanced is only shown for a brief in which
    two of the five frequencies differ by more than 7. *)
Theorem emotion_warning_needs_spread
    {host : Host} (brief : CampaignBrief) (blueprint : CampaignBlueprint) :
  35 <= analyzeEmotionalBalance brief blueprint /\
  (Exists (insightAbout warning "Emotion") (insights (analyzeHealthScore brief blueprint)) ->
   exists a b : Z,
     In a (frequenciesOf brief) /\ In b (frequenciesOf brief) /\ 7 < a - b).
Proof.
  destruct (analyzeEmotionalBalance_low brief blueprint) as [Hlow Hspread].
  split; [exact Hlow |].
  unfold analyzeHealthScore. cbv zeta. cbn [insights].
  intros Hex. apply List.Exists_exists in Hex as (i & Hi & Ht & Hc).
  apply generateInsights_In in Hi. unfold insightAbout in Hi.
  assert (He : analyzeEmotionalBalance brief blueprint < 50).
  { destruct Hi as [[[T C] H] | [[[T C] H] | [[[T C] H] | [[[T C] H] | [[[T C] H]
                  | [[[T C] H] | [[[T C] H] | [[[T C] H] | [[T C] H]]]]]]]]];
      rewrite T in Ht; try discriminate Ht;
      rewrite C in Hc; try discriminate Hc; exact H. }
  exists (maxOf (frequenciesOf brief)), (minOf (frequenciesOf brief)).
  split; [| split; [| now apply Hspread]].
  - unfold frequenciesOf, maxOf. cbv zeta. apply fold_max_In.
  - unfold frequenciesOf, minOf. cbv zeta. apply fold_min_In.
Qed.

(** X6: narrative strength is 100 exactly for a blueprint with at least five
    hooks, four pain points, four micro-transformations and five taglines,
    and a one-liner, a core promise and a tone description of more than ten
    characters each. *)
Theorem analyzeNarrativeStrength_full (blueprint : CampaignBlueprint) :
  analyzeNarrativeStrength blueprint = 100 <-> narrativeComplete blueprint.
Proof.
  unfold analyzeNarrativeStrength, narrativeComplete. cbv zeta.
  pose proof (lengthOrZero_nonneg (hooks (narrative_pack blueprint))).
  pose proof (lengthOrZero_nonneg (pain_points (narrative_pack blueprint))).
  pose proof (lengthOrZero_nonneg (micro_transformations (narrative_pack blueprint))).
  pose proof (lengthOrZero_nonneg (taglines (narrative_pack blueprint))).
  destruct (longerThan (one_liner _) 10), (longerThan (core_promise _) 10),
    (longerThan (tone_description _) 10);
    split; intros; repeat match goal with H : _ /\ _ |- _ => destruct H end;
    try discriminate; repeat split; lia.
Qed.

(** X7: the overall score is monotone in the sub-scores: a brief and
    blueprint that do at least as well on each of the six sub-scores do at
    least as well overall. *)
Theorem analyzeHealthScore_monotone
    {host : Host} (brief1 brief2 : CampaignBrief) (blueprint1 blueprint2 : CampaignBlueprint) :
  breakdownLe (breakdown (analyzeHealthScore brief1 blueprint1))
              (breakdown (analyzeHealthScore brief2 blueprint2)) ->
  overall (analyzeHealthScore brief1 blueprint1)
  <= overall (analyzeHealthScore brief2 blueprint2).
Proof.
  unfold analyzeHealthScore. cbv zeta. cbn [overall breakdown].
  intros H. now apply Math_round_mono, weightedSum_mono.
Qed.

(** One round of the loop on two blueprints of which the second holds no
    fewer assets: the credit of the second stays ahead. *)
Lemma coverageStep_mono (acc1 acc2 : Coverage) (rg1 rg2 : Z * Z) :
  sameRequestMore rg1 rg2 ->
  totalRequested acc1 = totalRequested acc2 ->
  (totalGenerated acc1 <= totalGenerated acc2)%Q ->
  (double (totalGenerated acc2) == totalGenerated acc2)%Q ->
  totalRequested (coverageStep acc1 rg1) = totalRequested (coverageStep acc2 rg2) /\
  (totalGenerated (coverageStep acc1 rg1) <= totalGenerated (coverageStep acc2 rg2))%Q /\
  (double (totalGenerated (coverageStep acc2 rg2))
   == totalGenerated (coverageStep acc2 rg2))%Q.
Proof.
  destruct rg1 as [req g1], rg2 as [r2 g2]. unfold sameRequestMore. simpl.
  intros [<- Hg] Hn Ht Hd. unfold coverageStep.
  destruct (0 <? req) eqn:Hreq; [apply Z.ltb_lt in Hreq | now repeat split].
  assert (Hstay : forall c : Q, (0 <= c)%Q ->
            (totalGenerated acc1 <= num_add (totalGenerated acc2) c)%Q).
  { intros c Hc. unfold num_add.
    assert (H : (double (totalGenerated acc2) <= double (totalGenerated acc2 + c))%Q)
      by (apply double_mono; lra).
    lra. }
  destruct (req <=? g1) eqn:F1; [apply Z.leb_le in F1 | apply Z.leb_gt in F1].
  - assert (F2 : (req <=? g2) = true) by (apply Z.leb_le; lia). rewrite F2.
    cbn [totalRequested totalGenerated].
    split; [lia |]. split; [apply num_add_mono; lra | apply double_idem].
  - destruct (req <=? g2) eqn:F2; [apply Z.leb_le in F2 | apply Z.leb_gt in F2].
    + destruct (0 <? g1) eqn:P1; [apply Z.ltb_lt in P1 | ];
        cbn [totalRequested totalGenerated].
      * destruct (num_div_credit g1 req P1 F1) as [_ Hc1].
        split; [lia |]. split; [now apply num_add_mono | apply double_idem].
      * split; [lia |]. split; [apply Hstay; lra | apply double_idem].
    + destruct (0 <? g1) eqn:P1; [apply Z.ltb_lt in P1 | apply Z.ltb_ge in P1].
      * assert (P2 : (0 <? g2) = true) by (apply Z.ltb_lt; lia). rewrite P2.
        cbn [totalRequested totalGenerated].
        split; [lia |]. split; [| apply double_idem].
        apply num_add_mono; [assumption |].
        apply num_div_mono; [now apply inject_pos | now apply inject_le].
      * destruct (0 <? g2) eqn:P2; [apply Z.ltb_lt in P2 | ];
          cbn [totalRequested totalGenerated].
        -- destruct (num_div_credit g2 req P2 F2) as [Hc0 _].
           split; [lia |]. split; [now apply Hstay | apply double_idem].
        -- split; [lia |]. split; assumption.
Qed.

Lemma fold_coverage_mono (l1 l2 : list (Z * Z)) :
  Forall2 sameRequestMore l1 l2 ->
  forall acc1 acc2 : Coverage,
    totalRequested acc1 = totalRequested acc2 ->
    (totalGenerated acc1 <= totalGenerated acc2)%Q ->
    (double (totalGenerated acc2) == totalGenerated acc2)%Q ->
    totalRequested (fold_left coverageStep l1 acc1)
    = totalRequested (fold_left coverageStep l2 acc2) /\
    (totalGenerated (fold_left coverageStep l1 acc1)
     <= totalGenerated (fold_left coverageStep l2 acc2))%Q.
Proof.
  induction 1 as [|rg1 rg2 l1 l2 Hrg _ IH]; intros acc1 acc2 Hn Ht Hd.
  - now split.
  - simpl fold_left.
    destruct (coverageStep_mono acc1 acc2 rg1 rg2 Hrg Hn Ht Hd) as (Hn' & Ht' & Hd').
    now apply IH.
Qed.

(** X8: generating more assets never lowers the coverage score: for the same
    brief, a blueprint with at least as many assets of every type scores at
    least as much. *)
Theorem analyzeAssetCoverage_more_assets
    (brief : CampaignBrief) (blueprint1 blueprint2 : CampaignBlueprint) :
  generatesAtLeast blueprint1 blueprint2 ->
  analyzeAssetCoverage brief blueprint1 <= analyzeAssetCoverage brief blueprint2.
Proof.
  intros (Hm & Hb & Hv & Hu & Hc).
  assert (H : Forall2 sameRequestMore (requestedGenerated brief blueprint1)
                      (requestedGenerated brief blueprint2)).
  { unfold requestedGenerated. cbv zeta.
    repeat constructor; simpl; assumption. }
  destruct (fold_coverage_mono _ _ H {| totalRequested := 0; totalGenerated := 0%Q |}
              {| totalRequested := 0; totalGenerated := 0%Q |})
    as [Hn Ht]; [reflexivity | simpl; lra | reflexivity |].
  fold (coverageOf (requestedGenerated brief blueprint1)) in Hn, Ht.
  fold (coverageOf (requestedGenerated brief blueprint2)) in Hn, Ht.
  unfold analyzeAssetCoverage. cbv zeta. rewrite <- Hn.
  destruct (0 <? _) eqn:Hpos; [apply Z.ltb_lt in Hpos | lia].
  apply Math_round_mono. apply num_mul_mono; [lra |].
  apply num_div_mono; [now apply inject_pos | assumption].
Qed.

(** *** At concrete briefs and blueprints *)

#[local] Existing Instance asciiHost.

Lemma generateRecommendations_never_empty_witness :
  generateRecommendations
    {| narrativeStrength := 90; emotionalBalance := 90; assetCoverage := 90;
       hookQuality := 90; ctaClarity := 90; pillarAlignment := 90 |} []
  = [growthRecommendation].
Proof.
  destruct (generateRecommendations_never_empty
              {| narrativeStrength := 90; emotionalBalance := 90; assetCoverage := 90;
                 hookQuality := 90; ctaClarity := 90; pillarAlignment := 90 |} [])
    as (_ & Hgrowth & Honly).
  apply Honly, Hgrowth. simpl. lia.
Defined.

(** A brief whose humor is at 1 and whose inspiration is at 10, with a
    blueprint that names no emotion: the warning is shown. *)
Lemma emotion_warning_needs_spread_witness :
  exists a b : Z,
    In a [1; 5; 5; 10; 5] /\ In b [1; 5; 5; 10; 5] /\ 7 < a - b.
Proof.
  pose (brief :=
    {| meta := meta (briefWith "spring" [] (quantitiesOf 0 0 0 0 0));
       audience := audience (briefWith "spring" [] (quantitiesOf 0 0 0 0 0));
       creative :=
         {| raw_brain_dump := ""; must_include_phrases := [];
            must_avoid_phrases := []; voice_reference := "";
            cta_flavor := soft_cosmic;
            emotional_frequency :=
              {| humor := 1; relatability := 5; shock := 5;
                 inspiration := 10; identity_shift := 5 |} |};
       visual := visual (briefWith "spring" [] (quantitiesOf 0 0 0 0 0));
       outputs := outputs (briefWith "spring" [] (quantitiesOf 0 0 0 0 0));
       constraints := constraints (briefWith "spring" [] (quantitiesOf 0 0 0 0 0));
       special_notes := "" |}).
  pose (blueprint :=
    {| campaign_summary :=
         {| one_liner := None; summary_pillars := None; core_promise := None;
            primary_emotions := None; tone_description := None |};
       narrative_pack := aNarrative;
       memes := None; static_banners := None; short_videos := None;
       ugc_scripts := None; carousels := None; moments_mapping := [] |}).
  apply (proj2 (emotion_warning_needs_spread brief blueprint)).
  apply List.Exists_exists. eexists. split.
  - vm_compute. right. left. reflexivity.
  - split; reflexivity.
Defined.

(** Two pillars requested, one matched, against both matched. *)
Lemma analyzeHealthScore_monotone_witness :
  overall (analyzeHealthScore
             (briefWith "spring" ["moments"; "animator_shift"] (quantitiesOf 2 1 0 0 0))
             (blueprintWith ["Moments"] 2 1))
  <= overall (analyzeHealthScore
                (briefWith "spring" ["moments"; "animator_shift"] (quantitiesOf 2 1 0 0 0))
                (blueprintWith ["Moments"; "Animator_shift"] 2 1)).
Proof.
  apply analyzeHealthScore_monotone.
  unfold breakdownLe. vm_compute. repeat split; discriminate.
Defined.

(** A breakdown praised for its emotions and its calls to action. *)
Lemma strengths_are_not_advised_witness :
  ~ In emotionRecommendation
       (recommendations (analyzeHealthScore
          (briefWith "spring" ["moments"] (quantitiesOf 3 1 0 0 0))
          (blueprintWith ["Moments"] 1 1))) /\
  In assetsRecommendation
     (recommendations (analyzeHealthScore
        (briefWith "spring" ["moments"] (quantitiesOf 3 1 0 0 0))
        (blueprintWith ["Moments"] 1 1))).
Proof.
  pose proof (strengths_are_not_advised
                (briefWith "spring" ["moments"] (quantitiesOf 3 1 0 0 0))
                (blueprintWith ["Moments"] 1 1)) as (_ & He & _ & _ & Ha).
  cbv zeta in He, Ha. split.
  - apply He. apply List.Exists_exists. eexists. split.
    + vm_compute. right. left. reflexivity.
    + split; reflexivity.
  - apply Ha. apply List.Exists_exists. eexists. split.
    + vm_compute. right. right. left. reflexivity.
    + split; reflexivity.
Defined.

(** Three memes requested: two generated against three generated. *)
Lemma analyzeAssetCoverage_more_assets_witness :
  analyzeAssetCoverage (briefWith "spring" [] (quantitiesOf 3 1 0 0 0))
                       (blueprintWith [] 2 1)
  <= analyzeAssetCoverage (briefWith "spring" [] (quantitiesOf 3 1 0 0 0))
                          (blueprintWith [] 3 1).
Proof.
  apply analyzeAssetCoverage_more_assets.
  unfold generatesAtLeast. vm_compute. repeat split; discriminate.
Defined.

End HealthScoreMoreFacts.

(** ** Maps in insertion order, and the stable sort *)

Module JSMapFacts.
Import JS.

Lemma get_set_same {V : Type} (key : string) (v : V) (m : JSMap.t V) :
  JSMap.get key (JSMap.set key v m) = Some v.
Proof.
  induction m as [|[k old] m IH]; simpl.
  - now rewrite String.eqb_refl.
  - destruct (String.eqb k key) eqn:E; simpl; now rewrite E.
Qed.

Lemma get_set_other {V : Type} (key key' : string) (v : V) (m : JSMap.t V) :
  key <> key' -> JSMap.get key' (JSMap.set key v m) = JSMap.get key' m.
Proof.
  intros Hne. induction m as [|[k old] m IH]; simpl.
  - apply String.eqb_neq in Hne. now rewrite Hne.
  - destruct (String.eqb k key) eqn:E; simpl.
    + apply String.eqb_eq in E. subst k.
      apply String.eqb_neq in Hne. now rewrite Hne.
    + now rewrite IH.
Qed.

Lemma set_fresh {V : Type} (key : string) (v : V) (m : JSMap.t V) :
  JSMap.get key m = None -> JSMap.set key v m = (m ++ [(key, v)])%list.
Proof.
  induction m as [|[k old] m IH]; simpl; [reflexivity |].
  destruct (String.eqb k key); [discriminate |].
  intros H. now rewrite IH.
Qed.

Lemma delete_absent {V : Type} (key : string) (m : JSMap.t V) :
  JSMap.get key m = None -> JSMap.delete key m = (false, m).
Proof.
  induction m as [|[k old] m IH]; simpl; [reflexivity |].
  destruct (String.eqb k key); [discriminate |].
  intros H. now rewrite IH.
Qed.

Lemma delete_set_fresh {V : Type} (key : string) (v : V) (m : JSMap.t V) :
  JSMap.get key m = None -> JSMap.delete key (JSMap.set key v m) = (true, m).
Proof.
  induction m as [|[k old] m IH]; simpl.
  - now rewrite String.eqb_refl.
  - destruct (String.eqb k key) eqn:E; [discriminate |].
    intros H. simpl. rewrite E. now rewrite IH.
Qed.

Lemma get_None_keys {V : Type} (key : string) (m : JSMap.t V) :
  JSMap.get key m = None -> Forall (fun entry => fst entry <> key) m.
Proof.
  induction m as [|[k old] m IH]; simpl; [constructor |].
  destruct (String.eqb k key) eqn:E; [discriminate |].
  intros H. constructor; [now apply String.eqb_neq in E | now apply IH].
Qed.

Lemma insertBy_perm {A : Type} (rank : A -> Z) (x : A) (xs : list A) :
  Permutation (insertBy rank x xs) (x :: xs).
Proof.
  induction xs as [|y ys IH]; simpl; [reflexivity |].
  destruct (rank x <=? rank y); [reflexivity |].
  rewrite IH. apply perm_swap.
Qed.

(** Sorting keeps the elements. *)
Lemma sortBy_perm {A : Type} (rank : A -> Z) (xs : list A) :
  Permutation (sortBy rank xs) xs.
Proof.
  induction xs as [|x xs IH]; simpl; [reflexivity |].
  unfold sortBy in IH. rewrite insertBy_perm. now constructor.
Qed.

End JSMapFacts.

(** ** More on publishing: outcomes, connecting, bulk and scheduled posts *)

Module PublishingMoreFacts.
Import JS PublishingService PublishingSpec PublishingSchedule Samples JSFacts JSMapFacts.

Lemma falsy_false (s : option string) :
  falsy s = false <-> exists v : string, s = Some v /\ v <> "".
Proof.
  destruct s as [v|]; simpl.
  - rewrite String.eqb_neq. split; [intros H; now exists v | intros (v' & [= <-] & H); exact H].
  - split; [discriminate | intros (v & H & _); discriminate].
Qed.

Lemma tooLong_false (t : option string) :
  tooLong t = false <-> forall s : string, t = Some s -> strlen s <= 280.
Proof.
  destruct t as [s|]; simpl.
  - split.
    + intros H s' [= <-]. destruct s as [|c s]; [unfold strlen; simpl; lia |].
      simpl in H. now apply Z.ltb_ge in H.
    + intros H. specialize (H s eq_refl). apply Z.ltb_ge in H. rewrite H.
      apply andb_false_r.
  - split; [intros _ s H; discriminate | reflexivity].
Qed.

(** Splits [publish] by the platform of the request. *)
Ltac by_platform request :=
  unfold publish;
  destruct (String.eqb (platform request) "meta") eqn:Em;
    [apply String.eqb_eq in Em |
     destruct (String.eqb (platform request) "tiktok") eqn:Et;
       [apply String.eqb_eq in Et |
        destruct (String.eqb (platform request) "linkedin") eqn:El;
          [apply String.eqb_eq in El |
           destruct (String.eqb (platform request) "twitter") eqn:Ew;
             [apply String.eqb_eq in Ew |]]]].

Lemma publish_names_platform (now : Z) (stored : gmap string PlatformCredentials)
    (request : PublishRequest) :
  result_platform (fst (publish now stored request)) = platform request.
Proof.
  by_platform request;
    unfold publishToMeta, publishToTikTok, publishToLinkedIn, publishToTwitter;
    repeat match goal with
           | |- context [match ?c with Some _ => _ | None => _ end] => destruct c
           | |- context [if ?c then _ else _] => destruct c
           end; simpl; congruence.
Qed.

(** X9: a publish result always names the platform of its request; a
    successful one carries a post id, a post URL and the publishing time and
    no error, a failed one carries an error and none of the three. *)
Theorem publish_result_shape (now : Z) (stored : gmap string PlatformCredentials)
    (request : PublishRequest) :
  let r := fst (publish now stored request) in
  result_platform r = platform request /\
  (success r = true ->
   (exists post url : string, postId r = Some post /\ postUrl r = Some url) /\
   publishedAt r = Some now /\ error r = None) /\
  (success r = false ->
   (exists message : string, error r = Some message) /\
   postId r = None /\ postUrl r = None /\ publishedAt r = None).
Proof.
  cbv zeta. by_platform request;
    unfold publishToMeta, publishToTikTok, publishToLinkedIn, publishToTwitter;
    repeat match goal with
           | |- context [match ?c with Some _ => _ | None => _ end] => destruct c
           | |- context [if ?c then _ else _] => destruct c
           end; simpl;
    (split; [congruence |]);
    (split; intros H; try discriminate H; eauto 6).
Qed.

Lemma publish_result_shape_witness :
  (exists message : string,
     error (fst (publish 1765368000000 ∅ (aRequest "meta" (Some "hello")))) = Some message) /\
  publishedAt (fst (publish 1765368000000 {[ "twitter" := twitterCredentials ]}
                      (aRequest "twitter" (Some "hello")))) = Some 1765368000000.
Proof.
  split.
  - pose proof (publish_result_shape 1765368000000 ∅ (aRequest "meta" (Some "hello"))) as H.
    cbv zeta in H. destruct H as (_ & _ & Hfailed).
    apply Hfailed. reflexivity.
  - pose proof (publish_result_shape 1765368000000 {[ "twitter" := twitterCredentials ]}
                  (aRequest "twitter" (Some "hello"))) as H.
    cbv zeta in H. destruct H as (_ & Hdone & _).
    apply Hdone. vm_compute. reflexivity.
Defined.

(** X10: publishing succeeds exactly when the platform is one of the four,
    credentials are stored for it, a TikTok request carries a video URL and
    a Twitter request carries no text of more than 280 characters. *)
Theorem publish_succeeds_iff (now : Z) (stored : gmap string PlatformCredentials)
    (request : PublishRequest) :
  success (fst (publish now stored request)) = true <->
  knownPlatform (platform request) /\
  (exists c : PlatformCredentials,
     getStoredCredentials stored (platform request) = Some c) /\
  (platform request = "tiktok" ->
   exists v : string, videoUrl (content request) = Some v /\ v <> "") /\
  (platform request = "twitter" ->
   forall t : string, text (content request) = Some t -> strlen t <= 280).
Proof.
  unfold knownPlatform. by_platform request.
  - rewrite Em. unfold publishToMeta.
    destruct (getStoredCredentials stored "meta") as [c|]; simpl; split.
    + intros _. split; [tauto |]. split; [eauto |]. split; discriminate.
    + reflexivity.
    + discriminate.
    + intros (_ & (c & H) & _). discriminate.
  - rewrite Et. unfold publishToTikTok.
    destruct (getStoredCredentials stored "tiktok") as [c|]; simpl.
    + destruct (falsy (videoUrl (content request))) eqn:Hv; simpl; split.
      * discriminate.
      * intros (_ & _ & Hvideo & _). specialize (Hvideo eq_refl).
        apply falsy_false in Hvideo. congruence.
      * intros _. split; [tauto |]. split; [eauto |].
        split; [intros _; now apply falsy_false | discriminate].
      * reflexivity.
    + split; [discriminate | intros (_ & (c & H) & _); discriminate].
  - rewrite El. unfold publishToLinkedIn.
    destruct (getStoredCredentials stored "linkedin") as [c|]; simpl; split.
    + intros _. split; [tauto |]. split; [eauto |]. split; discriminate.
    + reflexivity.
    + discriminate.
    + intros (_ & (c & H) & _). discriminate.
  - rewrite Ew. unfold publishToTwitter.
    destruct (getStoredCredentials stored "twitter") as [c|]; simpl.
    + destruct (tooLong (text (content request))) eqn:Hl; simpl; split.
      * discriminate.
      * intros (_ & _ & _ & Htext). specialize (Htext eq_refl).
        apply tooLong_false in Htext. congruence.
      * intros _. split; [tauto |]. split; [eauto |].
        split; [discriminate | intros _; now apply tooLong_false].
      * reflexivity.
    + split; [discriminate | intros (_ & (c & H) & _); discriminate].
  - simpl. split; [discriminate |].
    apply String.eqb_neq in Em, Et, El, Ew.
    intros ([H | [H | [H | H]]] & _); congruence.
Qed.

(** X11: connecting a platform stores credentials for it and for no other;
    publishing to Meta or LinkedIn then succeeds, and after disconnecting it
    fails again. *)
Theorem connect_publish_disconnect (now : Z) (stored : gmap string PlatformCredentials)
    (code : string) (request : PublishRequest) :
  platform request = "meta" \/ platform request = "linkedin" ->
  let connected := snd (handleOAuthCallback now stored (platform request) code) in
  getStoredCredentials connected (platform request)
    = Some (fst (handleOAuthCallback now stored (platform request) code)) /\
  (forall other : string,
     other <> platform request ->
     getStoredCredentials connected other = getStoredCredentials stored other) /\
  success (fst (publish now connected request)) = true /\
  getStoredCredentials (removeCredentials connected (platform request)) (platform request)
    = None /\
  success (fst (publish now (removeCredentials connected (platform request)) request))
    = false.
Proof.
  intros Hp. cbv zeta.
  unfold handleOAuthCallback, storeCredentials, removeCredentials, getStoredCredentials.
  cbn [fst snd cred_platform].
  set (credentials := {| cred_platform := platform request |}).
  assert (Hget : <[platform request := credentials]> stored !! platform request
                 = Some credentials) by apply lookup_insert_eq.
  assert (Hgone : delete (platform request) (<[platform request := credentials]> stored)
                    !! platform request = None) by apply lookup_delete_eq.
  split; [exact Hget |].
  split; [intros other Hne; now apply lookup_insert_ne |].
  split; [| split; [exact Hgone |]].
  - unfold publish, publishToMeta, publishToLinkedIn, getStoredCredentials.
    destruct Hp as [E | E]; rewrite E in *; simpl; now rewrite Hget.
  - unfold publish, publishToMeta, publishToLinkedIn, getStoredCredentials.
    destruct Hp as [E | E]; rewrite E in *; simpl; now rewrite Hgone.
Qed.

(** Connecting LinkedIn on an empty credentials map. *)
Lemma connect_publish_disconnect_witness :
  success (fst (publish 1765368000000
                  (snd (handleOAuthCallback 1765368000000 ∅ "linkedin" "mock_code"))
                  (aRequest "linkedin" (Some "hello")))) = true /\
  success (fst (publish 1765368000000
                  (removeCredentials
                     (snd (handleOAuthCallback 1765368000000 ∅ "linkedin" "mock_code"))
                     "linkedin")
                  (aRequest "linkedin" (Some "hello")))) = false.
Proof.
  pose proof (connect_publish_disconnect 1765368000000 ∅ "mock_code"
                (aRequest "linkedin" (Some "hello")) (or_intror eq_refl))
    as (_ & _ & Hok & _ & Hfail).
  split; [exact Hok | exact Hfail].
Defined.

Lemma publishToAll_spec (now : Z) (stored : gmap string PlatformCredentials)
    (platforms : list string) (content : Content) :
  publishToAll now stored platforms content
  = (map (fun platform =>
            fst (publish now stored
                   {| platform := platform; content := content; scheduling := None |}))
         platforms,
     stored).
Proof.
  induction platforms as [|p ps IH]; simpl; [reflexivity |].
  pose proof (PublishingFacts.publish_keeps_credentials now stored
                {| platform := p; content := content; scheduling := None |}) as Hkeep.
  destruct (publish now stored _) as [r s1]. simpl in Hkeep. subst s1.
  rewrite IH. reflexivity.
Qed.

(** X12: bulk publishing returns one result per platform, in the order of the
    platforms, each naming its platform and each the result that a single
    publish to that platform gives; the stored credentials are unchanged. *)
Theorem publishToAll_one_result_each (now : Z) (stored : gmap string PlatformCredentials)
    (platforms : list string) (content : Content) :
  List.length (fst (publishToAll now stored platforms content)) = List.length platforms /\
  map result_platform (fst (publishToAll now stored platforms content)) = platforms /\
  (forall (i : nat) (platform : string),
     platforms !! i = Some platform ->
     fst (publishToAll now stored platforms content) !! i
     = Some (fst (publish now stored
                    {| platform := platform; content := content; scheduling := None |}))) /\
  snd (publishToAll now stored platforms content) = stored.
Proof.
  rewrite publishToAll_spec. cbn [fst snd].
  split; [apply length_map |].
  split; [| split; [| reflexivity]].
  - rewrite map_map. induction platforms as [|p ps IH]; simpl; [reflexivity |].
    rewrite IH. f_equal.
    exact (publish_names_platform now stored
             {| platform := p; content := content; scheduling := None |}).
  - intros i platform Hi. rewrite list_lookup_fmap, Hi. reflexivity.
Qed.

(** Publishing to Meta and to an unknown platform with Twitter connected. *)
Lemma publishToAll_one_result_each_witness :
  fst (publishToAll 1765368000000 {[ "twitter" := twitterCredentials ]}
         ["meta"; "mastodon"] (aContent (Some "hello"))) !! 1%nat
  = Some (fst (publish 1765368000000 {[ "twitter" := twitterCredentials ]}
                 (aRequest "mastodon" (Some "hello")))).
Proof.
  apply (proj1 (proj2 (proj2 (publishToAll_one_result_each 1765368000000
           {[ "twitter" := twitterCredentials ]} ["meta"; "mastodon"]
           (aContent (Some "hello")))))).
  reflexivity.
Defined.

(** X13: the scheduled posts are listed in ascending order of their time, and
    the list holds exactly the stored posts that are pending. *)
Theorem getScheduledPosts_sorted (scheduledPosts : JSMap.t ScheduledPost) :
  StronglySorted (byRank scheduledFor) (getScheduledPosts scheduledPosts) /\
  Permutation (getScheduledPosts scheduledPosts)
              (List.filter isPending (JSMap.values scheduledPosts)) /\
  Forall (fun p => status p = pending) (getScheduledPosts scheduledPosts).
Proof.
  unfold getScheduledPosts.
  split; [apply WhisperFacts.sortBy_sorted |].
  split; [apply sortBy_perm |].
  rewrite sortBy_perm. apply List.Forall_forall. intros p Hp.
  apply filter_In in Hp as [_ Hp]. unfold isPending in Hp.
  now destruct (status p).
Qed.

Lemma filedById_no_id (scheduledPosts : JSMap.t ScheduledPost) (key : string) :
  filedById scheduledPosts -> JSMap.get key scheduledPosts = None ->
  Forall (fun p => id p <> key) (JSMap.values scheduledPosts).
Proof.
  intros Hfiled Hnone. apply get_None_keys in Hnone.
  unfold JSMap.values. apply List.Forall_forall. intros p Hp.
  apply in_map_iff in Hp as (entry & <- & Hentry).
  unfold filedById in Hfiled. rewrite List.Forall_forall in Hfiled, Hnone.
  rewrite (Hfiled entry Hentry). now apply Hnone.
Qed.

(** X14: a newly scheduled post is pending, is due at the requested time (one
    hour from now when none is given) and is listed; cancelling it reports
    success and restores the map, in which no post of that id is listed any
    more; cancelling an id that is not scheduled reports failure and changes
    nothing. *)
Theorem schedule_then_cancel (now : Z) (token : string)
    (scheduledPosts : JSMap.t ScheduledPost) (request : PublishRequest) :
  filedById scheduledPosts ->
  JSMap.get ("scheduled_" ++ string_of_Z now ++ "_" ++ token) scheduledPosts = None ->
  let post := fst (schedulePost now token scheduledPosts request) in
  let scheduled := snd (schedulePost now token scheduledPosts request) in
  In post (getScheduledPosts scheduled) /\
  scheduledFor post =
    match scheduling request with
    | Some {| publishAt := Some t |} => if t =? 0 then now + 3600000 else t
    | _ => now + 3600000
    end /\
  filedById scheduled /\
  cancelScheduledPost (id post) scheduled = (true, scheduledPosts) /\
  Forall (fun p => id p <> id post)
         (getScheduledPosts (snd (cancelScheduledPost (id post) scheduled))) /\
  cancelScheduledPost (id post) scheduledPosts = (false, scheduledPosts).
Proof.
  intros Hfiled Hfresh. cbv zeta. unfold schedulePost. cbv zeta. cbn [fst snd id].
  set (key := "scheduled_" ++ string_of_Z now ++ "_" ++ token) in *.
  set (post := {| id := key |}).
  unfold cancelScheduledPost.
  rewrite (delete_set_fresh key post scheduledPosts Hfresh).
  rewrite (delete_absent key scheduledPosts Hfresh). cbn [snd].
  rewrite (set_fresh key post scheduledPosts Hfresh).
  split; [| split; [| split; [| split; [reflexivity | split; [| reflexivity]]]]].
  - unfold getScheduledPosts. rewrite sortBy_perm. apply filter_In.
    split; [| reflexivity].
    unfold JSMap.values. rewrite map_app. apply in_or_app. right. now left.
  - unfold post, scheduledTime. cbn [scheduledFor].
    destruct (scheduling request) as [[[t|] zone]|]; reflexivity.
  - unfold filedById. apply Forall_app. split; [exact Hfiled |].
    constructor; [reflexivity | constructor].
  - pose proof (filedById_no_id scheduledPosts key Hfiled Hfresh) as Hno.
    unfold getScheduledPosts. rewrite sortBy_perm.
    apply List.Forall_forall. intros p Hp. apply filter_In in Hp as [Hp _].
    rewrite List.Forall_forall in Hno. now apply Hno.
Qed.

(** Scheduling a tweet for a given time on an empty schedule. *)
Lemma schedule_then_cancel_witness :
  scheduledFor
    (fst (schedulePost 1765368000000 "k3j9x0q2a" []
            {| platform := "twitter"; content := aContent (Some "hello");
               scheduling := Some {| publishAt := Some 1765400000000;
                                     timezone := None |} |}))
  = 1765400000000 /\
  cancelScheduledPost "scheduled_1765368000000_k3j9x0q2a"
    (snd (schedulePost 1765368000000 "k3j9x0q2a" []
            {| platform := "twitter"; content := aContent (Some "hello");
               scheduling := Some {| publishAt := Some 1765400000000;
                                     timezone := None |} |}))
  = (true, []).
Proof.
  pose proof (schedule_then_cancel 1765368000000 "k3j9x0q2a" []
                {| platform := "twitter"; content := aContent (Some "hello");
                   scheduling := Some {| publishAt := Some 1765400000000;
                                         timezone := None |} |}
                (List.Forall_nil _) eq_refl) as (_ & Htime & _ & Hcancel & _).
  split; [exact Htime | exact Hcancel].
Defined.

End PublishingMoreFacts.

(** ** More on feedback: recorded performance and predictions *)

Module FeedbackMoreFacts.
Import JS FeedbackService FeedbackRecords Samples FeedbackSamples JSFacts JSMapFacts.

Lemma values_set_total (key : string) (r : AssetPerformance)
    (m : JSMap.t (list AssetPerformance)) :
  List.length (List.concat (JSMap.values
     (JSMap.set key (push (orEmpty (JSMap.get key m)) r) m)))
  = S (List.length (List.concat (JSMap.values m))).
Proof.
  unfold JSMap.values, push. induction m as [|[k old] m IH]; simpl; [reflexivity |].
  destruct (String.eqb k key); simpl.
  - rewrite !length_app. simpl. lia.
  - rewrite !length_app, IH. lia.
Qed.

(** In a sorted array the ranks follow the indices. *)
Lemma sorted_lookup {A : Type} (rank : A -> Z) (xs : list A) :
  StronglySorted (byRank rank) xs ->
  forall (i j : nat) (a b : A),
    xs !! i = Some a -> xs !! j = Some b -> (i < j)%nat -> rank a <= rank b.
Proof.
  induction 1 as [|x xs Hsorted IH Hall]; intros i j a b Hi Hj Hlt.
  - discriminate.
  - destruct i as [|i], j as [|j]; simpl in Hi, Hj; try lia.
    + injection Hi as ->. exact (Forall_lookup_1 _ _ _ _ Hall Hj).
    + eapply IH; [exact Hi | exact Hj | lia].
Qed.

(** X15: recording a performance appends the new record, stamped with the
    current time, to the records of its asset and leaves every other asset's
    records as they were; the number of all records grows by one. *)
Theorem recordPerformance_appends (now : Z) (token : string)
    (performanceData : JSMap.t (list AssetPerformance)) (data : PerformanceInput) :
  let record := fst (recordPerformance now token performanceData data) in
  let recorded := snd (recordPerformance now token performanceData data) in
  getAssetPerformance recorded (in_assetId data)
    = (getAssetPerformance performanceData (in_assetId data) ++ [record])%list /\
  (forall other : string,
     other <> in_assetId data ->
     getAssetPerformance recorded other = getAssetPerformance performanceData other) /\
  (assetId record = in_assetId data /\ metrics record = in_metrics data
   /\ recordedAt record = now) /\
  List.length (getAllPerformanceData recorded)
    = S (List.length (getAllPerformanceData performanceData)).
Proof.
  cbv zeta. unfold recordPerformance, getAssetPerformance. cbv zeta. cbn [fst snd].
  split; [now rewrite get_set_same |].
  split; [intros other Hne; rewrite get_set_other; [reflexivity | congruence] |].
  split; [repeat split |].
  unfold getAllPerformanceData. cbv zeta.
  rewrite !(Permutation_length (sortBy_perm _ _)).
  apply values_set_total.
Qed.

Lemma recordPerformance_appends_witness :
  getAssetPerformance
    (snd (recordPerformance 1765300000000 "x1" somePerformance
            (anInput "a2" "banner" "instagram" (Some 3) (Some 100)))) "a1"
  = getAssetPerformance somePerformance "a1".
Proof.
  pose proof (recordPerformance_appends 1765300000000 "x1" somePerformance
                (anInput "a2" "banner" "instagram" (Some 3) (Some 100))) as H.
  cbv zeta in H. destruct H as (_ & Hother & _).
  apply Hother. discriminate.
Defined.

(** X16: all performance data comes newest first, and holds exactly the
    records stored for the assets. *)
Theorem getAllPerformanceData_newest_first
    (performanceData : JSMap.t (list AssetPerformance)) :
  (forall (i j : nat) (a b : AssetPerformance),
     getAllPerformanceData performanceData !! i = Some a ->
     getAllPerformanceData performanceData !! j = Some b ->
     (i < j)%nat -> recordedAt b <= recordedAt a) /\
  Permutation (getAllPerformanceData performanceData)
              (List.concat (JSMap.values performanceData)).
Proof.
  unfold getAllPerformanceData. cbv zeta. split; [| apply sortBy_perm].
  intros i j a b Hi Hj Hlt.
  pose proof (sorted_lookup (fun a => - recordedAt a) _
                (WhisperFacts.sortBy_sorted _ _) i j a b Hi Hj Hlt) as H.
  simpl in H. lia.
Qed.

Lemma getAllPerformanceData_newest_first_witness :
  recordedAt (aRecord "p2" "a2" "banner" "instagram" (Some 20) (Some 200) 1765100000000)
  <= recordedAt (aRecord "p3" "a1" "meme" "instagram" (Some 1) (Some 200) 1765200000000).
Proof.
  apply (proj1 (getAllPerformanceData_newest_first somePerformance) 0%nat 1%nat);
    [reflexivity | reflexivity | lia].
Defined.

Lemma filter_perm_length {A : Type} (f : A -> bool) (xs ys : list A) :
  Permutation xs ys ->
  List.length (List.filter f xs) = List.length (List.filter f ys).
Proof.
  induction 1 as [| x xs ys _ IH | x y xs | xs ys zs _ IH1 _ IH2]; simpl.
  - reflexivity.
  - destruct (f x); simpl; now rewrite IH.
  - destruct (f x), (f y); reflexivity.
  - now rewrite IH1.
Qed.

(** X17: a prediction always comes with one or two factors and a confidence
    between 0.3 and 0.9; with fewer than three comparable records (same
    asset type or same platform) it is the default prediction, medium at
    confidence 0.3; from three comparable records on the confidence is at
    least 0.45, and from twelve on it is 0.9. *)
Theorem predictAssetPerformance_confidence
    (performanceData : JSMap.t (list AssetPerformance))
    (type platform' : string) (promptKeywords : list string) :
  let p := predictAssetPerformance performanceData type platform' promptKeywords in
  let comparable :=
    lengthZ (List.filter
               (fun d => String.eqb (assetType d) type || String.eqb (platform d) platform')
               (List.concat (JSMap.values performanceData))) in
  (0.3 <= confidence p)%Q /\ (confidence p <= 0.9)%Q /\
  (1 <= List.length (factors p) <= 2)%nat /\
  (comparable < 3 ->
   predictedEngagement p = medium /\ confidence p = 0.3%Q /\
   factors p = ["Insufficient historical data for accurate prediction"]) /\
  (3 <= comparable -> (0.45 <= confidence p)%Q) /\
  (12 <= comparable -> (confidence p == 0.9)%Q).
Proof.
  cbv zeta. unfold predictAssetPerformance. cbv zeta.
  set (f := fun d => String.eqb (assetType d) type || String.eqb (platform d) platform').
  assert (Hn : lengthZ (List.filter f (getAllPerformanceData performanceData))
               = lengthZ (List.filter f (List.concat (JSMap.values performanceData)))).
  { unfold lengthZ, getAllPerformanceData. cbv zeta. f_equal.
    apply filter_perm_length, sortBy_perm. }
  rewrite <- Hn.
  set (similar := List.filter f (getAllPerformanceData performanceData)).
  destruct (lengthZ similar <? 3) eqn:Hfew;
    [apply Z.ltb_lt in Hfew | apply Z.ltb_ge in Hfew].
  - cbn [confidence factors predictedEngagement List.length].
    split; [lra |]. split; [lra |]. split; [lia |].
    split; [intros _; repeat split |]. split; intros H; lia.
  - cbn [confidence factors predictedEngagement].
    pose proof (inject_le _ _ Hfew) as Hq. change (inject_Z 3) with 3%Q in Hq.
    assert (Hlow : (0.45 <= Qmin 0.9 (0.3 + inject_Z (lengthZ similar) * 0.05))%Q)
      by (apply Q.min_glb; lra).
    split; [lra |]. split; [apply Q.le_min_l |].
    split; [| split; [intros H; lia | split; [intros _; exact Hlow |]]].
    + repeat match goal with
             | |- context [if 0 <? lengthZ (List.filter ?g ?l) then _ else _] =>
                 destruct (0 <? lengthZ (List.filter g l)); cbv iota
             | |- context [if Qltb ?a ?b then _ else _] =>
                 destruct (Qltb a b); cbv iota
             end; unfold push, lengthZ; simpl; lia.
    + intros H12. apply Q.min_l.
      apply inject_le in H12. change (inject_Z 12) with 12%Q in H12. lra.
Qed.

Lemma predictAssetPerformance_confidence_witness :
  (0.45 <= confidence (predictAssetPerformance somePerformance "meme" "instagram" []))%Q /\
  predictedEngagement (predictAssetPerformance [] "meme" "instagram" []) = medium.
Proof.
  split.
  - pose proof (predictAssetPerformance_confidence somePerformance "meme" "instagram" []) as H.
    cbv zeta in H. destruct H as (_ & _ & _ & _ & Hsome & _).
    apply Hsome. vm_compute. discriminate.
  - pose proof (predictAssetPerformance_confidence [] "meme" "instagram" []) as H.
    cbv zeta in H. destruct H as (_ & _ & _ & Hfew & _).
    apply Hfew. vm_compute. reflexivity.
Defined.

End FeedbackMoreFacts.

(** ** Performance insights *)

Module FeedbackInsightFacts.
Import JS FeedbackService FeedbackRecords FeedbackInsights FeedbackSamples.
Import JSFacts JSMapFacts HealthScoreMoreFacts.

Section Descending.
Context {A : Type} (rate : A -> Q).

Lemma insertDescBy_In (x y : A) (xs : list A) :
  In y (insertDescBy rate x xs) <-> y = x \/ In y xs.
Proof.
  induction xs as [|z zs IH]; simpl.
  - intuition.
  - destruct (Qle_bool (rate z) (rate x)); simpl; [intuition |].
    rewrite IH. intuition.
Qed.

Lemma sortDescBy_In (y : A) (xs : list A) : In y (sortDescBy rate xs) <-> In y xs.
Proof.
  induction xs as [|x xs IH]; simpl; [reflexivity |].
  rewrite insertDescBy_In. unfold sortDescBy in IH. rewrite IH. intuition.
Qed.

Lemma insertDescBy_sorted (x : A) (xs : list A) :
  StronglySorted (fun a b => (rate b <= rate a)%Q) xs ->
  StronglySorted (fun a b => (rate b <= rate a)%Q) (insertDescBy rate x xs).
Proof.
  induction 1 as [|y ys Hsorted IH Hall]; simpl.
  - constructor; constructor.
  - destruct (Qle_bool (rate y) (rate x)) eqn:Hyx.
    + apply Qle_bool_iff in Hyx. constructor; [now constructor |].
      constructor; [exact Hyx |].
      eapply List.Forall_impl; [| exact Hall]. intros z Hz. simpl in Hz. lra.
    + assert (Hlt : (rate x < rate y)%Q).
      { apply Qnot_le_lt. intros H. apply Qle_bool_iff in H. congruence. }
      constructor; [exact IH |].
      apply List.Forall_forall. intros z Hz. apply insertDescBy_In in Hz as [-> | Hz].
      * lra.
      * rewrite List.Forall_forall in Hall. now apply Hall.
Qed.

Lemma sortDescBy_sorted (xs : list A) :
  StronglySorted (fun a b => (rate b <= rate a)%Q) (sortDescBy rate xs).
Proof.
  induction xs as [|x xs IH]; simpl; [constructor | now apply insertDescBy_sorted].
Qed.

(** The first element after sorting has the highest rate. *)
Lemma sortDescBy_head (xs : list A) (y : A) (ys : list A) :
  sortDescBy rate xs = y :: ys ->
  In y xs /\ forall x : A, In x xs -> (rate x <= rate y)%Q.
Proof.
  intros E. pose proof (sortDescBy_sorted xs) as Hs. rewrite E in Hs.
  split.
  - apply sortDescBy_In. rewrite E. now left.
  - intros x Hx. apply sortDescBy_In in Hx. rewrite E in Hx.
    destruct Hx as [-> | Hx]; [lra |].
    apply StronglySorted_inv in Hs as [_ Hall].
    rewrite List.Forall_forall in Hall. now apply Hall.
Qed.

Lemma sortDescBy_nil (xs : list A) : sortDescBy rate xs = [] -> xs = [].
Proof.
  destruct xs as [|x xs]; [reflexivity |]. intros E.
  assert (H : In x (sortDescBy rate (x :: xs))) by (apply sortDescBy_In; now left).
  rewrite E in H. destruct H.
Qed.

End Descending.

Lemma allData_In (performanceData : JSMap.t (list AssetPerformance)) (d : AssetPerformance) :
  In d (getAllPerformanceData performanceData)
  <-> In d (List.concat (JSMap.values performanceData)).
Proof.
  unfold getAllPerformanceData. cbv zeta.
  split; apply Permutation_in; [| symmetry]; apply sortBy_perm.
Qed.

Lemma allData_empty (performanceData : JSMap.t (list AssetPerformance)) :
  lengthZ (getAllPerformanceData performanceData) = 0
  <-> List.concat (JSMap.values performanceData) = [].
Proof.
  unfold getAllPerformanceData, lengthZ. cbv zeta.
  rewrite (Permutation_length (sortBy_perm _ _)).
  destruct (List.concat _); simpl; split; intros H; try reflexivity; try discriminate; lia.
Qed.

(** The records with a positive rate, paired with their rate. *)
Lemma engaged_In (allData : list AssetPerformance) (x : AssetPerformance * Q) :
  In x (List.filter (fun d => Qltb 0 (snd d)) (map (fun d => (d, rateOf d)) allData))
  <-> In (fst x) allData /\ snd x = rateOf (fst x) /\ (0 < snd x)%Q.
Proof.
  rewrite filter_In, in_map_iff. unfold Qltb. rewrite negb_true_iff.
  split.
  - intros [(d & <- & Hd) Hpos]. simpl in *. repeat split; [assumption |].
    apply Qnot_le_lt. intros H. apply Qle_bool_iff in H. congruence.
  - intros (Hd & Hrate & Hpos). split.
    + exists (fst x). split; [| assumption]. destruct x as [d q]. simpl in *. now subst q.
    + destruct (Qle_bool (snd x) 0) eqn:E; [| reflexivity].
      apply Qle_bool_iff in E. lra.
Qed.

Lemma slice0_In {A : Type} (n : nat) (x : A) (xs : list A) :
  In x (slice0 n xs) -> In x xs.
Proof.
  unfold slice0. revert n. induction xs as [|y ys IH]; intros [|n]; simpl; try tauto.
  intros [H | H]; [now left | right; now apply (IH n)].
Qed.

Ltac split_insights H :=
  repeat match type of H with
         | In _ (push _ _) => apply In_push in H as [H | H]
         | In _ (if ?c then _ else _) => destruct c
         | In _ (match ?o with Some _ => _ | None => _ end) => destruct o
         | In _ [] => destruct H
         end.

(** X18: the top performer that is reported is a stored record with a
    positive engagement rate that no stored record exceeds, and one is
    reported exactly when some stored record has a positive rate. *)
Theorem top_performer_is_best (performanceData : JSMap.t (list AssetPerformance)) :
  let records := List.concat (JSMap.values performanceData) in
  let found := generatePerformanceInsights performanceData in
  (Exists (fun i => type i = top_performer) found
   <-> Exists (fun d => (0 < rateOf d)%Q) records) /\
  (forall i : PerformanceInsight,
     In i found -> type i = top_performer ->
     exists d : AssetPerformance,
       In d records /\ value i = Some (rateOf d) /\ assetIds i = Some [assetId d] /\
       (0 < rateOf d)%Q /\
       forall d' : AssetPerformance, In d' records -> (rateOf d' <= rateOf d)%Q).
Proof.
  cbv zeta. unfold generatePerformanceInsights. cbv zeta.
  set (allData := getAllPerformanceData performanceData).
  set (engaged := List.filter (fun d => Qltb 0 (snd d)) (map (fun d => (d, rateOf d)) allData)).
  destruct (lengthZ allData =? 0) eqn:Hempty.
  - apply Z.eqb_eq, allData_empty in Hempty. rewrite Hempty. split.
    + split; intros H; apply List.Exists_exists in H as (x & Hx & Hp).
      * destruct Hx as [<- | []]. discriminate Hp.
      * destruct Hx.
    + intros i [<- | []] Ht. discriminate Ht.
  - clear Hempty.
    destruct (sortDescBy snd engaged) as [|top rest] eqn:Hsort.
    + apply sortDescBy_nil in Hsort. split.
      * split; intros H; apply List.Exists_exists in H as (x & Hx & Hp).
        -- apply slice0_In in Hx. split_insights Hx; subst x; discriminate Hp.
        -- apply allData_In in Hx. fold allData in Hx.
           assert (Hin : In (x, rateOf x) engaged) by (apply engaged_In; simpl; auto).
           rewrite Hsort in Hin. destruct Hin.
      * intros i Hi Ht. apply slice0_In in Hi.
        split_insights Hi; subst i; discriminate Ht.
    + apply sortDescBy_head in Hsort as [Htop Hmax].
      apply engaged_In in Htop as (Hd & Hrate & Hpos).
      assert (Hbest : forall d' : AssetPerformance,
                In d' (List.concat (JSMap.values performanceData)) ->
                (rateOf d' <= snd top)%Q).
      { intros d' Hd'. apply allData_In in Hd'. fold allData in Hd'.
        destruct (Qlt_le_dec 0 (rateOf d')) as [Hp | Hn]; [| lra].
        apply (Hmax (d', rateOf d')). apply engaged_In. simpl. auto. }
      apply allData_In in Hd. split.
      * split; intros _.
        -- apply List.Exists_exists. exists (fst top). split; [assumption |].
           now rewrite <- Hrate.
        -- match goal with
           | |- Exists _ (slice0 5 ?l) =>
               assert (Hl : exists x tail, l = (x :: tail)%list /\ type x = top_performer)
           end.
           { repeat match goal with
                    | |- context [if ?c then _ else _] => destruct c
                    | |- context [match ?o with Some _ => _ | None => _ end] => destruct o
                    end; unfold push; simpl; eexists; eexists; split; reflexivity. }
           destruct Hl as (x & tail & -> & Hx).
           apply List.Exists_exists. exists x. split; [now left | exact Hx].
      * intros i Hi Ht. apply slice0_In in Hi.
        exists (fst top).
        split_insights Hi; subst i; try discriminate Ht; cbn [value assetIds];
          rewrite <- Hrate; repeat split; auto.
Qed.

(** X19: without any recorded performance the only insight is the invitation
    to start tracking; with recorded performance that invitation is never
    given, and at most five insights are. *)
Theorem generatePerformanceInsights_start
    (performanceData : JSMap.t (list AssetPerformance)) :
  (List.concat (JSMap.values performanceData) = [] ->
   generatePerformanceInsights performanceData = [startTracking]) /\
  (List.concat (JSMap.values performanceData) <> [] ->
   Forall (fun i => title i <> "Start Tracking")
          (generatePerformanceInsights performanceData)) /\
  (List.length (generatePerformanceInsights performanceData) <= 5)%nat.
Proof.
  unfold generatePerformanceInsights. cbv zeta.
  destruct (lengthZ (getAllPerformanceData performanceData) =? 0) eqn:Hempty.
  - apply Z.eqb_eq, allData_empty in Hempty.
    split; [reflexivity |]. split; [congruence | simpl; lia].
  - apply Z.eqb_neq in Hempty. rewrite allData_empty in Hempty.
    split; [congruence |]. split; [| apply List.firstn_le_length].
    intros _. apply List.Forall_forall. intros i Hi. apply slice0_In in Hi.
    destruct (sortDescBy snd _) as [|top rest];
      split_insights Hi; subst i; discriminate.
Qed.

(** Records of three assets against no record at all. *)
Lemma generatePerformanceInsights_start_witness :
  generatePerformanceInsights [] = [startTracking] /\
  Forall (fun i => title i <> "Start Tracking")
         (generatePerformanceInsights somePerformance).
Proof.
  split.
  - apply (proj1 (generatePerformanceInsights_start [])). reflexivity.
  - apply (proj1 (proj2 (generatePerformanceInsights_start somePerformance))).
    discriminate.
Defined.

(** The best of three records, reported as the top performer. *)
Lemma top_performer_is_best_witness :
  exists d : AssetPerformance,
    In d (List.concat (JSMap.values somePerformance)) /\
    assetId d = "a2" /\ (rateOf d == 10)%Q /\
    forall d' : AssetPerformance,
      In d' (List.concat (JSMap.values somePerformance)) -> (rateOf d' <= rateOf d)%Q.
Proof.
  destruct (proj2 (top_performer_is_best somePerformance)
              {| type := top_performer;
                 title := "Top Performing Asset";
                 message := "Your banner on instagram achieved 10.00% engagement.";
                 assetIds := Some ["a2"];
                 metric := Some "engagementRate";
                 value := Some (2000 # 200) |})
    as (d & Hd & Hvalue & Hids & Hpos & Hmax).
  - vm_compute. left. reflexivity.
  - reflexivity.
  - exists d. simpl in Hvalue, Hids.
    injection Hvalue as Hvalue. injection Hids as Hids.
    repeat split; [assumption | congruence | rewrite <- Hvalue; reflexivity | assumption].
Defined.

Lemma set_keys {V : Type} (key k : string) (v : V) (m : JSMap.t V) :
  In k (map fst (JSMap.set key v m)) <-> In k (map fst m) \/ k = key.
Proof.
  induction m as [|[k' old] m IH]; simpl.
  - intuition congruence.
  - destruct (String.eqb k' key) eqn:E; simpl.
    + apply String.eqb_eq in E. subst k'. intuition congruence.
    + rewrite IH. intuition congruence.
Qed.

Lemma set_wellFormed {V : Type} (key : string) (v : V) (m : JSMap.t V) :
  JSMap.wellFormed m -> JSMap.wellFormed (JSMap.set key v m).
Proof.
  unfold JSMap.wellFormed. induction m as [|[k' old] m IH]; simpl; intros H.
  - apply List.NoDup_cons; [simpl; tauto | apply List.NoDup_nil].
  - inversion H as [|? ? Hnotin Hrest]; subst.
    destruct (String.eqb k' key) eqn:E; simpl.
    + now apply List.NoDup_cons.
    + apply List.NoDup_cons; [| now apply IH].
      rewrite set_keys. intros [Hin | ->]; [contradiction |].
      now rewrite String.eqb_refl in E.
Qed.

Lemma get_Some_key {V : Type} (key : string) (v : V) (m : JSMap.t V) :
  JSMap.get key m = Some v -> In key (map fst m).
Proof.
  induction m as [|[k' old] m IH]; simpl; [discriminate |].
  destruct (String.eqb k' key) eqn:E.
  - apply String.eqb_eq in E. now left.
  - intros H. right. now apply IH.
Qed.

(** The groups are keyed by the keys of the records, each key once. *)
Lemma groupBy_keys (key : AssetPerformance -> string) (allData : list AssetPerformance) :
  JSMap.wellFormed (groupBy key allData) /\
  forall k : string,
    In k (map fst (groupBy key allData)) -> exists d, In d allData /\ key d = k.
Proof.
  unfold groupBy.
  assert (H : forall m : JSMap.t (list AssetPerformance),
             JSMap.wellFormed m ->
             JSMap.wellFormed
               (fold_left (fun groups d => addToGroup (key d) d groups) allData m) /\
             forall k : string,
               In k (map fst (fold_left (fun groups d => addToGroup (key d) d groups)
                                        allData m)) ->
               In k (map fst m) \/ exists d, In d allData /\ key d = k).
  { induction allData as [|d ds IH]; intros m Hm; simpl.
    - split; [assumption | auto].
    - destruct (IH (addToGroup (key d) d m)) as [Hwf Hkeys].
      { now apply set_wellFormed. }
      split; [assumption |].
      intros k Hk. apply Hkeys in Hk as [Hk | (d' & Hd' & Hkey)].
      + unfold addToGroup in Hk. apply set_keys in Hk as [Hk | ->]; eauto.
      + eauto. }
  destruct (H [] (List.NoDup_nil _)) as [Hwf Hkeys]. split; [assumption |].
  intros k Hk. apply Hkeys in Hk as [[] | Hk]. exact Hk.
Qed.

Lemma filter_split_length {A : Type} (f g : A -> bool) (xs : list A) :
  (forall x, g x = negb (f x)) ->
  (List.length (List.filter f xs) + List.length (List.filter g xs))%nat = List.length xs.
Proof.
  intros Hfg. induction xs as [|x xs IH]; simpl; [reflexivity |].
  rewrite Hfg. destruct (f x); simpl; lia.
Qed.

(** With at most two keys in use, at least two of the four candidate types
    are missing. *)
Lemma missing_at_least_two (groups : JSMap.t (list AssetPerformance)) :
  JSMap.wellFormed groups -> (List.length groups <= 2)%nat ->
  (2 <= List.length
          (List.filter
             (fun t => match JSMap.get t groups with Some _ => false | None => true end)
             candidateTypes))%nat.
Proof.
  intros Hwf Hlen.
  set (present := fun t => match JSMap.get t groups with Some _ => true | None => false end).
  assert (Hsplit : (List.length (List.filter present candidateTypes)
                    + List.length
                        (List.filter
                           (fun t => match JSMap.get t groups with
                                     | Some _ => false
                                     | None => true
                                     end) candidateTypes))%nat = 4%nat).
  { rewrite filter_split_length; [reflexivity |].
    intros t. unfold present. now destruct (JSMap.get t groups). }
  assert (Hpresent : (List.length (List.filter present candidateTypes)
                      <= List.length (map fst groups))%nat).
  { apply NoDup_incl_length.
    - apply List.NoDup_filter. apply NoDup_ListNoDup.
      unfold candidateTypes. compute_done.
    - intros t Ht. apply filter_In in Ht as [_ Ht]. unfold present in Ht.
      destruct (JSMap.get t groups) eqn:E; [| discriminate].
      now apply get_Some_key in E. }
  rewrite length_map in Hpresent. lia.
Qed.

(** X20: when performance has been recorded for at most two asset types, the
    advice to diversify the content is always among the insights. *)
Theorem diversify_when_few_types
    (performanceData : JSMap.t (list AssetPerformance)) (t1 t2 : string) :
  List.concat (JSMap.values performanceData) <> [] ->
  Forall (fun d => assetType d = t1 \/ assetType d = t2)
         (List.concat (JSMap.values performanceData)) ->
  Exists (fun i => type i = recommendation /\ title i = "Diversify Content")
         (generatePerformanceInsights performanceData).
Proof.
  intros Hdata Htypes. unfold generatePerformanceInsights. cbv zeta.
  set (allData := getAllPerformanceData performanceData).
  destruct (lengthZ allData =? 0) eqn:Hempty;
    [apply Z.eqb_eq, allData_empty in Hempty; contradiction |].
  destruct (groupBy_keys assetType allData) as [Hwf Hkeys].
  set (byType := groupBy assetType allData) in *.
  assert (Hfew : (List.length byType <= 2)%nat).
  { rewrite <- (length_map fst).
    change 2%nat with (List.length [t1; t2]).
    apply NoDup_incl_length; [exact Hwf |].
    intros k Hk. apply Hkeys in Hk as (d & Hd & <-).
    apply allData_In in Hd.
    rewrite List.Forall_forall in Htypes. destruct (Htypes d Hd) as [-> | ->];
      simpl; auto. }
  assert (Hlen : (lengthZ byType <? 3) = true) by (apply Z.ltb_lt; unfold lengthZ; lia).
  rewrite Hlen.
  pose proof (missing_at_least_two byType Hwf Hfew) as Hmissing.
  match goal with
  | H : (2 <= List.length ?l)%nat |- _ =>
      assert (Hsome : (0 <? lengthZ l) = true) by (apply Z.ltb_lt; unfold lengthZ; lia)
  end.
  rewrite Hsome.
  apply List.Exists_exists. eexists. split.
  - destruct (sortDescBy snd _) as [|top rest];
      repeat match goal with
             | |- context [if ?c then _ else _] => destruct c
             | |- context [match ?o with Some _ => _ | None => _ end] => destruct o
             end; unfold push, slice0; simpl; auto 10.
  - split; reflexivity.
Qed.

(** Memes and banners only: carousels and videos are suggested. *)
Lemma diversify_when_few_types_witness :
  Exists (fun i => type i = recommendation /\ title i = "Diversify Content")
         (generatePerformanceInsights somePerformance).
Proof.
  apply (diversify_when_few_types somePerformance "meme" "banner").
  - discriminate.
  - repeat (apply List.Forall_cons; [simpl; auto |]). apply List.Forall_nil.
Defined.

End FeedbackInsightFacts.

(** ** More on the whispers *)

Module WhisperMoreFacts.
Import JS Storage WhisperService WhisperSpec WhisperNotes Samples.
Import JSFacts JSMapFacts HealthScoreMoreFacts.

Section ThreeRanks.
Context {A : Type} (rank : A -> Z).

Lemma insertBy_front (x : A) (xs : list A) :
  List.Forall (fun y => rank x <= rank y) xs -> insertBy rank x xs = x :: xs.
Proof.
  destruct 1 as [|y ys Hy _]; simpl; [reflexivity |].
  apply Z.leb_le in Hy. now rewrite Hy.
Qed.

Lemma insertBy_skip (x : A) (before after : list A) :
  List.Forall (fun y => rank y < rank x) before ->
  insertBy rank x (before ++ after) = (before ++ insertBy rank x after)%list.
Proof.
  induction 1 as [|y ys Hy _ IH]; simpl; [reflexivity |].
  apply Z.leb_gt in Hy. now rewrite Hy, IH.
Qed.

Lemma Forall_filter_rank (k : Z) (xs : list A) :
  List.Forall (fun y => rank y = k) (List.filter (fun y => rank y =? k) xs).
Proof.
  apply List.Forall_forall. intros y Hy. apply filter_In in Hy as [_ Hy].
  now apply Z.eqb_eq.
Qed.

(** A stable sort on three ranks lists the elements of rank 0, then those of
    rank 1, then those of rank 2, each group in its original order. *)
Lemma sortBy_three_ranks (xs : list A) :
  List.Forall (fun x => rank x = 0 \/ rank x = 1 \/ rank x = 2) xs ->
  sortBy rank xs
  = (List.filter (fun x => rank x =? 0) xs
     ++ List.filter (fun x => rank x =? 1) xs
     ++ List.filter (fun x => rank x =? 2) xs)%list.
Proof.
  induction 1 as [|x xs Hx _ IH]; [reflexivity |].
  change (sortBy rank (x :: xs)) with (insertBy rank x (sortBy rank xs)).
  rewrite IH. clear IH.
  pose proof (Forall_filter_rank 0 xs) as H0.
  pose proof (Forall_filter_rank 1 xs) as H1.
  pose proof (Forall_filter_rank 2 xs) as H2.
  simpl List.filter.
  destruct Hx as [E | [E | E]]; rewrite E; simpl Z.eqb; cbv iota.
  - apply insertBy_front. rewrite !List.Forall_app. repeat split;
      (eapply List.Forall_impl; [| eassumption]); intros y Hy; simpl in Hy; lia.
  - rewrite insertBy_skip
      by (eapply List.Forall_impl; [| exact H0]; intros y Hy; simpl in Hy; lia).
    f_equal. apply insertBy_front. rewrite List.Forall_app. split;
      (eapply List.Forall_impl; [| eassumption]); intros y Hy; simpl in Hy; lia.
  - rewrite insertBy_skip
      by (eapply List.Forall_impl; [| exact H0]; intros y Hy; simpl in Hy; lia).
    f_equal.
    rewrite insertBy_skip
      by (eapply List.Forall_impl; [| exact H1]; intros y Hy; simpl in Hy; lia).
    f_equal. apply insertBy_front.
    eapply List.Forall_impl; [| exact H2]. intros y Hy. simpl in Hy. lia.
Qed.

End ThreeRanks.

Lemma filter_ext_eq {A : Type} (f g : A -> bool) (xs : list A) :
  (forall x, f x = g x) -> List.filter f xs = List.filter g xs.
Proof.
  intros H. induction xs as [|x xs IH]; simpl; [reflexivity |].
  now rewrite H, IH.
Qed.

(** X21: the whispers returned are the first five of the gathered whispers of
    high priority, followed by those of medium and then those of low
    priority, each group in the order in which the analyses produced it. *)
Theorem generateWhispers_by_priority (w : World) :
  generateWhispers w
  = slice0 5 (List.filter isHigh (gatherWhispers w)
              ++ List.filter isMedium (gatherWhispers w)
              ++ List.filter isLow (gatherWhispers w))%list.
Proof.
  unfold generateWhispers. f_equal.
  rewrite sortBy_three_ranks.
  - f_equal; [| f_equal]; apply filter_ext_eq; intros x;
      unfold isHigh, isMedium, isLow; now destruct (priority x).
  - apply List.Forall_forall. intros x _. destruct (priority x); simpl; auto.
Qed.

Lemma fold_left_Forall {A B : Type} (P : A -> Prop) (f : list A -> B -> list A)
    (xs : list B) (acc : list A) :
  (forall acc x, List.Forall P acc -> List.Forall P (f acc x)) ->
  List.Forall P acc -> List.Forall P (fold_left f xs acc).
Proof.
  intros Hstep. revert acc. induction xs as [|x xs IH]; intros acc Hacc; simpl; auto.
Qed.

Lemma Forall_push {A : Type} (P : A -> Prop) (acc : list A) (x : A) :
  List.Forall P acc -> P x -> List.Forall P (push acc x).
Proof.
  intros Hacc Hx. unfold push. apply List.Forall_app. split; [assumption |].
  constructor; [assumption | constructor].
Qed.

Lemma filter_none {A : Type} (f : A -> bool) (xs : list A) :
  List.Forall (fun x => f x = false) xs -> List.filter f xs = [].
Proof.
  induction 1 as [|x xs Hx _ IH]; simpl; [reflexivity |]. now rewrite Hx.
Qed.

Lemma analyzeAssetDistribution_not_high (w : World) (assets : list StoredAsset) :
  List.Forall (fun x => isHigh x = false) (analyzeAssetDistribution w assets).
Proof.
  unfold analyzeAssetDistribution. cbv zeta.
  destruct (lengthZ assets =? 0); [constructor |].
  apply fold_left_Forall.
  - intros acc [type count] Hacc.
    destruct (Qltb _ _); [apply Forall_push; [assumption | reflexivity] | assumption].
  - apply fold_left_Forall; [| constructor].
    intros acc type Hacc.
    destruct (underShare _ _ _ _); [apply Forall_push; [assumption | reflexivity] | assumption].
Qed.

Lemma analyzeTimingPatterns_not_high (w : World) (campaigns : list StoredCampaign) :
  List.Forall (fun x => isHigh x = false) (analyzeTimingPatterns w campaigns).
Proof.
  unfold analyzeTimingPatterns. cbv zeta.
  destruct campaigns as [|lastCampaign rest]; [constructor |].
  destruct (14 <? _), (5 <=? _); unfold push; simpl; repeat constructor.
Qed.

Lemma generateOpportunities_not_high (w : World) (campaigns : list StoredCampaign)
    (assets : list StoredAsset) :
  List.Forall (fun x => isHigh x = false) (generateOpportunities w campaigns assets).
Proof.
  unfold generateOpportunities. cbv zeta.
  destruct ((month w =? 11) || (month w =? 0)), (dayOfWeek w =? 1),
    ((_ <? 3) && (2 <? _)); unfold push; simpl; repeat constructor.
Qed.

Lemma analyzePillarUsage_not_high (w : World) (campaigns : list StoredCampaign) :
  List.Forall (fun x => isHigh x = false) (analyzePillarUsage w campaigns).
Proof.
  unfold analyzePillarUsage. cbv zeta.
  destruct (lengthZ campaigns <? 3); [constructor |].
  apply fold_left_Forall; [| constructor].
  intros acc pillar Hacc.
  destruct (underShare _ _ _ _); [apply Forall_push; [assumption | reflexivity] | assumption].
Qed.

Lemma analyzeCampaignPatterns_at_most_two (w : World) (campaigns : list StoredCampaign) :
  (List.length (analyzeCampaignPatterns w campaigns) <= 2)%nat.
Proof.
  unfold analyzeCampaignPatterns. cbv zeta.
  destruct (lengthZ campaigns <? 2); [simpl; lia |].
  destruct (Qltb _ 60); [| destruct (Qle_bool 80 _)];
    (destruct (3 <=? _); [| unfold push; simpl; lia]);
    (destruct (map healthOf _) as [|s0 [|s1 [|s2 rest]]]; try (unfold push; simpl; lia));
    destruct ((s0 <? s1) && (s1 <? s2)); unfold push; simpl; lia.
Qed.

Lemma high_whispers (w : World) (campaigns : list StoredCampaign)
    (assets : list StoredAsset) :
  getAllCampaigns w = Some campaigns -> getAllAssets w = Some assets ->
  List.filter isHigh (gatherWhispers w)
  = List.filter isHigh (analyzeCampaignPatterns w campaigns).
Proof.
  intros Hc Ha. unfold gatherWhispers. rewrite Hc, Ha.
  rewrite !List.filter_app.
  rewrite (filter_none _ _ (analyzeAssetDistribution_not_high w assets)).
  rewrite (filter_none _ _ (analyzeTimingPatterns_not_high w campaigns)).
  rewrite (filter_none _ _ (generateOpportunities_not_high w campaigns assets)).
  rewrite (filter_none _ _ (analyzePillarUsage_not_high w campaigns)).
  simpl. now rewrite app_nil_r.
Qed.

Lemma high_whispers_at_most_two (w : World) :
  (List.length (List.filter isHigh (gatherWhispers w)) <= 2)%nat.
Proof.
  destruct (getAllCampaigns w) as [campaigns|] eqn:Hc;
    [destruct (getAllAssets w) as [assets|] eqn:Ha |].
  - rewrite (high_whispers w campaigns assets Hc Ha).
    pose proof (List.filter_length_le isHigh (analyzeCampaignPatterns w campaigns)).
    pose proof (analyzeCampaignPatterns_at_most_two w campaigns). lia.
  - unfold gatherWhispers. rewrite Hc, Ha. simpl. lia.
  - unfold gatherWhispers. rewrite Hc. simpl. lia.
Qed.

Lemma In_slice0_prefix {A : Type} (n : nat) (x : A) (front back : list A) :
  In x front -> (List.length front <= n)%nat -> In x (slice0 n (front ++ back)).
Proof.
  intros Hx Hlen. unfold slice0. rewrite List.firstn_app.
  apply in_or_app. left. now rewrite List.firstn_all2.
Qed.

(** X22: the limit of five never cuts a whisper of high priority: at most two
    such whispers are ever gathered, and each of them is returned. *)
Theorem high_priority_never_dropped (w : World) :
  (List.length (List.filter isHigh (gatherWhispers w)) <= 2)%nat /\
  forall x : Whisper,
    In x (gatherWhispers w) -> priority x = high -> In x (generateWhispers w).
Proof.
  pose proof (high_whispers_at_most_two w) as Htwo.
  split; [exact Htwo |].
  intros x Hx Hp. unfold generateWhispers.
  rewrite sortBy_three_ranks
    by (apply List.Forall_forall; intros y _; destruct (priority y); simpl; auto).
  assert (Heq : List.filter (fun y => priorityOrder (priority y) =? 0) (gatherWhispers w)
                = List.filter isHigh (gatherWhispers w)).
  { apply filter_ext_eq. intros y. unfold isHigh. now destruct (priority y). }
  rewrite Heq. apply In_slice0_prefix; [| lia].
  apply filter_In. split; [assumption |]. unfold isHigh. now rewrite Hp.
Qed.

(** The warning about weak health scores on a December Monday, with seven
    whispers gathered. *)
Lemma high_priority_never_dropped_witness :
  exists x : Whisper,
    title x = "Health Scores Trending Low" /\ In x (generateWhispers decemberBusy).
Proof.
  pose proof (proj2 (high_priority_never_dropped decemberBusy)) as H.
  eexists. split; cycle 1.
  - apply H; [vm_compute; do 4 right; left; reflexivity | reflexivity].
  - reflexivity.
Defined.

End WhisperMoreFacts.
Module WhisperPatternFacts.
Import JS Storage WhisperService WhisperSpec WhisperNotes Samples WhisperSamples.
Import JSFacts JSMapFacts HealthScoreMoreFacts WhisperMoreFacts.

Lemma bump_total (key : string) (counts : list (string * Z)) :
  totalOf (bump key counts) = totalOf counts + 1.
Proof.
  induction counts as [|[k n] rest IH]; simpl; [lia |].
  destruct (String.eqb k key); simpl; lia.
Qed.

Lemma bump_positive (key : string) (counts : list (string * Z)) :
  List.Forall (fun entry => 0 < snd entry) counts ->
  List.Forall (fun entry => 0 < snd entry) (bump key counts).
Proof.
  induction 1 as [|[k n] rest Hn Hrest IH]; simpl.
  - constructor; [simpl; lia | constructor].
  - simpl in Hn. destruct (String.eqb k key); constructor; simpl; auto; lia.
Qed.

(** The tally of a list of keys: every count is positive and the counts add
    up to the number of keys. *)
Lemma tally_total {A : Type} (key : A -> string) (xs : list A)
    (counts : list (string * Z)) :
  List.Forall (fun entry => 0 < snd entry) counts ->
  List.Forall (fun entry => 0 < snd entry)
              (fold_left (fun counts a => bump (key a) counts) xs counts) /\
  totalOf (fold_left (fun counts a => bump (key a) counts) xs counts)
  = totalOf counts + lengthZ xs.
Proof.
  revert counts. induction xs as [|x xs IH]; intros counts Hpos; simpl.
  - unfold lengthZ. simpl. split; [assumption | lia].
  - destruct (IH (bump (key x) counts) (bump_positive _ _ Hpos)) as [H1 H2].
    split; [assumption |]. rewrite H2, bump_total. unfold lengthZ.
    rewrite length_cons. lia.
Qed.

Lemma over_sixty_iff (total count : Z) :
  Qltb (inject_Z total * 0.6) (inject_Z count) = true <-> 6 * total < 10 * count.
Proof.
  unfold Qltb. rewrite negb_true_iff. split.
  - intros H. destruct (Z_lt_le_dec (6 * total) (10 * count)) as [Hlt | Hge]; [assumption |].
    assert (Hle : (inject_Z count <= inject_Z total * 0.6)%Q)
      by (unfold Qle; simpl; lia).
    apply Qle_bool_iff in Hle. congruence.
  - intros H. destruct (Qle_bool _ _) eqn:E; [| reflexivity].
    apply Qle_bool_iff in E. unfold Qle in E. simpl in E. lia.
Qed.

(** Of counts that add up to the total, at most one exceeds 60% of it. *)
Lemma over_sixty_once (total : Z) (counts : list (string * Z)) :
  0 < total ->
  List.Forall (fun entry => 0 < snd entry) counts ->
  totalOf counts = total ->
  (List.length (List.filter
     (fun entry => Qltb (inject_Z total * 0.6) (inject_Z (snd entry))) counts) <= 1)%nat.
Proof.
  intros Htotal Hpos Hsum.
  assert (H : (6 * total + 1)
              * Z.of_nat (List.length (List.filter
                  (fun entry => Qltb (inject_Z total * 0.6) (inject_Z (snd entry))) counts))
              <= 10 * totalOf counts).
  { clear Hsum. induction Hpos as [|[k n] rest Hn _ IH]; simpl; [lia |].
    simpl in Hn. destruct (Qltb _ _) eqn:E; simpl List.length.
    - apply over_sixty_iff in E. rewrite Nat2Z.inj_succ. lia.
    - lia. }
  rewrite Hsum in H. nia.
Qed.

Lemma isImbalance_push (acc : list Whisper) (x : Whisper) :
  List.length (List.filter isImbalance (push acc x))
  = (List.length (List.filter isImbalance acc) + (if isImbalance x then 1 else 0))%nat.
Proof.
  unfold push. rewrite List.filter_app, length_app. simpl.
  destruct (isImbalance x); reflexivity.
Qed.

(** X23: no asset gives no whisper about the asset mix; otherwise at most five
    are given, of which at most one says that a single asset type outweighs
    the others. *)
Theorem analyzeAssetDistribution_one_imbalance (w : World) (assets : list StoredAsset) :
  analyzeAssetDistribution w [] = [] /\
  (List.length (List.filter isImbalance (analyzeAssetDistribution w assets)) <= 1)%nat /\
  (List.length (analyzeAssetDistribution w assets) <= 5)%nat.
Proof.
  split; [reflexivity |].
  unfold analyzeAssetDistribution. cbv zeta.
  destruct (lengthZ assets =? 0) eqn:Hempty; [simpl; lia | apply Z.eqb_neq in Hempty].
  pose proof (lengthZ_nonneg assets) as Hnn.
  destruct (tally_total Storage.type assets [] (List.Forall_nil _)) as [Hpos Hsum].
  change (totalOf []) with 0 in Hsum.
  set (byType := fold_left (fun counts a => bump (Storage.type a) counts) assets []) in *.
  pose proof (over_sixty_once (lengthZ assets) byType ltac:(lia) Hpos ltac:(lia)) as Hone.
  set (over := fun entry : string * Z =>
                 Qltb (inject_Z (lengthZ assets) * 0.6) (inject_Z (snd entry))) in *.
  set (under := fold_left _ assetTypes []).
  assert (Hunder : List.length (List.filter isImbalance under) = 0%nat
                   /\ (List.length under <= 4)%nat).
  { unfold under, assetTypes. simpl fold_left.
    repeat match goal with
           | |- context [if ?c then _ else _] => destruct c
           end; unfold push; simpl; split; first [reflexivity | lia]. }
  destruct Hunder as [Hnone Hfour].
  match goal with
  | |- context [fold_left ?f byType under] =>
      assert (Hfold : forall (entries : list (string * Z)) (acc : list Whisper),
                List.length (List.filter isImbalance (fold_left f entries acc))
                = (List.length (List.filter isImbalance acc)
                   + List.length (List.filter over entries))%nat
                /\ List.length (fold_left f entries acc)
                   = (List.length acc + List.length (List.filter over entries))%nat)
  end.
  { induction entries as [|[type count] entries IH]; intros acc; simpl; [lia |].
    match goal with
    | |- context [fold_left _ entries ?a] => destruct (IH a) as [IH1 IH2]
    end.
    rewrite IH1, IH2. unfold over. simpl snd.
    destruct (Qltb _ (inject_Z count)); [| lia].
    rewrite isImbalance_push, length_push. simpl. lia. }
  destruct (Hfold byType under) as [H1 H2]. rewrite H1, H2. lia.
Qed.

Lemma fold_left_Forall_sum_lower (lo : Z) (cs : list StoredCampaign) (start : Z) :
  List.Forall (fun c => lo <= healthOf c) cs ->
  start + lo * lengthZ cs <= fold_left (fun sum c => sum + healthOf c) cs start.
Proof.
  intros H. revert start. induction H as [|c cs Hc _ IH]; intros start.
  - unfold lengthZ. simpl. lia.
  - simpl fold_left. specialize (IH (start + healthOf c)).
    unfold lengthZ in *. rewrite length_cons. lia.
Qed.

Lemma fold_left_Forall_sum_upper (hi : Z) (cs : list StoredCampaign) (start : Z) :
  List.Forall (fun c => healthOf c <= hi) cs ->
  fold_left (fun sum c => sum + healthOf c) cs start <= start + hi * lengthZ cs.
Proof.
  intros H. revert start. induction H as [|c cs Hc _ IH]; intros start.
  - unfold lengthZ. simpl. lia.
  - simpl fold_left. specialize (IH (start + healthOf c)).
    unfold lengthZ in *. rewrite length_cons. lia.
Qed.

Lemma recent_nonempty {A : Type} (xs : list A) :
  (lengthZ xs <? 2) = false -> 0 < lengthZ (slice0 5 xs).
Proof.
  intros H. apply Z.ltb_ge in H. unfold lengthZ, slice0 in *.
  rewrite length_firstn. lia.
Qed.

Lemma average_at_least (bound total n : Z) :
  0 < n -> bound * n <= total ->
  (inject_Z bound <= inject_Z total / inject_Z n)%Q.
Proof.
  intros Hn H. apply Qle_shift_div_l; [now apply inject_pos |].
  rewrite <- inject_Z_mult. now apply inject_le.
Qed.

Lemma average_below (bound total n : Z) :
  0 < n -> total < bound * n ->
  (inject_Z total / inject_Z n < inject_Z bound)%Q.
Proof.
  intros Hn H. apply Qlt_shift_div_r; [now apply inject_pos |].
  rewrite <- inject_Z_mult. unfold Qlt. simpl. lia.
Qed.

Ltac split_patterns :=
  repeat match goal with
         | |- context [if ?c then _ else _] => destruct c
         | |- context [match map healthOf ?l with _ => _ end] =>
             destruct (map healthOf l) as [|? [|? [|? ?]]]
         end.

(** X24: the warning about low health scores is an average of the five most
    recently updated campaigns: it is not given when each of them scores at
    least 60, it is given when there are two campaigns or more and each of the
    five scores below 60, and the praise for strong performance is not given
    when each of them scores below 80. *)
Theorem analyzeCampaignPatterns_average (w : World) (campaigns : list StoredCampaign) :
  (List.Forall (fun c => 60 <= healthOf c) (slice0 5 campaigns) ->
   List.Forall (fun x => title x <> "Health Scores Trending Low")
               (analyzeCampaignPatterns w campaigns)) /\
  (List.Forall (fun c => healthOf c < 80) (slice0 5 campaigns) ->
   List.Forall (fun x => title x <> "Strong Campaign Performance")
               (analyzeCampaignPatterns w campaigns)) /\
  (2 <= lengthZ campaigns ->
   List.Forall (fun c => healthOf c < 60) (slice0 5 campaigns) ->
   List.Exists (titled "Health Scores Trending Low")
               (analyzeCampaignPatterns w campaigns)).
Proof.
  unfold analyzeCampaignPatterns. cbv zeta.
  destruct (lengthZ campaigns <? 2) eqn:Hfew.
  { repeat split; intros; try apply List.Forall_nil. apply Z.ltb_lt in Hfew. lia. }
  pose proof (recent_nonempty campaigns Hfew) as Hn.
  set (recent := slice0 5 campaigns) in *.
  set (total := fold_left (fun sum c => sum + healthOf c) recent 0).
  set (avg := (inject_Z total / inject_Z (lengthZ recent))%Q).
  split; [| split].
  - intros Hall.
    assert (Hsum : 60 * lengthZ recent <= total).
    { pose proof (fold_left_Forall_sum_lower 60 recent 0 Hall). unfold total. lia. }
    assert (Hlow : Qltb avg 60 = false).
    { unfold Qltb. apply negb_false_iff, Qle_bool_iff.
      now apply (average_at_least 60). }
    rewrite Hlow. split_patterns; unfold push; simpl;
      repeat (apply List.Forall_cons; [simpl; discriminate |]); apply List.Forall_nil.
  - intros Hall.
    assert (Hsum : total < 80 * lengthZ recent).
    { pose proof (fold_left_Forall_sum_upper 79 recent 0) as H. unfold total.
      assert (List.Forall (fun c => healthOf c <= 79) recent)
        by (eapply List.Forall_impl; [| exact Hall]; simpl; intros; lia).
      specialize (H ltac:(assumption)). lia. }
    assert (Hstrong : Qle_bool 80 avg = false).
    { destruct (Qle_bool 80 avg) eqn:E; [| reflexivity].
      apply Qle_bool_iff in E.
      pose proof (average_below 80 total (lengthZ recent) Hn Hsum) as Hlt.
      fold avg in Hlt. change (inject_Z 80) with 80%Q in Hlt.
      exfalso. apply (Qlt_not_le _ _ Hlt E). }
    rewrite Hstrong. split_patterns; unfold push; simpl;
      repeat (apply List.Forall_cons; [simpl; discriminate |]); apply List.Forall_nil.
  - intros _ Hall.
    assert (Hsum : total < 60 * lengthZ recent).
    { pose proof (fold_left_Forall_sum_upper 59 recent 0) as H. unfold total.
      assert (List.Forall (fun c => healthOf c <= 59) recent)
        by (eapply List.Forall_impl; [| exact Hall]; simpl; intros; lia).
      specialize (H ltac:(assumption)). lia. }
    assert (Hlow : Qltb avg 60 = true).
    { unfold Qltb. apply negb_true_iff.
      destruct (Qle_bool 60 avg) eqn:E; [| reflexivity].
      apply Qle_bool_iff in E.
      pose proof (average_below 60 total (lengthZ recent) Hn Hsum) as Hlt.
      fold avg in Hlt. change (inject_Z 60) with 60%Q in Hlt.
      exfalso. apply (Qlt_not_le _ _ Hlt E). }
    rewrite Hlow. split_patterns; unfold push; simpl;
      apply List.Exists_cons_hd; reflexivity.
Qed.

Lemma analyzeCampaignPatterns_average_witness :
  List.Forall (fun x => title x <> "Health Scores Trending Low")
    (analyzeCampaignPatterns decemberEmpty
       [aCampaign "c2" 1765100000000 (Some 70); aCampaign "c1" 1765000000000 (Some 65)]) /\
  List.Forall (fun x => title x <> "Strong Campaign Performance")
    (analyzeCampaignPatterns decemberEmpty
       [aCampaign "c2" 1765100000000 (Some 70); aCampaign "c1" 1765000000000 (Some 65)]) /\
  List.Exists (titled "Health Scores Trending Low")
    (analyzeCampaignPatterns decemberEmpty
       [aCampaign "c2" 1765100000000 (Some 55); aCampaign "c1" 1765000000000 (Some 40)]).
Proof.
  split; [| split].
  - apply (proj1 (analyzeCampaignPatterns_average decemberEmpty _)).
    repeat (apply List.Forall_cons; [vm_compute; discriminate |]). apply List.Forall_nil.
  - apply (proj1 (proj2 (analyzeCampaignPatterns_average decemberEmpty _))).
    repeat (apply List.Forall_cons; [vm_compute; reflexivity |]). apply List.Forall_nil.
  - apply (proj2 (proj2 (analyzeCampaignPatterns_average decemberEmpty _))).
    + vm_compute. discriminate.
    + repeat (apply List.Forall_cons; [vm_compute; reflexivity |]). apply List.Forall_nil.
Defined.

(** X25: the campaigns being listed last updated first and none updated before
    it was created, the timing analysis gives at most one whisper: a long
    silence and a prolific week are never reported together. *)
Theorem analyzeTimingPatterns_at_most_one (w : World) (campaigns : list StoredCampaign) :
  lastUpdatedFirst campaigns -> updatedAfterCreated campaigns ->
  (List.length (analyzeTimingPatterns w campaigns) <= 1)%nat.
Proof.
  intros Hsorted Hcreated. destruct campaigns as [|c0 rest]; [simpl; lia |].
  unfold analyzeTimingPatterns. cbv zeta.
  destruct (14 <? _) eqn:Hsilent;
    destruct (5 <=? _) eqn:Hweek; try (unfold push; simpl; lia).
  exfalso. apply Z.ltb_lt in Hsilent. apply Z.leb_le in Hweek.
  destruct (List.filter _ (c0 :: rest)) as [|c l] eqn:Hfilter;
    [unfold lengthZ in Hweek; simpl in Hweek; lia |].
  assert (Hin : In c (List.filter
            (fun c => now w - 7 * 24 * 60 * 60 * 1000 <? Storage.createdAt c) (c0 :: rest)))
    by (rewrite Hfilter; now left).
  apply List.filter_In in Hin. destruct Hin as [Hin Hrecent].
  apply Z.ltb_lt in Hrecent.
  assert (Hc : Storage.createdAt c <= updatedAt c)
    by (unfold updatedAfterCreated in Hcreated;
        rewrite List.Forall_forall in Hcreated; now apply Hcreated).
  assert (Hlast : updatedAt c <= updatedAt c0).
  { destruct Hin as [<- | Hin]; [lia |].
    apply StronglySorted_inv in Hsorted. destruct Hsorted as [_ Hall].
    rewrite List.Forall_forall in Hall. now apply Hall. }
  assert (Hdays : (now w - updatedAt c0) / msPerDay < 7)
    by (apply Z.div_lt_upper_bound; unfold msPerDay; lia).
  lia.
Qed.

Lemma analyzeTimingPatterns_at_most_one_witness :
  (List.length (analyzeTimingPatterns decemberEmpty
     [aCampaign "c2" 1765100000000 None; aCampaign "c1" 1765000000000 None]) <= 1)%nat.
Proof.
  apply analyzeTimingPatterns_at_most_one.
  - repeat constructor; vm_compute; discriminate.
  - repeat constructor; vm_compute; discriminate.
Defined.

Lemma get_bump (p q : string) (counts : list (string * Z)) :
  get p (bump q counts)
  = if String.eqb q p then Some (orZero (get p counts) + 1) else get p counts.
Proof.
  induction counts as [|[k n] rest IH]; simpl.
  - destruct (String.eqb q p); reflexivity.
  - destruct (String.eqb k q) eqn:Ekq; simpl.
    + apply String.eqb_eq in Ekq. subst k.
      destruct (String.eqb q p); reflexivity.
    + destruct (String.eqb k p) eqn:Ekp; [| exact IH].
      apply String.eqb_eq in Ekp. subst k. now rewrite String.eqb_sym, Ekq.
Qed.

(** Tallying the pillars of one campaign. *)
Lemma tally_pillars (p : string) (ps : list string) (counts : list (string * Z)) :
  (existsb (String.eqb p) ps = true ->
   orZero (get p counts) + 1
   <= orZero (get p (fold_left (fun counts q => bump q counts) ps counts))) /\
  (existsb (String.eqb p) ps = false ->
   get p (fold_left (fun counts q => bump q counts) ps counts) = get p counts) /\
  orZero (get p counts)
  <= orZero (get p (fold_left (fun counts q => bump q counts) ps counts)).
Proof.
  revert counts. induction ps as [|q ps IH]; intros counts; simpl.
  - repeat split; [discriminate | lia].
  - destruct (IH (bump q counts)) as (IH1 & IH2 & IH3).
    assert (Hq : orZero (get p (bump q counts))
                 = orZero (get p counts) + (if String.eqb p q then 1 else 0)).
    { rewrite get_bump, (String.eqb_sym q p).
      destruct (String.eqb p q); simpl; lia. }
    split; [| split].
    + intros H. destruct (String.eqb p q); simpl in H; [lia |].
      specialize (IH1 H). lia.
    + intros H. apply orb_false_iff in H. destruct H as [Hpq H].
      rewrite (IH2 H), get_bump, String.eqb_sym, Hpq. reflexivity.
    + destruct (String.eqb p q); lia.
Qed.

(** Tallying the pillars of all the campaigns. *)
Lemma tally_campaigns (p : string) (cs : list StoredCampaign) (counts : list (string * Z)) :
  orZero (get p counts) + lengthZ (List.filter (features p) cs)
  <= orZero (get p (fold_left (fun counts c =>
       fold_left (fun counts q => bump q counts) (pillarsOf c) counts) cs counts))
  /\ (List.Forall (fun c => features p c = false) cs ->
      get p (fold_left (fun counts c =>
        fold_left (fun counts q => bump q counts) (pillarsOf c) counts) cs counts)
      = get p counts).
Proof.
  revert counts. induction cs as [|c cs IH]; intros counts; simpl.
  - unfold lengthZ. simpl. split; [lia | reflexivity].
  - destruct (tally_pillars p (pillarsOf c) counts) as (H1 & H2 & H3).
    destruct (IH (fold_left (fun counts q => bump q counts) (pillarsOf c) counts))
      as [IH1 IH2].
    split.
    + unfold features at 1. destruct (existsb _ _).
      * specialize (H1 eq_refl). unfold lengthZ in *. rewrite length_cons. lia.
      * lia.
    + intros Hall. inversion Hall as [|? ? Hc Hcs]; subst.
      rewrite (IH2 Hcs). now apply H2.
Qed.

Lemma underShare_fifth_false (counts : list (string * Z)) (key : string) (total : Z) :
  0 < total -> total <= 5 * orZero (get key counts) ->
  underShare counts key total 0.2 = false.
Proof.
  intros Htotal H. unfold underShare. destruct (get key counts) as [n|]; simpl in H; [| lia].
  apply orb_false_iff. split; [apply Z.eqb_neq; lia |].
  unfold Qltb. apply negb_false_iff, Qle_bool_iff. unfold Qle. simpl. lia.
Qed.

(** X26: with three campaigns or more, a pillar that at least one campaign in
    five lists in its brief is not reported as underused, and a pillar that
    no campaign lists is. *)
Theorem analyzePillarUsage_featured
    (w : World) (campaigns : list StoredCampaign) (pillar : string) :
  In pillar allPillars ->
  3 <= lengthZ campaigns ->
  (lengthZ campaigns <= 5 * lengthZ (List.filter (features pillar) campaigns) ->
   List.Forall (fun x => title x <> "Underused Pillar: " ++ underscores_to_spaces pillar)
               (analyzePillarUsage w campaigns)) /\
  (List.Forall (fun c => features pillar c = false) campaigns ->
   List.Exists (titled ("Underused Pillar: " ++ underscores_to_spaces pillar))
               (analyzePillarUsage w campaigns)).
Proof.
  intros Hin Hthree. unfold analyzePillarUsage. cbv zeta.
  destruct (lengthZ campaigns <? 3) eqn:Hfew; [apply Z.ltb_lt in Hfew; lia | clear Hfew].
  destruct (tally_campaigns pillar campaigns []) as [Hcount Hnone].
  simpl (orZero (get pillar [])) in Hcount. simpl (get pillar []) in Hnone.
  set (pillarCount := fold_left _ campaigns []) in *.
  split.
  - intros Hshare.
    assert (Hfalse : underShare pillarCount pillar (lengthZ campaigns) 0.2 = false)
      by (apply underShare_fifth_false; lia).
    unfold allPillars in *. simpl in Hin.
    destruct Hin as [<- | [<- | [<- | []]]]; simpl fold_left; rewrite Hfalse;
      repeat match goal with
             | |- context [if ?c then _ else _] => destruct c
             end; unfold push; simpl;
      repeat (apply List.Forall_cons; [simpl; discriminate |]); apply List.Forall_nil.
  - intros Hall. specialize (Hnone Hall).
    assert (Htrue : underShare pillarCount pillar (lengthZ campaigns) 0.2 = true)
      by (unfold underShare; now rewrite Hnone).
    unfold allPillars in *. simpl in Hin.
    destruct Hin as [<- | [<- | [<- | []]]]; simpl fold_left; rewrite Htrue;
      repeat match goal with
             | |- context [if ?c then _ else _] => destruct c
             end; unfold push; simpl;
      repeat first [ apply List.Exists_cons_hd; reflexivity | apply List.Exists_cons_tl ].
Qed.

Lemma analyzePillarUsage_featured_witness :
  List.Forall (fun x => title x <> "Underused Pillar: moments")
    (analyzePillarUsage decemberEmpty
       [aCampaignOn ["moments"]; aCampaignOn ["moments"]; aCampaignOn []]) /\
  List.Exists (titled "Underused Pillar: animator shift")
    (analyzePillarUsage decemberEmpty
       [aCampaignOn ["moments"]; aCampaignOn ["moments"]; aCampaignOn []]).
Proof.
  split.
  - apply (analyzePillarUsage_featured decemberEmpty _ "moments");
      [simpl; auto | vm_compute; discriminate | vm_compute; discriminate].
  - apply (analyzePillarUsage_featured decemberEmpty _ "animator_shift");
      [simpl; auto | vm_compute; discriminate |].
    repeat (apply List.Forall_cons; [reflexivity |]). apply List.Forall_nil.
Defined.

End WhisperPatternFacts.
